(** * TaxWise backend: the local ledger, its sessions and the dashboard figures

    A shallow embedding of [backend/local_auth.py] (the SQLite credential,
    session and transaction store), of the ingestion loop and the
    transactions route of [backend/app/routes/file_processing.py] and of
    the token, summary and insight helpers of
    [backend/app/routes/dashboard.py]. Each Python module is a module here.

    Conventions of the embedding.
    - A Python [dict] with string keys is a [gmap string pyval]; [d[k]]
      raises [KeyError] on a missing key, [d.get(k)] gives [None].
    - A [float] is given by its value, an exact rational ([Q]), and is
      added, divided and rounded as one. Binary floating point does the
      same on sums of multiples of [1/1024] of bounded size
      ([exactly_summable]); the statements about sums assume such amounts
      and the one about the savings rate allows for the rounding of the
      division.
    - An SQLite table is the list of its rows in rowid (insertion) order.
      A stored value is [NULL], a number or a text. A number that meets a
      TEXT column in a comparison or in [update_user_profile] becomes its
      text ([text_param]). The other coercions (a text that spells a
      number stored in [amount] or [date] or compared with [date], a
      number stored by [store_transaction] in a TEXT column, the cast
      inside [SUM], [float] of a text) are left out: there a value is
      taken as it was bound, and the statements that depend on it assume
      values of the type of their column ([typed], [typed_table]).
    - A function whose body is wrapped in [try: ... except Exception as e:
      return {'success': False, 'error': str(e)}] returns a [result]. *)

From Stdlib Require Import ZArith QArith Qround Qabs Lqa String Ascii List Bool Lia
  Sorted.
From stdpp Require Import gmap strings list fin_maps pretty.

Local Open Scope Z_scope.

(** ** Python and SQLite values *)

Inductive pyval : Type :=
| PNone
| PBool (b : bool)
| PInt (n : Z)
| PFloat (q : Q)         (* a finite float, given by its value *)
| PStr (s : string)
| PDate (iso : string)   (* a date or datetime, given by its isoformat() *)
| PObj.                  (* a true object of a type [sqlite3] has no adapter
                            for: a non-empty list, a dict, a set, ... *)

Abbreviation pydict := (gmap string pyval).

Inductive sqlval : Type :=
| SNull
| SNum (q : Q)
| SText (s : string).

(** Truth value of a Python object ([if x], [1 if x else 0]). *)
Definition py_truthy (v : pyval) : bool :=
  match v with
  | PNone => false
  | PBool b => b
  | PInt n => negb (n =? 0)
  | PFloat q => negb (Qeq_bool q 0)
  | PStr s => negb (String.eqb s "")
  | PDate _ => true
  | PObj => true
  end.

(** An [int] that fits SQLite's 64-bit INTEGER. *)
Definition in_int64 (n : Z) : bool := (- 2 ^ 63 <=? n) && (n <? 2 ^ 63).

(** The text the default adapter of [sqlite3] writes for a date or a
    datetime: [isoformat()] of a date, and [isoformat(" ")] of a
    datetime, which has a space where [isoformat()] has the [T] (the
    eleventh character). *)
Fixpoint adapter_text_from (n : nat) (iso : string) : string :=
  match iso with
  | EmptyString => EmptyString
  | String c rest =>
      match n with
      | O => String (if Ascii.eqb c "T" then " "%char else c) rest
      | S n' => String c (adapter_text_from n' rest)
      end
  end.

Definition adapter_text (iso : string) : string := adapter_text_from 10 iso.

(** What [sqlite3] binds for a Python parameter: [None], numbers and
    strings are supported, a [bool] is an [int], a date goes through the
    default adapter; an [int] outside 64 bits and an object without an
    adapter are refused. (Bytes-like objects, which are bound as BLOBs,
    are not among the values of the model.) *)
Definition adapt (v : pyval) : option sqlval :=
  match v with
  | PNone => Some SNull
  | PBool b => Some (SNum (if b then 1 else 0)%Q)
  | PInt n => if in_int64 n then Some (SNum (inject_Z n)) else None
  | PFloat q => Some (SNum q)
  | PStr s => Some (SText s)
  | PDate iso => Some (SText (adapter_text iso))
  | PObj => None
  end.

Definition is_null (v : sqlval) : bool :=
  match v with SNull => true | _ => false end.

(** SQL comparison of two values; [None] is SQL's NULL (unknown). Numbers
    sort before texts, texts compare bytewise (the BINARY collation). *)
Definition sql_compare (a b : sqlval) : option comparison :=
  match a, b with
  | SNull, _ | _, SNull => None
  | SNum p, SNum q => Some (p ?= q)%Q
  | SNum _, SText _ => Some Lt
  | SText _, SNum _ => Some Gt
  | SText s, SText t => Some (String.compare s t)
  end.

(** [a = b], [a >= b] and [a <= b] in a WHERE clause: a row is kept only
    when the comparison is true, so NULL counts as false. *)
Definition sql_eq (a b : sqlval) : bool :=
  match sql_compare a b with Some Eq => true | _ => false end.
Definition sql_ge (a b : sqlval) : bool :=
  match sql_compare a b with Some Eq | Some Gt => true | _ => false end.
Definition sql_le (a b : sqlval) : bool :=
  match sql_compare a b with Some Eq | Some Lt => true | _ => false end.

(** The order ORDER BY sorts in: NULL first, then numbers, then texts. *)
Definition order_compare (a b : sqlval) : comparison :=
  match a, b with
  | SNull, SNull => Eq
  | SNull, _ => Lt
  | _, SNull => Gt
  | SNum p, SNum q => (p ?= q)%Q
  | SNum _, SText _ => Lt
  | SText _, SNum _ => Gt
  | SText s, SText t => String.compare s t
  end.

(** [ORDER BY key DESC]: a greater key first; rows of one key stay in the
    order they are scanned in (the query names no second key). *)
Fixpoint insert_desc {A} (key : A → sqlval) (r : A) (l : list A) : list A :=
  match l with
  | [] => [r]
  | x :: l' =>
      match order_compare (key x) (key r) with
      | Gt => x :: insert_desc key r l'
      | _ => r :: x :: l'
      end
  end.

Definition order_desc {A} (key : A → sqlval) (l : list A) : list A :=
  foldr (insert_desc key) [] l.

(** ** Exceptions and results *)

Inductive exn : Type :=
| KeyError (key : string)      (* d[key] on a missing key *)
| AttributeError               (* x.isoformat() on a non-date, ... *)
| TypeError                    (* float(None), 0 + 'a', None[0], ... *)
| ValueError                   (* float('abc'), bad base64 or JSON, ... *)
| InterfaceError               (* sqlite3: parameter of unsupported type
                                  (a ProgrammingError since Python 3.11) *)
| OverflowError                (* sqlite3: Python int too large for INTEGER *)
| IntegrityError               (* sqlite3: UNIQUE or NOT NULL failed *)
| CollaboratorError.           (* raised inside an external collaborator *)

(** Pure code that may raise. *)
#[global] Instance exn_ret : MRet (sum exn) := λ A a, inr a.
#[global] Instance exn_bind : MBind (sum exn) := λ A B f m,
  match m with
  | inl e => inl e
  | inr a => f a
  end.

(** The [{'success': ..., ...}] dictionaries of [local_auth]: the error
    is either a literal message or [str(e)] of the caught exception. *)
Inductive failure : Type :=
| Message (msg : string)
| Raised (e : exn).

Inductive result (A : Type) : Type :=
| Success (a : A)
| Fail (error : failure).
Arguments Success {A} a.
Arguments Fail {A} error.

Definition succeeded {A} (r : result A) : bool :=
  match r with Success _ => true | Fail _ => false end.

(** ** The database

    The three tables of [init_local_db], with the columns the functions
    read and write; the [created_at] and [updated_at] stamps of [users]
    and [sessions], which no function reads, are left out. A clock is a
    number of microseconds. *)

Record user_row : Type := mk_user {
  u_id : string;
  u_email : string;
  u_password_hash : string;
  u_name : sqlval;
  u_phone : sqlval;
  u_pan : sqlval
}.

Record session_row : Type := mk_session {
  s_token : string;
  s_user_id : string;
  s_expires_at : Z
}.

Record transaction_row : Type := mk_transaction {
  t_id : string;
  t_user_id : sqlval;
  t_file_id : sqlval;
  t_date : sqlval;
  t_description : sqlval;
  t_amount : sqlval;
  t_transaction_type : sqlval;
  t_category : sqlval;
  t_subcategory : sqlval;
  t_is_recurring : Z;
  t_recurring_frequency : sqlval;
  t_tax_relevant : Z;
  t_tax_section : sqlval;
  t_created_at : sqlval
}.

Record database : Type := mk_db {
  users : list user_row;
  sessions : list session_row;
  transactions : list transaction_row
}.

(** ** The world an operation runs in

    The database file, the clocks the code reads ([datetime.now()] in
    microseconds, the text of [datetime.utcnow().isoformat()] and of
    SQLite's [CURRENT_TIMESTAMP]; the clocks stand still during one
    operation), the source of random identifiers ([uuid.uuid4()],
    [secrets.token_urlsafe]): the [n]-th draw is [w_random n], and the
    time zone of the host: [w_timestamp d] is [int(d.timestamp())], the
    POSIX seconds of the naive local datetime [d]. [datetime.now()] is
    naive too, so [w_now] is the reading of the local wall clock. *)
Record world : Type := mk_world {
  w_db : database;
  w_now : Z;
  w_utcnow : string;
  w_current_timestamp : string;
  w_random : nat → string;
  w_draws : nat;
  w_timestamp : Z → Z;
  w_real_text : Q → string
}.

Definition set_db (d : database) (w : world) : world :=
  mk_world d (w_now w) (w_utcnow w) (w_current_timestamp w)
           (w_random w) (w_draws w) (w_timestamp w) (w_real_text w).

(** Code that may raise and may change the world. *)
Definition io (A : Type) : Type := world → (exn + A) * world.

#[global] Instance io_ret : MRet io := λ A a w, (inr a, w).
#[global] Instance io_bind : MBind io := λ A B f m w,
  match m w with
  | (inl e, w') => (inl e, w')
  | (inr a, w') => f a w'
  end.

Definition raise {A} (e : exn) : io A := λ w, (inl e, w).
Definition lift {A} (m : exn + A) : io A := λ w, (m, w).
Definition read_db : io database := λ w, (inr (w_db w), w).
Definition write_db (d : database) : io unit := λ w, (inr tt, set_db d w).
Definition draw : io string := λ w,
  (inr (w_random w (w_draws w)),
   mk_world (w_db w) (w_now w) (w_utcnow w) (w_current_timestamp w)
            (w_random w) (S (w_draws w)) (w_timestamp w) (w_real_text w)).
Definition now : io Z := λ w, (inr (w_now w), w).
Definition timestamp (d : Z) : io Z := λ w, (inr (w_timestamp w d), w).
Definition current_timestamp : io string := λ w, (inr (w_current_timestamp w), w).

(** [try: body except Exception as e: return {'success': False,
    'error': str(e)}]. Nothing is committed when the body raises, so the
    database is the one before the call; a random draw stays consumed. *)
Definition try_result {A} (body : io (result A)) : world → result A * world :=
  λ w, match body w with
       | (inr r, w') => (r, w')
       | (inl e, w') => (Fail (Raised e), set_db (w_db w) w')
       end.

(** [d[key]] and [d.get(key)]. *)
Definition getitem (d : pydict) (key : string) : exn + pyval :=
  match d !! key with
  | Some v => inr v
  | None => inl (KeyError key)
  end.

Definition get (d : pydict) (key : string) : pyval :=
  default PNone (d !! key).

(** What binding a value that [sqlite3] refuses raises. *)
Definition bind_error (v : pyval) : exn :=
  match v with
  | PInt _ => OverflowError
  | _ => InterfaceError
  end.

(** Binding one parameter of a statement. *)
Definition bind_param (v : pyval) : exn + sqlval :=
  match adapt v with
  | Some s => inr s
  | None => inl (bind_error v)
  end.

(** A parameter that meets a TEXT column, in a comparison
    ([user_id = ?]) or as the value to store ([SET name = ?]): the bound
    value is given the affinity of the column, so a number becomes the
    text SQLite writes for it, the decimal numeral of an INTEGER and
    [w_real_text] of a REAL. *)
Definition text_param (w : world) (v : pyval) : option sqlval :=
  match v with
  | PBool b => Some (SText (if b then "1" else "0"))
  | PInt n => if in_int64 n then Some (SText (pretty n)) else None
  | PFloat q => Some (SText (w_real_text w q))
  | PNone | PStr _ | PDate _ | PObj => adapt v
  end.

Definition bind_text_param (v : pyval) : io sqlval := λ w,
  (match text_param w v with
   | Some s => inr s
   | None => inl (bind_error v)
   end, w).

(** ** [local_auth.py] *)

Module local_auth.

(** [init_local_db] on a fresh file: three empty tables. *)
Definition init_local_db : database := mk_db [] [] [].

(** What the functions return for a user: the [id], [email], [name],
    [phone] and [pan] of the row. *)
Record user_info : Type := mk_user_info {
  ui_id : string;
  ui_email : string;
  ui_name : sqlval;
  ui_phone : sqlval;
  ui_pan : sqlval
}.

Definition user_info_of (u : user_row) : user_info :=
  mk_user_info (u_id u) (u_email u) (u_name u) (u_phone u) (u_pan u).

Record session_info : Type := mk_session_info {
  access_token : string;
  expires_at : Z            (* [int(expires_at.timestamp())] *)
}.

(** [INSERT INTO users]: [id] is the primary key and [email] is UNIQUE. *)
Definition insert_user (u : user_row) : io unit :=
  d ← read_db;
  if existsb (λ u', String.eqb (u_id u') (u_id u)
                    || String.eqb (u_email u') (u_email u)) (users d)
  then raise IntegrityError
  else write_db (mk_db (users d ++ [u]) (sessions d) (transactions d)).

(** [INSERT INTO sessions]: [token] is the primary key. *)
Definition insert_session (s : session_row) : io unit :=
  d ← read_db;
  if existsb (λ s', String.eqb (s_token s') (s_token s)) (sessions d)
  then raise IntegrityError
  else write_db (mk_db (users d) (sessions d ++ [s]) (transactions d)).

Section Credentials.

(** [hashlib.sha256(x.encode()).hexdigest()]. *)
Variable sha256_hexdigest : string → string.

Definition hash_password (password : string) : string :=
  sha256_hexdigest password.

Definition register_user (email password name phone pan : string)
  : world → result user_info * world :=
  try_result (
    d ← read_db;
    if existsb (λ u, String.eqb (u_email u) email) (users d)
    then mret (Fail (Message "Email already registered"))
    else
      user_id ← draw;
      let password_hash := hash_password password in
      insert_user (mk_user user_id email password_hash
                           (SText name) (SText phone) (SText pan));;
      mret (Success (mk_user_info user_id email
                                  (SText name) (SText phone) (SText pan)))).

(** Seven days, in microseconds. *)
Definition seven_days : Z := 7 * 24 * 3600 * 1000000.

Definition login_user (email password : string)
  : world → result (user_info * session_info) * world :=
  try_result (
    d ← read_db;
    let password_hash := hash_password password in
    match List.find (λ u, String.eqb (u_email u) email
                          && String.eqb (u_password_hash u) password_hash)
                    (users d) with
    | None => mret (Fail (Message "Invalid credentials"))
    | Some user =>
        token ← draw;
        t ← now;
        let expires_at := t + seven_days in
        insert_session (mk_session token (u_id user) expires_at);;
        seconds ← timestamp expires_at;
        mret (Success (user_info_of user, mk_session_info token seconds))
    end).

End Credentials.

(** The rows of [SELECT u.* FROM sessions s JOIN users u ON s.user_id =
    u.id WHERE s.token = ? AND s.expires_at > ?]. *)
Definition session_users (d : database) (token : string) (t : Z)
  : list user_row :=
  flat_map (λ s, List.filter (λ u, String.eqb (s_user_id s) (u_id u)) (users d))
    (List.filter (λ s, String.eqb (s_token s) token && (t <? s_expires_at s))
       (sessions d)).

Definition verify_token (token : string) : world → result user_info * world :=
  try_result (
    d ← read_db;
    t ← now;
    match head (session_users d token t) with
    | None => mret (Fail (Message "Invalid or expired token"))
    | Some user => mret (Success (user_info_of user))
    end).

Definition get_user_profile (user_id : string)
  : world → result user_info * world :=
  try_result (
    d ← read_db;
    match List.find (λ u, String.eqb (u_id u) user_id) (users d) with
    | None => mret (Fail (Message "User not found"))
    | Some user => mret (Success (user_info_of user))
    end).

(** [if key in profile_data: fields.append(...); values.append(...)]: the
    value stored for the column, when [profile_data] mentions it. [name],
    [phone] and [pan] are TEXT columns: a number is stored as its text. *)
Definition bound_value (w : world) (profile_data : pydict) (key : string)
  : exn + option sqlval :=
  match profile_data !! key with
  | Some v =>
      match text_param w v with
      | Some c => inr (Some c)
      | None => inl (bind_error v)
      end
  | None => inr None
  end.

Definition bound (profile_data : pydict) (key : string) : io (option sqlval) :=
  λ w, (bound_value w profile_data key, w).

(** The UPDATE is committed before the row is read back; when no row has
    the id it changes nothing and [user[0]] raises on [None]. *)
Definition update_user_profile (user_id : string) (profile_data : pydict)
  : world → result user_info * world :=
  try_result (
    d ← read_db;
    name ← bound profile_data "name";
    phone ← bound profile_data "phone";
    pan ← bound profile_data "pan";
    let users' :=
      map (λ u, if String.eqb (u_id u) user_id
                then mk_user (u_id u) (u_email u) (u_password_hash u)
                       (default (u_name u) name) (default (u_phone u) phone)
                       (default (u_pan u) pan)
                else u) (users d) in
    write_db (mk_db users' (sessions d) (transactions d));;
    match List.find (λ u, String.eqb (u_id u) user_id) users' with
    | None => raise TypeError
    | Some user => mret (Success (user_info_of user))
    end).

(** *** The ledger *)

(** The INSERT of [store_transaction]: [id] is the primary key; [user_id],
    [date], [description], [amount] and [transaction_type] are NOT NULL.
    The table has no CHECK constraint. *)
Definition insert_transaction (r : transaction_row) : io unit :=
  d ← read_db;
  if existsb (λ r', String.eqb (t_id r') (t_id r)) (transactions d)
  then raise IntegrityError
  else if is_null (t_user_id r) || is_null (t_date r) || is_null (t_description r)
          || is_null (t_amount r) || is_null (t_transaction_type r)
  then raise IntegrityError
  else write_db (mk_db (users d) (sessions d) (transactions d ++ [r])).

(** [1 if x else 0]. *)
Definition flag (v : pyval) : Z := if py_truthy v then 1 else 0.

(** The values go into the row as they were bound; [typed] tells the
    values for which this is the row the table holds. *)
Definition store_transaction (transaction_data : pydict)
  : world → result string * world :=
  try_result (
    transaction_id ← draw;
    user_id ← lift (getitem transaction_data "user_id");
    let file_id := get transaction_data "file_id" in
    date ← lift (getitem transaction_data "date");
    description ← lift (getitem transaction_data "description");
    amount ← lift (getitem transaction_data "amount");
    transaction_type ← lift (getitem transaction_data "transaction_type");
    let category := get transaction_data "category" in
    let subcategory := get transaction_data "subcategory" in
    let is_recurring := flag (get transaction_data "is_recurring") in
    let recurring_frequency := get transaction_data "recurring_frequency" in
    let tax_relevant := flag (get transaction_data "tax_relevant") in
    let tax_section := get transaction_data "tax_section" in
    c_user_id ← lift (bind_param user_id);
    c_file_id ← lift (bind_param file_id);
    c_date ← lift (bind_param date);
    c_description ← lift (bind_param description);
    c_amount ← lift (bind_param amount);
    c_transaction_type ← lift (bind_param transaction_type);
    c_category ← lift (bind_param category);
    c_subcategory ← lift (bind_param subcategory);
    c_recurring_frequency ← lift (bind_param recurring_frequency);
    c_tax_section ← lift (bind_param tax_section);
    created_at ← current_timestamp;
    insert_transaction
      (mk_transaction transaction_id c_user_id c_file_id c_date c_description
         c_amount c_transaction_type c_category c_subcategory is_recurring
         c_recurring_frequency tax_relevant c_tax_section (SText created_at));;
    mret (Success transaction_id)).

(** The dictionary [get_user_transactions] builds for a row. *)
Record transaction : Type := mk_tx {
  tx_id : string;
  tx_user_id : sqlval;
  tx_file_id : sqlval;
  tx_date : sqlval;
  tx_description : sqlval;
  tx_amount : sqlval;
  tx_transaction_type : sqlval;
  tx_category : sqlval;
  tx_subcategory : sqlval;
  tx_is_recurring : bool;
  tx_recurring_frequency : sqlval;
  tx_tax_relevant : bool;
  tx_tax_section : sqlval;
  tx_created_at : sqlval
}.

Definition row_dict (r : transaction_row) : transaction :=
  mk_tx (t_id r) (t_user_id r) (t_file_id r) (t_date r) (t_description r)
        (t_amount r) (t_transaction_type r) (t_category r) (t_subcategory r)
        (negb (t_is_recurring r =? 0)) (t_recurring_frequency r)
        (negb (t_tax_relevant r =? 0)) (t_tax_section r) (t_created_at r).

(** One optional [AND column <op> ?] of the query; the value is compared
    as it was bound. *)
Definition clause (filters : pydict) (key : string)
    (op : sqlval → sqlval → bool) (column : transaction_row → sqlval)
  : exn + list (transaction_row → bool) :=
  match filters !! key with
  | Some v => p ← bind_param v; mret [λ r, op (column r) p]
  | None => mret []
  end.

Definition filter_clauses (filters : option pydict)
  : exn + list (transaction_row → bool) :=
  match filters with
  | Some f =>
      if bool_decide (f = ∅) then mret []
      else
        c1 ← clause f "category" sql_eq t_category;
        c2 ← clause f "transaction_type" sql_eq t_transaction_type;
        c3 ← clause f "start_date" sql_ge t_date;
        c4 ← clause f "end_date" sql_le t_date;
        mret (c1 ++ c2 ++ c3 ++ c4)
  | None => mret []
  end.

Definition order_by_date_desc (l : list transaction_row) : list transaction_row :=
  order_desc t_date l.

(** [LIMIT ? OFFSET ?]: a negative limit is no limit, a negative offset
    is zero. *)
Definition limit_offset {A} (limit offset : Z) (l : list A) : list A :=
  let l' := drop (Z.to_nat offset) l in
  if limit <? 0 then l' else take (Z.to_nat limit) l'.

Definition select_transactions (d : database) (uid : sqlval)
    (clauses : list (transaction_row → bool)) : list transaction_row :=
  List.filter (λ r, sql_eq (t_user_id r) uid && forallb (λ c, c r) clauses)
    (transactions d).

Definition get_user_transactions (user_id : pyval) (limit offset : Z)
    (filters : option pydict) : world → result (list transaction) * world :=
  try_result (
    uid ← bind_text_param user_id;
    clauses ← lift (filter_clauses filters);
    d ← read_db;
    let rows :=
      limit_offset limit offset
        (order_by_date_desc (select_transactions d uid clauses)) in
    mret (Success (map row_dict rows))).

(** The defaults of the signature: [limit=1000, offset=0, filters=None]. *)
Definition default_limit : Z := 1000.
Definition default_offset : Z := 0.

(** *** Summary *)

(** The number [SUM] adds for a value. *)
Definition sql_number (v : sqlval) : Q :=
  match v with
  | SNum q => q
  | _ => 0
  end.

Definition qsum (l : list Q) : Q := foldr Qplus 0%Q l.

(** [SUM(CASE WHEN transaction_type = type THEN amount ELSE 0 END)], as
    an exact sum. *)
Definition sum_case (type : string) (rows : list transaction_row) : Q :=
  qsum (map (λ r, if sql_eq (t_transaction_type r) (SText type)
                  then sql_number (t_amount r) else 0%Q) rows).

(** [GROUP BY category] with [COUNT( * )] and [SUM(amount)], put into a
    [dict]: one entry per category. The order of the entries carries no
    meaning; the model lists them by first appearance. *)
Fixpoint add_group (c : sqlval) (amount : Q) (groups : list (sqlval * (Z * Q)))
  : list (sqlval * (Z * Q)) :=
  match groups with
  | [] => [(c, (1, amount))]
  | (c', (n, total)) :: rest =>
      if sql_eq c' c then (c', (n + 1, (total + amount)%Q)) :: rest
      else (c', (n, total)) :: add_group c amount rest
  end.

Definition group_by_category (rows : list transaction_row)
  : list (sqlval * (Z * Q)) :=
  fold_left (λ groups r, add_group (t_category r) (sql_number (t_amount r)) groups)
    (List.filter (λ r, negb (is_null (t_category r))) rows) [].

Record summary : Type := mk_summary {
  total_transactions : Z;
  total_income : Q;
  total_expenses : Q;
  net_savings : Q;
  categories : list (sqlval * (Z * Q))
}.

Definition summary_of (rows : list transaction_row) : summary :=
  let total_count := Z.of_nat (length rows) in
  let total_income := sum_case "credit" rows in
  let total_expenses := sum_case "debit" rows in
  mk_summary total_count total_income total_expenses
             (total_income - total_expenses)%Q (group_by_category rows).

Definition get_transaction_summary (user_id : pyval)
  : world → result summary * world :=
  try_result (
    uid ← bind_text_param user_id;
    d ← read_db;
    mret (Success (summary_of (select_transactions d uid [])))).

End local_auth.

(** ** [app/routes/dashboard.py] *)

Module dashboard.

(** *** The user of a request *)

(** What [json.loads] returns, as far as the code looks at it: a [dict]
    ([data.get] works) or anything else. *)
Inductive json : Type :=
| JObject (d : pydict)
| JOther.

(** [s.split(sep)]: every occurrence of [sep] cuts; the pieces may be
    empty and there is always at least one. *)
Fixpoint split (sep : ascii) (s : string) : list string :=
  match s with
  | EmptyString => [EmptyString]
  | String c s' =>
      if Ascii.eqb c sep then EmptyString :: split sep s'
      else match split sep s' with
           | piece :: pieces => String c piece :: pieces
           | [] => [String c EmptyString]
           end
  end.

(** ['=' * n]. *)
Fixpoint equals_signs (n : nat) : string :=
  match n with
  | O => EmptyString
  | S n' => String "="%char (equals_signs n')
  end.

(** [payload += '=' * (4 - len(payload) % 4)]. *)
Definition pad (payload : string) : string :=
  payload +:+ equals_signs (4 - String.length payload `mod` 4).

Section Token.

(** [base64.urlsafe_b64decode] and [json.loads]. *)
Variable urlsafe_b64decode : string → exn + string.
Variable json_loads : string → exn + json.

(** The inner [try] of [get_user_id_from_request]: [Some v] is
    [return v]; [None] is falling through to [return None]. *)
Definition decode_jwt (token : string) : exn + option pyval :=
  let parts := split "."%char token in
  if (2 <=? length parts)%nat then
    payload ← match parts !! 1%nat with
              | Some p => inr p
              | None => inl ValueError
              end;
    let payload := pad payload in
    decoded ← urlsafe_b64decode payload;
    data ← json_loads decoded;
    match data with
    | JObject d => mret (Some (get d "sub"))
    | JOther => inl AttributeError
    end
  else mret None.

(** [authorization] is the Authorization header of the request, when it
    has one. *)
Definition get_user_id_from_request (authorization : option string)
  : world → pyval * world :=
  λ w,
    let auth_header := default EmptyString authorization in
    if negb (String.prefix "Bearer " auth_header) then (PNone, w)
    else
      match split " "%char auth_header !! 1%nat with
      | None => (PNone, w)                 (* IndexError, caught *)
      | Some token =>
          let (local_result, w') := local_auth.verify_token token w in
          match local_result with
          | Success user => (PStr (local_auth.ui_id user), w')
          | Fail _ =>
              match decode_jwt token with
              | inr (Some sub) => (sub, w')
              | inr None => (PNone, w')
              | inl _ => (PNone, w')       (* "JWT decode error" *)
              end
          end
      end.

End Token.

(** *** The financial summary *)

Record financial_summary : Type := mk_financial_summary {
  total_income : Z;
  total_expenses : Z;
  net_savings : Z;
  monthly_income : Z;
  monthly_expenses : Z;
  savings_rate : Q
}.

Definition get_empty_financial_summary : financial_summary :=
  mk_financial_summary 0 0 0 0 0 0.

(** [float(x)] of a value read from the table. A text is taken not to
    spell a number: [float] raises [ValueError] on it. *)
Definition py_float (v : sqlval) : exn + Q :=
  match v with
  | SNum q => inr q
  | SNull => inl TypeError
  | SText _ => inl ValueError
  end.

(** [int(x)] of a float: towards zero. *)
Definition py_int (q : Q) : Z := Qnum q `quot` Z.pos (Qden q).

(** The nearest integer, a tie going to the even one. *)
Definition round_half_even (q : Q) : Z :=
  let f := Qfloor q in
  match ((q - inject_Z f) ?= 1 # 2)%Q with
  | Lt => f
  | Gt => f + 1
  | Eq => if Z.even f then f else f + 1
  end.

(** [round(x, 1)]. *)
Definition py_round1 (q : Q) : Q := Qred (round_half_even (q * 10) # 10).

(** [sum(...)] of a generator: the items are produced and added from left
    to right, the first one that raises ends the sum. *)
Fixpoint py_sum (acc : Q) (items : list (exn + Q)) : exn + Q :=
  match items with
  | [] => inr acc
  | item :: rest => x ← item; py_sum (acc + x)%Q rest
  end.

(** [t['transaction_type'] == type]. *)
Definition has_type (type : string) (t : local_auth.transaction) : bool :=
  match local_auth.tx_transaction_type t with
  | SText s => String.eqb s type
  | _ => false
  end.

Definition Qlt_bool (a b : Q) : bool := negb (Qle_bool b a).

(** [start_date] and [end_date] are dates, given by their day numbers
    ([date.toordinal()]), so that [(end_date - start_date).days] is their
    difference. *)
Definition calculate_financial_summary_from_data
    (transactions : list local_auth.transaction) (start_date end_date : Z)
  : exn + financial_summary :=
  match transactions with
  | [] => mret get_empty_financial_summary
  | _ =>
      total_income ←
        py_sum 0 (map (λ t, py_float (local_auth.tx_amount t))
                      (List.filter (has_type "credit") transactions));
      total_expenses ←
        py_sum 0 (map (λ t, x ← py_float (local_auth.tx_amount t); mret (Qabs x))
                      (List.filter (has_type "debit") transactions));
      let net_savings := (total_income - total_expenses)%Q in
      let months := (inject_Z (end_date - start_date) / (3044 # 100))%Q in
      let months_in_period := if Qlt_bool 1 months then months else 1%Q in
      let monthly_income :=
        if Qlt_bool 0 months_in_period
        then (total_income / months_in_period)%Q else 0%Q in
      let monthly_expenses :=
        if Qlt_bool 0 months_in_period
        then (total_expenses / months_in_period)%Q else 0%Q in
      let savings_rate :=
        if Qlt_bool 0 total_income
        then (net_savings / total_income * 100)%Q else 0%Q in
      mret (mk_financial_summary
              (py_int total_income) (py_int total_expenses)
              (py_int net_savings) (py_int monthly_income)
              (py_int monthly_expenses) (py_round1 savings_rate))
  end.

(** *** Insights *)

(** An f-string: literal text and formatted values ([{x:.1f}], [{n:,}]). *)
Inductive fpart : Type :=
| Lit (s : string)
| Fixed1 (x : Q)
| Grouped (n : Z).

Record insight : Type := mk_insight {
  type : string;
  message : list fpart;
  impact : string;
  action_required : bool
}.

Definition upload_insight : insight :=
  mk_insight "info"
    [Lit "Upload your financial documents to get personalized insights and recommendations"]
    "high" true.

Definition low_savings_insight (rate : Q) : insight :=
  mk_insight "financial"
    [Lit "Your savings rate is "; Fixed1 rate;
     Lit "%. Consider increasing savings to at least 20%"]
    "high" true.

Definition good_start_insight (rate : Q) : insight :=
  mk_insight "financial"
    [Lit "Good start! Your savings rate is "; Fixed1 rate;
     Lit "%. Try to reach 20% for optimal financial health"]
    "medium" false.

Definition excellent_insight (rate : Q) : insight :=
  mk_insight "financial"
    [Lit "Excellent! Your savings rate of "; Fixed1 rate;
     Lit "% is outstanding. Keep it up!"]
    "positive" false.

Definition spending_insight (expenses : Z) : insight :=
  mk_insight "spending"
    [Lit "Your monthly expenses are ₹"; Grouped expenses;
     Lit ". Review categories for optimization opportunities"]
    "medium" false.

(** The insights before the final [insights[:4]]. *)
Definition generated_insights (s : financial_summary) : list insight :=
  let insights := [] in
  let insights :=
    if total_income s =? 0 then insights ++ [upload_insight]
    else if Qlt_bool (savings_rate s) 10
    then insights ++ [low_savings_insight (savings_rate s)]
    else if Qlt_bool (savings_rate s) 20
    then insights ++ [good_start_insight (savings_rate s)]
    else if Qle_bool 30 (savings_rate s)
    then insights ++ [excellent_insight (savings_rate s)]
    else insights in
  let insights :=
    if 0 <? monthly_expenses s
    then insights ++ [spending_insight (monthly_expenses s)]
    else insights in
  insights.

Definition generate_insights_from_data {T C : Type}
    (financial_summary : financial_summary) (tax_summary : T)
    (cibil_summary : C) : list insight :=
  take 4 (generated_insights financial_summary).

(** *** Recent activity *)

(** The Python value of a column read from the table. *)
Definition py_of_sql (v : sqlval) : pyval :=
  match v with
  | SNull => PNone
  | SNum q => PFloat q
  | SText s => PStr s
  end.

(** The texts of an activity entry, as the code builds them: [str(v)],
    the f-string of an upload, and the slice [s[:n]] of a text. *)
Inductive text : Type :=
| Str (v : pyval)
| Uploaded (file_name : pyval)
| Slice (n : nat) (s : string).

Record activity : Type := mk_activity {
  a_id : text;
  a_type : string;
  a_description : text;
  a_amount : Z;
  a_date : pyval
}.

(** A [for] loop that appends [f x] for every [x]: the first [x] that
    raises ends it. *)
Fixpoint each {A B} (f : A → exn + B) (l : list A) : exn + list B :=
  match l with
  | [] => inr []
  | x :: rest => y ← f x; ys ← each f rest; mret (y :: ys)
  end.

(** The entry of a file record; [now_iso] is
    [datetime.now().isoformat()]. *)
Definition upload_activity (now_iso : string) (fd : pydict) : exn + activity :=
  id ← getitem fd "id";
  mret (mk_activity (Str id) "upload"
          (Uploaded (default (PStr "Unknown file") (fd !! "file_name")))
          0
          (default (PStr now_iso) (fd !! "uploaded_at"))).

(** [sorted(transactions, key=lambda x: x.get('date', ''), reverse=True)]
    on the rows of a listing, which all have a date: two keys are compared
    as soon as there are two rows, and Python orders texts with texts and
    numbers with numbers only; equal keys keep their order. *)
Definition is_text (v : sqlval) : bool :=
  match v with SText _ => true | _ => false end.

Definition is_number (v : sqlval) : bool :=
  match v with SNum _ => true | _ => false end.

Definition comparable (keys : list sqlval) : bool :=
  (length keys <=? 1)%nat || forallb is_text keys || forallb is_number keys.

Definition sorted_by_date (transactions : list local_auth.transaction)
  : exn + list local_auth.transaction :=
  if comparable (map local_auth.tx_date transactions)
  then inr (order_desc local_auth.tx_date transactions)
  else inl TypeError.

(** The entry of a transaction: the slice raises on a description that is
    not a text, [float] on an amount that is not a number. *)
Definition transaction_activity (transaction : local_auth.transaction)
  : exn + activity :=
  description ← match local_auth.tx_description transaction with
                | SText s => inr (Slice 50 s)
                | _ => inl TypeError
                end;
  amount ← py_float (local_auth.tx_amount transaction);
  mret (mk_activity (Str (PStr (local_auth.tx_id transaction))) "transaction"
          description (py_int (Qabs amount))
          (py_of_sql (local_auth.tx_date transaction))).

Definition get_recent_activity_from_data (now_iso : string)
    (financial_data_records : list pydict)
    (transactions : list local_auth.transaction) : exn + list activity :=
  uploads ← each (upload_activity now_iso) financial_data_records;
  sorted_transactions ← sorted_by_date transactions;
  let sorted_transactions := take 3 sorted_transactions in
  recent ← each transaction_activity sorted_transactions;
  mret (take 5 (uploads ++ recent)).

End dashboard.
(** ** [app/routes/file_processing.py] *)

Module file_processing.

(** *** The upload: [process_uploaded_file], from the parsed file on *)

Record file_record : Type := mk_file_record {
  id : string;
  user_id : string;
  file_name : string;
  file_path : string;
  file_type : string;
  file_size : Z;
  processing_status : string;
  created_at : string;
  updated_at : option string;
  error_message : option exn
}.

Definition set_status (status : string) (error : option exn) (updated : string)
    (f : file_record) : file_record :=
  mk_file_record (id f) (user_id f) (file_name f) (file_path f) (file_type f)
                 (file_size f) status (created_at f) (Some updated) error.

(** The ['processing_results'] of a response. *)
Record processing_results : Type := mk_results {
  transactions_count : Z;
  total_income : Q;
  total_expenses : Q;
  net_savings : Q;
  categories : list (pyval * (Z * Q));
  transactions : list pydict
}.

(** The three bodies the function answers with after the file was read:
    the first two go out with status 200, the last one with status 500. *)
Inductive response : Type :=
| NoTransactionsFound (file : file_record) (results : processing_results)
                      (suggestions : list string)
| ProcessedSuccessfully (file_id file_name file_type : string)
                        (results : processing_results)
                        (next_steps : list string)
| ProcessingFailed (details : exn) (file : file_record)
                   (suggestions : list string).

Definition status_code (r : response) : Z :=
  match r with
  | NoTransactionsFound _ _ _ => 200
  | ProcessedSuccessfully _ _ _ _ _ => 200
  | ProcessingFailed _ _ _ => 500
  end.

Definition message (r : response) : string :=
  match r with
  | NoTransactionsFound _ _ _ => "File processed but no transactions found"
  | ProcessedSuccessfully _ _ _ _ _ => "File processed successfully"
  | ProcessingFailed _ _ _ => "File processing failed"
  end.

Definition results_of (r : response) : option processing_results :=
  match r with
  | NoTransactionsFound _ results _ => Some results
  | ProcessedSuccessfully _ _ _ results _ => Some results
  | ProcessingFailed _ _ _ => None
  end.

Definition suggestions_of (r : response) : list string :=
  match r with
  | NoTransactionsFound _ _ suggestions => suggestions
  | ProcessedSuccessfully _ _ _ _ _ => []
  | ProcessingFailed _ _ suggestions => suggestions
  end.

Definition no_transactions_suggestions : list string :=
  ["Try uploading a bank statement with clear transaction data";
   "Ensure the PDF is text-based (not scanned image)";
   "CSV files should have standard banking format";
   "Check that transactions are clearly formatted"].

Definition failure_suggestions : list string :=
  ["Check if the file format is supported";
   "Ensure the file contains transaction data";
   "Try a different file or format";
   "Contact support if the issue persists"].

Definition next_steps : list string :=
  ["View AI Insights for personalized recommendations";
   "Check Tax Optimization suggestions";
   "Review transaction categorization";
   "Generate comprehensive reports"].

(** [x.isoformat()]: only a date has it. *)
Definition isoformat (v : pyval) : exn + string :=
  match v with
  | PDate iso => inr iso
  | _ => inl AttributeError
  end.

(** [0 + x] and [total + x] on numbers. *)
Definition py_number (v : pyval) : exn + Q :=
  match v with
  | PInt n => inr (inject_Z n)
  | PFloat q => inr q
  | PBool b => inr (if b then 1 else 0)%Q
  | _ => inl TypeError
  end.

Fixpoint py_sum (acc : Q) (items : list (exn + Q)) : exn + Q :=
  match items with
  | [] => inr acc
  | item :: rest => x ← item; py_sum (acc + x)%Q rest
  end.

(** [t['transaction_type'] == type]. *)
Definition has_type (type : string) (t : pydict) : bool :=
  match t !! "transaction_type" with
  | Some (PStr s) => String.eqb s type
  | _ => false
  end.

(** Equality of two dictionary keys; an unhashable key raises. *)
Definition key_eq (a b : pyval) : bool :=
  match a, b with
  | PNone, PNone => true
  | PStr s, PStr t => String.eqb s t
  | PDate s, PDate t => String.eqb s t
  | _, _ =>
      match py_number a, py_number b with
      | inr x, inr y => Qeq_bool x y
      | _, _ => false
      end
  end.

Definition hashable (v : pyval) : exn + pyval :=
  match v with
  | PObj => inl TypeError
  | _ => inr v
  end.

(** [if category not in categories: categories[category] = {'count': 0,
    'amount': 0}], then [count += 1] and [amount += amount]. *)
Fixpoint count_category (category : pyval) (amount : Q)
    (categories : list (pyval * (Z * Q))) : list (pyval * (Z * Q)) :=
  match categories with
  | [] => [(category, (0 + 1, (0 + amount)%Q))]
  | (c, (count, total)) :: rest =>
      if key_eq c category then (c, (count + 1, (total + amount)%Q)) :: rest
      else (c, (count, total)) :: count_category category amount rest
  end.

Fixpoint category_breakdown (processed : list pydict)
    (categories : list (pyval * (Z * Q))) : exn + list (pyval * (Z * Q)) :=
  match processed with
  | [] => inr categories
  | transaction :: rest =>
      category ← getitem transaction "category";
      category ← hashable category;
      amount ← getitem transaction "amount";
      amount ← py_number amount;
      category_breakdown rest (count_category category amount categories)
  end.

(** Step 4: every record goes to [store_transaction]; a failure is logged
    and the loop goes on. *)
Fixpoint store_all (processed : list pydict) (stored_transactions : Z)
  : world → Z * world :=
  λ w, match processed with
       | [] => (stored_transactions, w)
       | transaction_record :: rest =>
           let (result, w') := local_auth.store_transaction transaction_record w in
           store_all rest (if succeeded result then stored_transactions + 1
                           else stored_transactions) w'
       end.

Section Ingestion.

(** [TransactionCategorizer().categorize_transaction]. *)
Variable categorize_transaction : pyval → pyval → exn + pydict.

(** The body of the [try] of step 3 for one parsed transaction. *)
Definition transaction_record (file_id profile_id utcnow : string)
    (transaction_data : pydict) : exn + pydict :=
  description ← getitem transaction_data "description";
  amount ← getitem transaction_data "amount";
  category_info ← categorize_transaction description amount;
  date ← getitem transaction_data "date";
  date ← isoformat date;
  type ← getitem transaction_data "type";
  category ← getitem category_info "category";
  subcategory ← getitem category_info "subcategory";
  is_recurring ← getitem category_info "is_recurring";
  let frequency := get category_info "frequency" in
  tax_relevant ← getitem category_info "tax_relevant";
  let tax_section := get category_info "tax_section" in
  mret (list_to_map
          [("file_id", PStr file_id); ("user_id", PStr profile_id);
           ("date", PStr date); ("description", description);
           ("amount", amount); ("transaction_type", type);
           ("category", category); ("subcategory", subcategory);
           ("is_recurring", is_recurring); ("recurring_frequency", frequency);
           ("tax_relevant", tax_relevant); ("tax_section", tax_section);
           ("created_at", PStr utcnow)]).

(** Step 3: a transaction whose record cannot be built is logged and
    skipped. *)
Fixpoint categorize_all (file_id profile_id utcnow : string)
    (transactions : list pydict) : list pydict :=
  match transactions with
  | [] => []
  | transaction_data :: rest =>
      match transaction_record file_id profile_id utcnow transaction_data with
      | inr record => record :: categorize_all file_id profile_id utcnow rest
      | inl _ => categorize_all file_id profile_id utcnow rest
      end
  end.

(** Step 6: the statistics of the response. *)
Definition statistics (processed : list pydict) : exn + processing_results :=
  total_income ←
    py_sum 0 (map (λ t, a ← getitem t "amount"; py_number a)
                  (List.filter (has_type "credit") processed));
  total_expenses ←
    py_sum 0 (map (λ t, a ← getitem t "amount"; py_number a)
                  (List.filter (has_type "debit") processed));
  let net_savings := (total_income - total_expenses)%Q in
  categories ← category_breakdown processed [];
  mret (mk_results (Z.of_nat (length processed)) total_income total_expenses
                   net_savings categories processed).

(** [profile_id] is the authenticated user, [file_name], [file_type] and
    [file_size] describe the upload, [parsed] is what
    [FileProcessor().process_file] gave for it. The answer is the body
    the function hands to [jsonify], which is taken to serialise it. *)
Definition process_uploaded_file (profile_id file_name file_type : string)
    (file_size : Z) (parsed : exn + list pydict) : world → response * world :=
  λ w,
    let (r, w1) := draw w in
    let file_id := match r with inr s => s | inl _ => EmptyString end in
    let file_record :=
      mk_file_record file_id profile_id file_name
        ("uploads/" +:+ profile_id +:+ "/" +:+ file_name)
        file_type file_size "processing" (w_utcnow w1) None None in
    match parsed with
    | inl e =>
        (ProcessingFailed e (set_status "error" (Some e) (w_utcnow w1) file_record)
           failure_suggestions, w1)
    | inr [] =>
        (NoTransactionsFound
           (set_status "completed_no_transactions" None (w_utcnow w1) file_record)
           (mk_results 0 0 0 0 [] []) no_transactions_suggestions, w1)
    | inr transactions =>
        let processed_transactions :=
          categorize_all file_id profile_id (w_utcnow w1) transactions in
        let (stored_transactions, w2) := store_all processed_transactions 0 w1 in
        let file_record := set_status "completed" None (w_utcnow w2) file_record in
        match statistics processed_transactions with
        | inr results =>
            (ProcessedSuccessfully (id file_record) (file_name)
               (file_type) results next_steps, w2)
        | inl e =>
            (ProcessingFailed e (set_status "error" (Some e) (w_utcnow w2) file_record)
               failure_suggestions, w2)
        end
    end.

End Ingestion.

(** *** The transactions route: [get_user_transactions], from the query
    parameters on *)

Record pagination : Type := mk_pagination {
  page : Z;
  per_page : Z;
  count : Z
}.

(** [if value: query = query.op(column, value)]. *)
Definition optional (value : option string) (op : sqlval → sqlval → bool)
    (column : local_auth.transaction → sqlval)
  : list (local_auth.transaction → bool) :=
  match value with
  | Some v => if String.eqb v EmptyString then []
              else [λ t, op (column t) (SText v)]
  | None => []
  end.

(** [table] is the remote [transactions] table; [page_arg] and
    [per_page_arg] are the [page] and [per_page] of the query string
    (1 and 50 when absent). The service refuses a negative offset or
    limit. *)
Definition get_user_transactions (table : list local_auth.transaction)
    (user_id : string) (page_arg per_page_arg : Z)
    (category transaction_type start_date end_date : option string)
  : exn + (list local_auth.transaction * pagination) :=
  let page := page_arg in
  let per_page := Z.min per_page_arg 100 in
  let clauses :=
    optional category sql_eq local_auth.tx_category
    ++ optional transaction_type sql_eq local_auth.tx_transaction_type
    ++ optional start_date sql_ge local_auth.tx_date
    ++ optional end_date sql_le local_auth.tx_date in
  let selected :=
    List.filter (λ t, sql_eq (local_auth.tx_user_id t) (SText user_id)
                      && forallb (λ c, c t) clauses) table in
  let offset := (page - 1) * per_page in
  if (offset <? 0) || (per_page <? 0) then inl CollaboratorError
  else
    let data :=
      take (Z.to_nat per_page)
           (drop (Z.to_nat offset) (order_desc local_auth.tx_date selected)) in
    mret (data, mk_pagination page per_page (Z.of_nat (length data))).

(** *** The name of the uploaded file *)

Definition ALLOWED_EXTENSIONS : list string := ["csv"; "xlsx"; "xls"; "pdf"].

(** [s.lower()], on the letters A to Z. A character outside ASCII is left
    as it is: none of them becomes one of the letters of the extensions
    that the code compares with. *)
Definition lower_char (c : ascii) : ascii :=
  let n := nat_of_ascii c in
  if (65 <=? n)%nat && (n <=? 90)%nat then ascii_of_nat (n + 32) else c.

Fixpoint lower (s : string) : string :=
  match s with
  | EmptyString => EmptyString
  | String c s' => String (lower_char c) (lower s')
  end.

(** [filename.rsplit('.', 1)[1]] where ['.' in filename]: the text after
    the last dot. *)
Fixpoint after_last_dot (s : string) : option string :=
  match s with
  | EmptyString => None
  | String c s' =>
      match after_last_dot s' with
      | Some extension => Some extension
      | None => if Ascii.eqb c "."%char then Some s' else None
      end
  end.

Definition allowed_file (filename : string) : bool :=
  match after_last_dot filename with
  | Some extension => existsb (String.eqb (lower extension)) ALLOWED_EXTENSIONS
  | None => false
  end.

(** [s.endswith(suffix)]. *)
Fixpoint endswith (suffix s : string) : bool :=
  String.eqb s suffix
  || match s with
     | EmptyString => false
     | String _ s' => endswith suffix s'
     end.

(** The file type of an upload: the [file_type] of the form, and for
    none or for 'unknown' the one the file name suggests. *)
Definition detect_file_type (form_file_type : option string)
    (filename : string) : string :=
  let file_type := default "unknown" form_file_type in
  if String.eqb file_type "unknown" then
    if endswith ".pdf" (lower filename) then "bank_statement"
    else if endswith ".csv" (lower filename)
            || endswith ".xlsx" (lower filename)
            || endswith ".xls" (lower filename)
    then "financial_data"
    else "document"
  else file_type.

End file_processing.
(** ** Notions the statements use *)

(** *** What [store_transaction] accepts

    The required keys must be present with a value that binds to a
    non-NULL column, the optional ones must bind, and the drawn identifier
    must be new. Neither the sign of the amount nor the spelling of the
    type takes part. *)
Definition required_keys : list string :=
  ["user_id"; "date"; "description"; "amount"; "transaction_type"].
Definition optional_keys : list string :=
  ["file_id"; "category"; "subcategory"; "recurring_frequency"; "tax_section"].

Definition binds_not_null (v : pyval) : bool :=
  match adapt v with
  | Some s => negb (is_null s)
  | None => false
  end.

Definition binds (v : pyval) : bool :=
  match adapt v with
  | Some _ => true
  | None => false
  end.

Definition storable (transaction_data : pydict) : bool :=
  forallb (λ k, match transaction_data !! k with
                | Some v => binds_not_null v
                | None => false
                end) required_keys
  && forallb (λ k, binds (get transaction_data k)) optional_keys.

Definition next_id (w : world) : string := w_random w (w_draws w).

Definition fresh_id (w : world) : bool :=
  negb (existsb (λ r, String.eqb (t_id r) (next_id w)) (transactions (w_db w))).

Definition column (transaction_data : pydict) (key : string) : sqlval :=
  default SNull (adapt (get transaction_data key)).

(** The row a successful call appends. *)
Definition row_of (transaction_data : pydict) (w : world) : transaction_row :=
  mk_transaction (next_id w)
    (column transaction_data "user_id") (column transaction_data "file_id")
    (column transaction_data "date") (column transaction_data "description")
    (column transaction_data "amount")
    (column transaction_data "transaction_type")
    (column transaction_data "category") (column transaction_data "subcategory")
    (local_auth.flag (get transaction_data "is_recurring"))
    (column transaction_data "recurring_frequency")
    (local_auth.flag (get transaction_data "tax_relevant"))
    (column transaction_data "tax_section")
    (SText (w_current_timestamp w)).

(** The world after one random draw. *)
Definition consume (w : world) : world :=
  mk_world (w_db w) (w_now w) (w_utcnow w) (w_current_timestamp w)
           (w_random w) (S (w_draws w)) (w_timestamp w) (w_real_text w).

Definition append_row (r : transaction_row) (w : world) : world :=
  set_db (mk_db (users (w_db w)) (sessions (w_db w))
                (transactions (w_db w) ++ [r])) w.

(** *** Order and ownership of rows *)

(** [date_desc a b]: [a] may stand before [b] when the key descends;
    [same_key k x]: the key of [x] equals [k]. *)
Section Ordering.
Context {A : Type} (key : A → sqlval).

Definition date_desc (a b : A) : Prop := order_compare (key a) (key b) ≠ Lt.
Definition same_key (k : sqlval) (x : A) : bool :=
  match order_compare (key x) k with Eq => true | _ => false end.
End Ordering.

(** The rows of the ledger that belong to [uid]. *)
Definition own_rows (uid : sqlval) (d : database) : list transaction_row :=
  List.filter (λ r, sql_eq (t_user_id r) uid) (transactions d).

(** *** Sessions and their users

    The foreign key of the [sessions] table: every session belongs to a
    user of the [users] table. *)
Definition sessions_have_users (d : database) : bool :=
  forallb (λ s, existsb (λ u, String.eqb (u_id u) (s_user_id s)) (users d))
          (sessions d).

Definition fk (d : database) : Prop :=
  ∀ s, In s (sessions d) → ∃ u, In u (users d) ∧ u_id u = s_user_id s.

(** A session of the table that carries [token] and has not expired at
    time [t]. *)
Definition live_session (d : database) (token : string) (t : Z)
    (s : session_row) : Prop :=
  In s (sessions d) ∧ s_token s = token ∧ t < s_expires_at s.

(** Time passes. *)
Definition set_clock (t : Z) (utcnow stamp : string) (w : world) : world :=
  mk_world (w_db w) t utcnow stamp (w_random w) (w_draws w) (w_timestamp w)
           (w_real_text w).

(** The worlds the store can be in: it starts with the empty tables and
    changes by the operations of [local_auth] and by the passing of time. *)
Inductive reachable (sha256_hexdigest : string → string) : world → Prop :=
| reach_init w :
    w_db w = local_auth.init_local_db → reachable sha256_hexdigest w
| reach_clock w t utcnow stamp :
    reachable sha256_hexdigest w →
    reachable sha256_hexdigest (set_clock t utcnow stamp w)
| reach_register w email password name phone pan :
    reachable sha256_hexdigest w →
    reachable sha256_hexdigest
      (snd (local_auth.register_user sha256_hexdigest email password name phone pan w))
| reach_login w email password :
    reachable sha256_hexdigest w →
    reachable sha256_hexdigest
      (snd (local_auth.login_user sha256_hexdigest email password w))
| reach_verify w token :
    reachable sha256_hexdigest w →
    reachable sha256_hexdigest (snd (local_auth.verify_token token w))
| reach_update w user_id profile_data :
    reachable sha256_hexdigest w →
    reachable sha256_hexdigest
      (snd (local_auth.update_user_profile user_id profile_data w))
| reach_store w transaction_data :
    reachable sha256_hexdigest w →
    reachable sha256_hexdigest
      (snd (local_auth.store_transaction transaction_data w)).

(** *** The figures of a window *)

(** The amount of a transaction as a number, and the sums the summary is
    made of: the credits, and the debits by absolute value, added from left
    to right. *)
Definition amount_of (t : local_auth.transaction) : Q :=
  local_auth.sql_number (local_auth.tx_amount t).

Definition credit_sum (ts : list local_auth.transaction) : Q :=
  fold_left Qplus (map amount_of (List.filter (dashboard.has_type "credit") ts)) 0%Q.

Definition debit_sum (ts : list local_auth.transaction) : Q :=
  fold_left Qplus
    (map (λ t, Qabs (amount_of t)) (List.filter (dashboard.has_type "debit") ts))
    0%Q.

Definition counted (t : local_auth.transaction) : bool :=
  dashboard.has_type "credit" t || dashboard.has_type "debit" t.

(** Every credit and debit carries a number ... *)
Definition numeric_amounts (ts : list local_auth.transaction) : bool :=
  forallb (λ t, match local_auth.tx_amount t with SNum _ => true | _ => false end)
          (List.filter counted ts).



(** The savings rate the summary reports for an income and an expense. *)
Definition rate_of (income expenses : Q) : Q :=
  dashboard.py_round1
    (if dashboard.Qlt_bool 0 income
     then ((income - expenses) / income * 100)%Q else 0%Q).

(** *** The rows an upload leaves *)

(** The random source gives identifiers that are new: from the next draw
    on they differ from one another and from the ids of the table. *)
Definition fresh_supply (w : world) : Prop :=
  (∀ n m, (w_draws w <= n)%nat → (w_draws w <= m)%nat →
          w_random w n = w_random w m → n = m)
  ∧ (∀ n r, (w_draws w <= n)%nat → In r (transactions (w_db w)) →
            t_id r ≠ w_random w n).

(** The world after the records went to [store_transaction] one by one,
    and the rows that came of it: a record that cannot be stored costs a
    draw and leaves no row. *)
Fixpoint after_stores (records : list pydict) (w : world) : world :=
  match records with
  | [] => w
  | r :: rest =>
      after_stores rest
        (if storable r then append_row (row_of r w) (consume w) else consume w)
  end.

Fixpoint stored_rows (records : list pydict) (w : world) : list transaction_row :=
  match records with
  | [] => []
  | r :: rest =>
      (if storable r then [row_of r w] else [])
      ++ stored_rows rest
           (if storable r then append_row (row_of r w) (consume w) else consume w)
  end.

(** The list of an answer. *)
Definition answer {A} (r : result (list A)) : list A :=
  match r with
  | Success l => l
  | Fail _ => []
  end.

(** ** Sample data, for the examples *)

(** A random source, a host whose local time is UTC+05:30 all year, a
    stand-in for the text of a REAL (the one SQLite writes for a whole
    number of less than 15 digits, such as ["5.0"]; the examples compare
    no other), and a world with empty tables. *)
Definition sample_random (n : nat) : string := "uuid-" +:+ pretty n.

Definition sample_timestamp (d : Z) : Z := d `quot` 1000000 - 19800.

Definition sample_real_text (x : Q) : string :=
  if (Qden (Qred x) =? 1)%positive then pretty (Qnum (Qred x)) +:+ ".0"
  else pretty (Qnum (Qred x)) +:+ "/" +:+ pretty (Z.pos (Qden (Qred x))).

Definition world0 : world :=
  mk_world local_auth.init_local_db 1700000000000000 "2024-02-01T10:00:00"
           "2024-02-01 10:00:00" sample_random 0 sample_timestamp
           sample_real_text.

(** A debit with a negative amount and a transaction of no known type. *)
Definition negative_debit : pydict :=
  list_to_map [("user_id", PStr "alice"); ("date", PStr "2024-01-15");
               ("description", PStr "refund"); ("amount", PFloat (-50));
               ("transaction_type", PStr "debit")].

Definition odd_type : pydict :=
  list_to_map [("user_id", PStr "alice"); ("date", PStr "2024-01-16");
               ("description", PStr "swap"); ("amount", PInt 20);
               ("transaction_type", PStr "transfer")].

(** A transaction as the ledger takes it. *)
Definition entry (user date description : string) (amount : Q) (type : string)
  : pydict :=
  list_to_map [("user_id", PStr user); ("date", PStr date);
               ("description", PStr description); ("amount", PFloat amount);
               ("transaction_type", PStr type)].

(** Storing a list of entries one after the other. *)
Definition store_each (entries : list pydict) (w : world) : world :=
  foldl (λ w e, snd (local_auth.store_transaction e w)) w entries.

(** Two users, with one row of the same date and type each. *)
Definition world_two_users : world :=
  store_each [entry "alice" "2024-01-10" "salary" 50000 "credit";
              entry "bob" "2024-01-10" "salary" 70000 "credit";
              entry "alice" "2024-01-15" "rent" 40000 "debit"] world0.

(** One user with 101 rows of one day. *)
Definition world_101 : world :=
  store_each (replicate 101 (entry "alice" "2024-01-10" "coffee" 3 "debit"))
             world0.

(** A stand-in for SHA-256, and a registered user with one session: the
    user id is the first draw, the token the second. *)
Definition sample_sha256 (s : string) : string := "sha256(" +:+ s +:+ ")".

Definition world_session : world :=
  snd (local_auth.login_user sample_sha256 "alice@example.org" "secret"
         (snd (local_auth.register_user sample_sha256 "alice@example.org"
                 "secret" "Alice" "" "" world0))).

(** The expiry of that session: seven days after [world0]. *)
Definition sample_expiry : Z := 1700604800000000.

(** The first page of Alice's transactions. *)
Definition alice_page : list local_auth.transaction :=
  answer (fst (local_auth.get_user_transactions (PStr "alice") 10 0 None
                 world_two_users)).

(** A transaction of the ledger as the dashboard reads it. *)
Definition reading (date : string) (amount : Q) (type : string)
  : local_auth.transaction :=
  local_auth.mk_tx "t" (SText "alice") SNull (SText date) (SText "item")
    (SNum amount) (SText type) SNull SNull false SNull false SNull
    (SText "2024-02-01 10:00:00").

(** The window of January 2024. *)
Definition january : list local_auth.transaction :=
  [reading "2024-01-10" 50000 "credit"; reading "2024-01-15" 40000 "debit"].

(** Stand-ins for the collaborators: a decoder and a parser that know one
    payload. *)
Definition sample_b64decode (s : string) : exn + string :=
  if String.eqb s "c3ViOnZpY3RpbQ==" then inr "sub:victim" else inl ValueError.

Definition sample_json_loads (s : string) : exn + dashboard.json :=
  if String.eqb s "sub:victim"
  then inr (dashboard.JObject {[ "sub" := PStr "victim" ]})
  else inl ValueError.

(** A categorizer that files everything under one category. *)
Definition sample_categorizer (description amount : pyval) : exn + pydict :=
  inr (list_to_map [("category", PStr "General"); ("subcategory", PStr "Other");
                    ("is_recurring", PBool false); ("tax_relevant", PBool false)]).

(** A parsed transaction as the file processor hands it over. *)
Definition candidate (date : pyval) (description : string) (amount : Q)
    (type : pyval) : pydict :=
  list_to_map [("date", date); ("description", PStr description);
               ("amount", PFloat amount); ("type", type)].

(** Five candidates, the third with a date that is not a date. *)
Definition batch_of_5 : list pydict :=
  [candidate (PDate "2024-01-05") "salary" 50000 (PStr "credit");
   candidate (PDate "2024-01-07") "rent" 20000 (PStr "debit");
   candidate (PStr "7th of Jan") "cash" 500 (PStr "debit");
   candidate (PDate "2024-01-09") "food" 1500 (PStr "debit");
   candidate (PDate "2024-01-11") "fuel" 2500 (PStr "debit")].

(** The same batch without the third candidate. *)
Definition batch_of_4 : list pydict :=
  [candidate (PDate "2024-01-05") "salary" 50000 (PStr "credit");
   candidate (PDate "2024-01-07") "rent" 20000 (PStr "debit");
   candidate (PDate "2024-01-09") "food" 1500 (PStr "debit");
   candidate (PDate "2024-01-11") "fuel" 2500 (PStr "debit")].

(** A candidate without a type: its record is built, the store refuses
    it. *)
Definition batch_with_untyped : list pydict :=
  [candidate (PDate "2024-01-05") "salary" 50000 (PStr "credit");
   candidate (PDate "2024-01-07") "rent" 20000 PNone].

(** ** Tactics of the proofs *)

Ltac bool_false := cbn; repeat (rewrite ?andb_false_r; cbn); reflexivity.
Ltac rejected := right; split; [ bool_false | eexists; reflexivity ].

Ltac case_exists :=
  match goal with
  | |- context [existsb ?f ?l] => destruct (existsb f l)
  end.

Ltac case_find H :=
  match goal with
  | |- context [List.find ?f ?l] => destruct (List.find f l) eqn:H
  end.

(** ** Further notions *)

(** *** Keys of the tables

    What the schema declares: the primary keys and the UNIQUE column are
    free of repetitions, and the NOT NULL columns of a transaction hold a
    value. *)
Definition required_columns (r : transaction_row) : bool :=
  negb (is_null (t_user_id r) || is_null (t_date r) || is_null (t_description r)
        || is_null (t_amount r) || is_null (t_transaction_type r)).

Definition well_keyed (d : database) : Prop :=
  NoDup (map u_id (users d))
  ∧ NoDup (map u_email (users d))
  ∧ NoDup (map s_token (sessions d))
  ∧ NoDup (map t_id (transactions d))
  ∧ Forall (λ r, required_columns r = true) (transactions d).


(** The calls of [local_auth]. *)
Inductive call : Type :=
| Register (email password name phone pan : string)
| Login (email password : string)
| VerifyToken (token : string)
| GetUserProfile (user_id : string)
| UpdateUserProfile (user_id : string) (profile_data : pydict)
| StoreTransaction (transaction_data : pydict)
| GetUserTransactions (user_id : pyval) (limit offset : Z)
                      (filters : option pydict)
| GetTransactionSummary (user_id : pyval).

(** The world a call leaves. *)
Definition after (sha256_hexdigest : string → string) (c : call) (w : world)
  : world :=
  match c with
  | Register email password name phone pan =>
      snd (local_auth.register_user sha256_hexdigest email password name phone
             pan w)
  | Login email password =>
      snd (local_auth.login_user sha256_hexdigest email password w)
  | VerifyToken token => snd (local_auth.verify_token token w)
  | GetUserProfile user_id => snd (local_auth.get_user_profile user_id w)
  | UpdateUserProfile user_id profile_data =>
      snd (local_auth.update_user_profile user_id profile_data w)
  | StoreTransaction transaction_data =>
      snd (local_auth.store_transaction transaction_data w)
  | GetUserTransactions user_id limit offset filters =>
      snd (local_auth.get_user_transactions user_id limit offset filters w)
  | GetTransactionSummary user_id =>
      snd (local_auth.get_transaction_summary user_id w)
  end.

(** What identifies an account and lets its owner in. *)
Definition credentials (u : user_row) : string * string * string :=
  (u_id u, u_email u, u_password_hash u).

(** One list continues another. *)
Definition extends {A} (l' l : list A) : Prop := ∃ more, l' = l ++ more.

(** The row [update_user_profile] leaves for a row of the user. *)
Definition updated (name phone pan : option sqlval) (u : user_row) : user_row :=
  mk_user (u_id u) (u_email u) (u_password_hash u) (default (u_name u) name)
    (default (u_phone u) phone) (default (u_pan u) pan).

(** A column of a profile after an update with [profile_data]: the value
    given for the key, as a TEXT column holds it, when the update
    mentions it, the old one otherwise. *)
Definition field_after (w : world) (profile_data : pydict) (key : string)
    (old new : sqlval) : Prop :=
  match profile_data !! key with
  | Some v => text_param w v = Some new
  | None => new = old
  end.

(** The columns [update_user_profile] can set. *)
Definition profile_keys : list string := ["name"; "phone"; "pan"].

(** The [filters] of [get_user_transactions] that ask for the given
    texts. *)
Definition with_filter (key : string) (value : option string) (f : pydict)
  : pydict :=
  match value with
  | Some s => <[key := PStr s]> f
  | None => f
  end.

Definition filters_of (category transaction_type start_date end_date
                       : option string) : pydict :=
  with_filter "category" category
    (with_filter "transaction_type" transaction_type
       (with_filter "start_date" start_date
          (with_filter "end_date" end_date ∅))).

(** A transaction passes them: it has the category and the type, and its
    date lies between the two dates, where they are asked for. *)
Definition passes (category transaction_type start_date end_date
                   : option string) (t : local_auth.transaction) : bool :=
  from_option (λ c, sql_eq (local_auth.tx_category t) (SText c)) true category
  && from_option (λ y, sql_eq (local_auth.tx_transaction_type t) (SText y)) true
       transaction_type
  && from_option (λ a, sql_ge (local_auth.tx_date t) (SText a)) true start_date
  && from_option (λ b, sql_le (local_auth.tx_date t) (SText b)) true end_date.

(** The whole listing of a user, newest first. *)
Definition ledger_of (user : string) (w : world) : list local_auth.transaction :=
  answer (fst (local_auth.get_user_transactions (PStr user) (-1) 0 None w)).

(** The keys [get_user_transactions] looks for in its [filters]. *)
Definition filter_keys : list string :=
  ["category"; "transaction_type"; "start_date"; "end_date"].

(** The rows the categories of a summary count. *)
Definition counted_rows {K} (categories : list (K * (Z * Q))) : Z :=
  foldr (λ entry n, fst (snd entry) + n) 0 categories.

(** A parsed transaction whose amount is a text, as a parser hands it
    over when it does not convert the column. *)
Definition text_amount_batch : list pydict :=
  [list_to_map [("date", PDate "2024-01-05"); ("description", PStr "salary");
                ("amount", PStr "50,000.00"); ("type", PStr "credit")]].

(** *** Values of the type of their column

    The model holds a value as it was bound. SQLite converts a bound
    value to the storage class its column prefers (column affinity): a
    number bound for a TEXT column is stored as its text, a text that
    spells a number bound for [amount] (REAL) or [date] (NUMERIC) is
    stored as the number, and a large int bound for [amount] is rounded to
    a float. The row of the model is the row of the table where no such
    conversion takes place: texts (or [None]) for the TEXT columns, a text
    that starts like an ISO date for [date], and a float, a bool or an int
    of at most 53 bits for [amount]. *)
Definition is_digit (c : ascii) : bool :=
  let n := nat_of_ascii c in (48 <=? n)%nat && (n <=? 57)%nat.

(** A text that starts with [dddd-dd-dd]; no such text spells a number. *)
Definition iso_dated (s : string) : bool :=
  match s with
  | String y1 (String y2 (String y3 (String y4 (String h1 (String m1
      (String m2 (String h2 (String d1 (String d2 _))))))))) =>
      is_digit y1 && is_digit y2 && is_digit y3 && is_digit y4
      && Ascii.eqb h1 "-" && is_digit m1 && is_digit m2
      && Ascii.eqb h2 "-" && is_digit d1 && is_digit d2
  | _ => false
  end.

Definition text_or_none (v : pyval) : bool :=
  match v with
  | PNone | PStr _ | PDate _ => true
  | _ => false
  end.

Definition date_value (v : pyval) : bool :=
  match v with
  | PStr s | PDate s => iso_dated s
  | _ => false
  end.

Definition amount_value (v : pyval) : bool :=
  match v with
  | PFloat _ | PBool _ => true
  | PInt n => (- 2 ^ 53 <=? n) && (n <=? 2 ^ 53)
  | _ => false
  end.

Definition text_keys : list string :=
  ["user_id"; "file_id"; "description"; "transaction_type"; "category";
   "subcategory"; "recurring_frequency"; "tax_section"].

Definition typed (transaction_data : pydict) : bool :=
  forallb (λ k, text_or_none (get transaction_data k)) text_keys
  && date_value (get transaction_data "date")
  && amount_value (get transaction_data "amount").

(** The same for a row of the table: the user, the category and the type
    are texts or NULL, and the date is a text that starts like an ISO
    date. The rows [store_transaction] appends for typed values are
    such rows. *)
Definition text_or_null (v : sqlval) : bool :=
  match v with
  | SNum _ => false
  | _ => true
  end.

Definition dated (v : sqlval) : bool :=
  match v with
  | SText s => iso_dated s
  | _ => false
  end.

Definition row_typed (r : transaction_row) : bool :=
  text_or_null (t_user_id r) && text_or_null (t_category r)
  && text_or_null (t_transaction_type r) && dated (t_date r).

Definition typed_table (w : world) : bool :=
  forallb row_typed (transactions (w_db w)).

(** *** Sums on which binary floating point is exact

    Python and SQLite add amounts as binary doubles; the model adds them
    as rationals. The two sums agree when every term is a multiple of
    [1/1024] and the absolute values add up to at most [2^40]: every
    partial sum is then a multiple of [1/1024] below [2^41], which a
    double holds exactly. *)
Definition dyadic (q : Q) : bool := 1024 mod Z.pos (Qden (Qred q)) =? 0.

Definition magnitude (amounts : list Q) : Q :=
  fold_right (λ q acc, (Qabs q + acc)%Q) 0%Q amounts.

Definition exactly_summable (amounts : list sqlval) : bool :=
  forallb (λ v, match v with SNum q => dyadic q | _ => false end) amounts
  && Qle_bool (magnitude (map local_auth.sql_number amounts)) (2 ^ 40).

(** The credits and debits of a window carry such amounts. *)
Definition exact_amounts (ts : list local_auth.transaction) : bool :=
  exactly_summable (map local_auth.tx_amount (List.filter counted ts)).
(** * Properties *)

(** ** The order of a listing *)

Lemma order_compare_antisym (a b : sqlval) :
  order_compare b a = CompOpp (order_compare a b).
Proof.
  destruct a as [|p|s], b as [|q|t]; cbn; try reflexivity.
  - symmetry. apply Qcompare_antisym.
  - apply String.compare_antisym.
Qed.

Lemma order_compare_eq_r (a k x : sqlval) :
  order_compare a k = Eq → order_compare x a = order_compare x k.
Proof.
  destruct a as [|p|s], k as [|q|t]; cbn; try discriminate; intros H.
  - reflexivity.
  - apply Qeq_alt in H. destruct x; cbn; try reflexivity. now rewrite H.
  - apply String.compare_eq_iff in H. now subst.
Qed.

Section OrderDesc.
Context {A : Type} (key : A → sqlval).

Lemma order_desc_cons (y : A) (l : list A) :
  order_desc key (y :: l) = insert_desc key y (order_desc key l).
Proof. reflexivity. Qed.

Lemma insert_desc_In (r x : A) (l : list A) :
  In x (insert_desc key r l) ↔ x = r ∨ In x l.
Proof.
  induction l as [|y l IH]; cbn.
  - intuition.
  - destruct (order_compare (key y) (key r)); cbn; rewrite ?IH; intuition.
Qed.

Lemma order_desc_In (x : A) (l : list A) :
  In x (order_desc key l) ↔ In x l.
Proof.
  induction l as [|y l IH]; [reflexivity|].
  rewrite order_desc_cons, insert_desc_In, IH. cbn. intuition.
Qed.

Lemma insert_desc_length (r : A) (l : list A) :
  length (insert_desc key r l) = S (length l).
Proof.
  induction l as [|y l IH]; cbn; [reflexivity|].
  destruct (order_compare (key y) (key r)); cbn; now rewrite ?IH.
Qed.

Lemma order_desc_length (l : list A) : length (order_desc key l) = length l.
Proof.
  induction l as [|y l IH]; [reflexivity|].
  now rewrite order_desc_cons, insert_desc_length, IH.
Qed.

Lemma insert_desc_hd (r : A) (l : list A) (z : A) :
  date_desc key z r → HdRel (date_desc key) z l →
  HdRel (date_desc key) z (insert_desc key r l).
Proof.
  intros Hr Hl. destruct l as [|y l]; cbn; [now constructor|].
  inversion_clear Hl.
  destruct (order_compare (key y) (key r)); now constructor.
Qed.

Lemma insert_desc_sorted (r : A) (l : list A) :
  Sorted (date_desc key) l → Sorted (date_desc key) (insert_desc key r l).
Proof.
  induction 1 as [|y l Hs IH Hhd]; cbn.
  - repeat constructor.
  - destruct (order_compare (key y) (key r)) eqn:Hc.
    + constructor; [now constructor|]. constructor. unfold date_desc.
      rewrite order_compare_antisym, Hc. discriminate.
    + constructor; [now constructor|]. constructor. unfold date_desc.
      rewrite order_compare_antisym, Hc. discriminate.
    + constructor; [exact IH|]. apply insert_desc_hd; [|exact Hhd].
      unfold date_desc. rewrite Hc. discriminate.
Qed.

Lemma order_desc_sorted (l : list A) : Sorted (date_desc key) (order_desc key l).
Proof.
  induction l as [|y l IH]; [constructor|].
  rewrite order_desc_cons. now apply insert_desc_sorted.
Qed.

Lemma insert_desc_same_key (k : sqlval) (r : A) (l : list A) :
  List.filter (same_key key k) (insert_desc key r l)
  = List.filter (same_key key k) (r :: l).
Proof.
  induction l as [|y l IH]; [reflexivity|].
  cbn [insert_desc].
  destruct (order_compare (key y) (key r)) eqn:Hc; try reflexivity.
  cbn [List.filter] in *. rewrite IH.
  destruct (same_key key k r) eqn:Hr; [|reflexivity].
  assert (Hy : same_key key k y = false).
  { unfold same_key in *.
    destruct (order_compare (key r) k) eqn:Hrk; try discriminate.
    now rewrite <- (order_compare_eq_r _ _ (key y) Hrk), Hc. }
  now rewrite Hy.
Qed.

Lemma order_desc_stable (k : sqlval) (l : list A) :
  List.filter (same_key key k) (order_desc key l)
  = List.filter (same_key key k) l.
Proof.
  induction l as [|y l IH]; [reflexivity|].
  rewrite order_desc_cons, insert_desc_same_key. cbn [List.filter]. now rewrite IH.
Qed.
End OrderDesc.

Lemma Sorted_drop {A} (R : A → A → Prop) (n : nat) (l : list A) :
  Sorted R l → Sorted R (drop n l).
Proof.
  revert l. induction n as [|n IH]; intros l H; [exact H|].
  destruct l as [|x l]; [constructor|]. cbn. apply IH. now inversion H.
Qed.

Lemma Sorted_take {A} (R : A → A → Prop) (n : nat) (l : list A) :
  Sorted R l → Sorted R (take n l).
Proof.
  revert l. induction n as [|n IH]; intros l H; [constructor|].
  destruct l as [|x l]; [constructor|]. cbn. inversion_clear H.
  constructor; [now apply IH|].
  destruct l as [|y l]; [destruct n; constructor|].
  destruct n; cbn; [constructor|].
  constructor. now inversion H1.
Qed.

Lemma Sorted_map {A B} (f : A → B) (R : A → A → Prop) (S : B → B → Prop)
    (l : list A) :
  (∀ a b, R a b → S (f a) (f b)) → Sorted R l → Sorted S (map f l).
Proof.
  intros HRS. induction 1 as [|x l Hs IH Hhd]; cbn; constructor; [exact IH|].
  destruct Hhd; cbn; constructor. now apply HRS.
Qed.
(** ** C1: what the ledger append accepts *)

(** The two outcomes of [store_transaction]. *)
Lemma store_transaction_cases (td : pydict) (w : world) :
  (storable td && fresh_id w = true ∧
   local_auth.store_transaction td w
   = (Success (next_id w), append_row (row_of td w) (consume w)))
  ∨ (storable td && fresh_id w = false ∧
     ∃ e, local_auth.store_transaction td w = (Fail (Raised e), consume w)).
Proof.
  unfold local_auth.store_transaction, try_result, storable,
    fresh_id, row_of, column, binds_not_null, binds, get, getitem,
    local_auth.insert_transaction, current_timestamp, read_db, write_db, lift.
  cbn [forallb required_keys optional_keys].
  unfold mbind, io_bind, draw, bind_param, mret, io_ret, raise. cbn beta iota.
  destruct (td !! "user_id") as [v1|]; [|rejected].
  destruct (td !! "date") as [v2|]; [|rejected].
  destruct (td !! "description") as [v3|]; [|rejected].
  destruct (td !! "amount") as [v4|]; [|rejected].
  destruct (td !! "transaction_type") as [v5|]; [|rejected].
  cbn [from_option id].
  destruct (adapt v1) as [c1|]; [|rejected].
  destruct (adapt (default PNone (td !! "file_id"))) as [c6|]; [|rejected].
  destruct (adapt v2) as [c2|]; [|rejected].
  destruct (adapt v3) as [c3|]; [|rejected].
  destruct (adapt v4) as [c4|]; [|rejected].
  destruct (adapt v5) as [c5|]; [|rejected].
  destruct (adapt (default PNone (td !! "category"))) as [c7|]; [|rejected].
  destruct (adapt (default PNone (td !! "subcategory"))) as [c8|]; [|rejected].
  destruct (adapt (default PNone (td !! "recurring_frequency"))) as [c9|];
    [|rejected].
  destruct (adapt (default PNone (td !! "tax_section"))) as [c10|]; [|rejected].
  cbn.
  destruct (existsb _ _); [rejected|].
  destruct c1; [rejected| |]; (destruct c2; [rejected| |]);
    (destruct c3; [rejected| |]); (destruct c4; [rejected| |]);
    (destruct c5; [rejected| |]); left; split; reflexivity.
Qed.

(** Putting any amount and any type into a candidate that can be stored
    gives a candidate that can be stored. *)
Lemma storable_any_amount_and_type (td : pydict) (q : Q) (s : string) :
  storable td = true →
  storable (<["amount" := PFloat q]> (<["transaction_type" := PStr s]> td)) = true.
Proof.
  unfold storable, binds_not_null, binds, get.
  cbn [forallb required_keys optional_keys].
  repeat (rewrite ?lookup_insert_eq; rewrite lookup_insert_ne by done).
  rewrite ?lookup_insert_eq. cbn [adapt is_null negb].
  intros H. apply andb_true_iff in H as [Hreq Hopt].
  apply andb_true_iff in Hreq as [H1 Hreq].
  apply andb_true_iff in Hreq as [H2 Hreq].
  apply andb_true_iff in Hreq as [H3 _].
  rewrite H1, H2, H3, Hopt. reflexivity.
Qed.

(** C1 (as the code has it): [store_transaction] checks neither the sign of
    the amount nor the value of the type. It persists a candidate exactly
    when the five required keys are present with values that bind to a
    non-NULL column, the optional values bind and the drawn identifier is
    unused; it then answers with the new identifier and appends one row
    with that identifier, which holds the values as they were given when
    each has the type of its column. In every other case it answers with
    an error and leaves the database as it was. In particular a candidate
    that is accepted is accepted with any amount, negative ones included,
    and any text as its type, and the row holds that amount and type. *)
Theorem store_transaction_accepts_what_binds (td : pydict) (w : world) :
  ((storable td && fresh_id w = true ∧
    ∃ row,
      local_auth.store_transaction td w
      = (Success (next_id w), append_row row (consume w))
      ∧ t_id row = next_id w
      ∧ (typed td = true → row = row_of td w))
   ∨ (storable td && fresh_id w = false ∧
      ∃ e, local_auth.store_transaction td w = (Fail (Raised e), consume w)))
  ∧ ∀ q s, storable td = true → fresh_id w = true →
      let td' := <["amount" := PFloat q]> (<["transaction_type" := PStr s]> td) in
      ∃ row,
        local_auth.store_transaction td' w
        = (Success (next_id w), append_row row (consume w))
        ∧ t_id row = next_id w
        ∧ t_amount row = SNum q
        ∧ t_transaction_type row = SText s.
Proof.
  split.
  - destruct (store_transaction_cases td w) as [[Hc H] | [Hc H]].
    + left. split; [exact Hc|]. exists (row_of td w). auto.
    + right. auto.
  - intros q s Hs Hf td'.
    pose proof (storable_any_amount_and_type td q s Hs) as Hs'. fold td' in Hs'.
    exists (row_of td' w). split; [|split; [reflexivity|]].
    + destruct (store_transaction_cases td' w) as [[_ H] | [Hc _]]; [exact H|].
      rewrite Hs', Hf in Hc. discriminate.
    + subst td'. cbn [row_of t_amount t_transaction_type]. unfold column, get.
      rewrite lookup_insert_eq. rewrite lookup_insert_ne by done.
      rewrite lookup_insert_eq. split; reflexivity.
Qed.

Lemma store_transaction_accepts_what_binds_witness :
  storable odd_type = true ∧ fresh_id world0 = true
  ∧ ∃ row,
      local_auth.store_transaction
        (<["amount" := PFloat (-50)]>
           (<["transaction_type" := PStr "gift"]> odd_type)) world0
      = (Success (next_id world0), append_row row (consume world0))
      ∧ t_id row = next_id world0
      ∧ t_amount row = SNum (-50)
      ∧ t_transaction_type row = SText "gift".
Proof.
  assert (Hs : storable odd_type = true) by reflexivity.
  assert (Hf : fresh_id world0 = true) by reflexivity.
  split; [exact Hs|]. split; [exact Hf|].
  exact (proj2 (store_transaction_accepts_what_binds odd_type world0)
           (-50)%Q "gift" Hs Hf).
Defined.

(** C1 fails as stated: a debit of -50 and a transaction of the unknown
    type "transfer" are both accepted and both rows are in the table
    afterwards, the amount -50 included. *)
Lemma store_transaction_keeps_negative_amount :
  let (r1, w1) := local_auth.store_transaction negative_debit world0 in
  let (r2, w2) := local_auth.store_transaction odd_type w1 in
  r1 = Success "uuid-0" ∧ r2 = Success "uuid-1"
  ∧ map (λ r, (t_amount r, t_transaction_type r)) (transactions (w_db w2))
    = [(SNum (-50), SText "debit"); (SNum 20, SText "transfer")].
Proof. vm_compute. repeat split; reflexivity. Qed.

(** ** C4: session verification *)

Lemma session_users_in (d : database) (token : string) (t : Z) (u : user_row) :
  In u (local_auth.session_users d token t)
  ↔ ∃ s, live_session d token t s ∧ In u (users d) ∧ u_id u = s_user_id s.
Proof.
  unfold local_auth.session_users, live_session. rewrite in_flat_map. split.
  - intros (s & Hs & Hu). apply filter_In in Hs as [Hs Hc].
    apply filter_In in Hu as [Hu He].
    apply andb_true_iff in Hc as [Ht Hlt].
    apply String.eqb_eq in Ht, He. apply Z.ltb_lt in Hlt.
    exists s. repeat split; auto.
  - intros (s & (Hs & Ht & Hlt) & Hu & He). exists s. split.
    + apply filter_In. split; [exact Hs|].
      apply andb_true_iff. split; [now apply String.eqb_eq | now apply Z.ltb_lt].
    + apply filter_In. split; [exact Hu | now apply String.eqb_eq].
Qed.

Lemma session_has_user (d : database) (s : session_row) :
  sessions_have_users d = true → In s (sessions d) →
  ∃ u, In u (users d) ∧ u_id u = s_user_id s.
Proof.
  unfold sessions_have_users. intros H Hs.
  rewrite forallb_forall in H. specialize (H s Hs).
  apply existsb_exists in H as (u & Hu & He).
  apply String.eqb_eq in He. eauto.
Qed.

Lemma sessions_have_users_fk (d : database) :
  sessions_have_users d = true ↔ fk d.
Proof.
  unfold sessions_have_users, fk. rewrite forallb_forall. split.
  - intros H s Hs. apply H in Hs. apply existsb_exists in Hs as (u & Hu & He).
    apply String.eqb_eq in He. eauto.
  - intros H s Hs. apply H in Hs as (u & Hu & He). apply existsb_exists.
    exists u. split; [exact Hu | now apply String.eqb_eq].
Qed.

Lemma fk_register sha email password name phone pan w :
  fk (w_db w) →
  fk (w_db (snd (local_auth.register_user sha email password name phone pan w))).
Proof.
  intros H.
  unfold local_auth.register_user, local_auth.insert_user, try_result, mbind,
    io_bind, read_db, mret, io_ret, draw, raise, write_db. cbn beta iota.
  destruct (existsb (λ u, String.eqb (u_email u) email) (users (w_db w)));
    [exact H|]. cbn.
  case_exists; cbn; [exact H|].
  intros s Hs. destruct (H s Hs) as (u & Hu & He).
  exists u. split; [apply in_or_app; now left | exact He].
Qed.

Lemma fk_login sha email password w :
  fk (w_db w) →
  fk (w_db (snd (local_auth.login_user sha email password w))).
Proof.
  intros H.
  unfold local_auth.login_user, local_auth.insert_session, try_result, mbind,
    io_bind, read_db, mret, io_ret, draw, now, raise, write_db.
  cbn beta iota.
  case_find Hfind; [|exact H].
  cbn. case_exists; cbn; [exact H|].
  intros s Hs. cbn in Hs. apply in_app_or in Hs as [Hs | [<- | []]].
  - exact (H s Hs).
  - apply find_some in Hfind as [Hu _]. eexists. cbn. eauto.
Qed.

Lemma fk_update user_id profile_data w :
  fk (w_db w) →
  fk (w_db (snd (local_auth.update_user_profile user_id profile_data w))).
Proof.
  intros H.
  unfold local_auth.update_user_profile, try_result, mbind, io_bind, read_db,
    mret, io_ret, lift, raise, write_db, local_auth.bound. cbn beta iota.
  destruct (local_auth.bound_value w profile_data "name") as [|name]; [exact H|].
  destruct (local_auth.bound_value w profile_data "phone") as [|phone]; [exact H|].
  destruct (local_auth.bound_value w profile_data "pan") as [|pan]; [exact H|].
  cbn. case_find Hfind; cbn; [|exact H].
  intros s Hs. destruct (H s Hs) as (u0 & Hu & He).
  eexists. split; [apply in_map_iff; exists u0; split; [reflexivity | exact Hu]|].
  destruct (String.eqb (u_id u0) user_id); exact He.
Qed.

Lemma store_transaction_keeps_accounts td w :
  users (w_db (snd (local_auth.store_transaction td w))) = users (w_db w)
  ∧ sessions (w_db (snd (local_auth.store_transaction td w))) = sessions (w_db w).
Proof.
  destruct (store_transaction_cases td w) as [[_ ->] | [_ [e ->]]];
    split; reflexivity.
Qed.

Lemma verify_token_pure token w : snd (local_auth.verify_token token w) = w.
Proof.
  unfold local_auth.verify_token, try_result, mbind, io_bind, read_db, now,
    mret, io_ret. cbn beta iota.
  destruct (head _); reflexivity.
Qed.

(** Every world the store can reach keeps the foreign key. *)
Lemma reachable_sessions_have_users sha w :
  reachable sha w → sessions_have_users (w_db w) = true.
Proof.
  intros H. apply sessions_have_users_fk.
  induction H as [w Hinit| | | | | |].
  - rewrite Hinit. intros s [].
  - exact IHreachable.
  - now apply fk_register.
  - now apply fk_login.
  - now rewrite verify_token_pure.
  - now apply fk_update.
  - destruct (store_transaction_keeps_accounts transaction_data w) as [Hu Hs].
    intros s. rewrite Hs, Hu. apply IHreachable.
Qed.

(** C4: in a database whose sessions all belong to a user, [verify_token]
    succeeds exactly when the table has a session with that token whose
    expiry lies strictly after the current time, and what it returns is
    the account the session belongs to: the id is the [user_id] of the
    session, and the email, name, phone and pan are those of the row of
    [users] with this id; when every session with the token has its
    expiry at or before the current time (or there is none) it answers
    "Invalid or expired token"; and in both cases the world, the expiry of
    every session included, is what it was. *)
Theorem verify_token_exactly_live_sessions (w : world) (token : string) :
  sessions_have_users (w_db w) = true →
  ((∃ s, live_session (w_db w) token (w_now w) s) →
   ∃ s user info,
     live_session (w_db w) token (w_now w) s
     ∧ In user (users (w_db w)) ∧ u_id user = s_user_id s
     ∧ local_auth.verify_token token w = (Success info, w)
     ∧ local_auth.ui_id info = s_user_id s
     ∧ local_auth.ui_email info = u_email user
     ∧ local_auth.ui_name info = u_name user
     ∧ local_auth.ui_phone info = u_phone user
     ∧ local_auth.ui_pan info = u_pan user)
  ∧ ((∀ s, In s (sessions (w_db w)) → s_token s = token →
           s_expires_at s <= w_now w) →
     local_auth.verify_token token w
     = (Fail (Message "Invalid or expired token"), w)).
Proof.
  intros Hfk.
  unfold local_auth.verify_token, try_result, mbind, io_bind, read_db, now,
    mret, io_ret. cbn beta iota.
  split.
  - intros (s & Hlive).
    destruct (session_has_user _ s Hfk (proj1 Hlive)) as (u & Hu & He).
    assert (Hin : In u (local_auth.session_users (w_db w) token (w_now w))).
    { apply session_users_in. eauto. }
    destruct (local_auth.session_users (w_db w) token (w_now w))
      as [|u' rest] eqn:Hrows; [destruct Hin|].
    assert (Hin' : In u' (local_auth.session_users (w_db w) token (w_now w))).
    { rewrite Hrows. now left. }
    apply session_users_in in Hin' as (s' & Hlive' & Hu' & He').
    exists s', u', (local_auth.user_info_of u'). cbn.
    repeat split; try assumption; apply Hlive'.
  - intros Hdead.
    destruct (local_auth.session_users (w_db w) token (w_now w))
      as [|u' rest] eqn:Hrows; [reflexivity|].
    assert (Hin' : In u' (local_auth.session_users (w_db w) token (w_now w))).
    { rewrite Hrows. now left. }
    apply session_users_in in Hin' as (s' & (Hs' & Ht' & Hlt') & _).
    specialize (Hdead s' Hs' Ht'). lia.
Qed.

Lemma verify_token_exactly_live_sessions_witness :
  sessions_have_users (w_db world_session) = true
  ∧ ((∃ s, live_session (w_db world_session) "uuid-1" (w_now world_session) s) →
     ∃ s user info,
       live_session (w_db world_session) "uuid-1" (w_now world_session) s
       ∧ In user (users (w_db world_session))
       ∧ u_id user = s_user_id s
       ∧ local_auth.verify_token "uuid-1" world_session
         = (Success info, world_session)
       ∧ local_auth.ui_id info = s_user_id s
       ∧ local_auth.ui_email info = u_email user
       ∧ local_auth.ui_name info = u_name user
       ∧ local_auth.ui_phone info = u_phone user
       ∧ local_auth.ui_pan info = u_pan user)
  ∧ ((∀ s, In s (sessions (w_db world_session)) → s_token s = "uuid-1" →
           s_expires_at s <= w_now world_session) →
     local_auth.verify_token "uuid-1" world_session
     = (Fail (Message "Invalid or expired token"), world_session)).
Proof.
  split; [vm_compute; reflexivity|].
  apply (verify_token_exactly_live_sessions world_session "uuid-1").
  vm_compute. reflexivity.
Defined.

(** The session of [world_session] one second before its expiry, at its
    expiry and one second after it; and a token no session has. *)
Example verify_at_the_boundary :
  fst (local_auth.verify_token "uuid-1"
         (set_clock (sample_expiry - 1000000) "" "" world_session))
  = Success (local_auth.mk_user_info "uuid-0" "alice@example.org"
               (SText "Alice") (SText "") (SText ""))
  ∧ fst (local_auth.verify_token "uuid-1"
           (set_clock sample_expiry "" "" world_session))
    = Fail (Message "Invalid or expired token")
  ∧ fst (local_auth.verify_token "uuid-1"
           (set_clock (sample_expiry + 1000000) "" "" world_session))
    = Fail (Message "Invalid or expired token")
  ∧ fst (local_auth.verify_token "uuid-7" world_session)
    = Fail (Message "Invalid or expired token").
Proof. vm_compute. repeat split; reflexivity. Qed.

Example world_session_is_reachable : reachable sample_sha256 world_session.
Proof.
  unfold world_session. apply reach_login, reach_register, reach_init.
  reflexivity.
Qed.
(** ** C2: a read of the ledger sees one user's rows *)

Lemma filter_and {A} (f g : A → bool) (l : list A) :
  List.filter (λ x, f x && g x) l = List.filter g (List.filter f l).
Proof.
  induction l as [|x l IH]; [reflexivity|]. cbn.
  destruct (f x); cbn; [destruct (g x)|]; now rewrite IH.
Qed.

Lemma select_own_rows (d : database) (uid : sqlval)
    (clauses : list (transaction_row → bool)) :
  local_auth.select_transactions d uid clauses
  = List.filter (λ r, forallb (λ c, c r) clauses) (own_rows uid d).
Proof. unfold local_auth.select_transactions, own_rows. apply filter_and. Qed.

Lemma select_all_own_rows (d : database) (uid : sqlval) :
  local_auth.select_transactions d uid [] = own_rows uid d.
Proof.
  rewrite select_own_rows. cbn. induction (own_rows uid d) as [|x l IH];
    [reflexivity|]. cbn. now rewrite IH.
Qed.

Lemma In_limit_offset {A} (limit offset : Z) (l : list A) (x : A) :
  In x (local_auth.limit_offset limit offset l) → In x l.
Proof.
  unfold local_auth.limit_offset. intros H.
  destruct (limit <? 0).
  - apply list_elem_of_In in H. apply list_elem_of_In.
    eapply (subseteq_drop _ l); eauto.
  - apply list_elem_of_In in H. apply list_elem_of_In.
    eapply (subseteq_drop _ l). eapply subseteq_take. eauto.
Qed.

(** What a query answers, once the user id has been bound. *)
Lemma get_user_transactions_eq (user_id : pyval) (uid : sqlval)
    (limit offset : Z) (filters : option pydict) (w : world) :
  text_param w user_id = Some uid →
  local_auth.get_user_transactions user_id limit offset filters w
  = (match local_auth.filter_clauses filters with
     | inl e => Fail (Raised e)
     | inr clauses =>
         Success (map local_auth.row_dict
                    (local_auth.limit_offset limit offset
                       (local_auth.order_by_date_desc
                          (local_auth.select_transactions (w_db w) uid clauses))))
     end, w).
Proof.
  intros Hu.
  unfold local_auth.get_user_transactions, try_result, mbind, io_bind, lift,
    bind_text_param, read_db, mret, io_ret. rewrite Hu. cbn beta iota.
  destruct (local_auth.filter_clauses filters); [|reflexivity].
  destruct w; reflexivity.
Qed.

Lemma get_transaction_summary_eq (user_id : pyval) (uid : sqlval) (w : world) :
  text_param w user_id = Some uid →
  local_auth.get_transaction_summary user_id w
  = (Success (local_auth.summary_of (own_rows uid (w_db w))), w).
Proof.
  intros Hu.
  unfold local_auth.get_transaction_summary, try_result, mbind, io_bind, lift,
    bind_text_param, read_db, mret, io_ret. rewrite Hu. cbn beta iota.
  now rewrite select_all_own_rows.
Qed.

Lemma sql_eq_text (v : sqlval) (s : string) :
  sql_eq v (SText s) = true → v = SText s.
Proof.
  destruct v as [|q|t]; cbn; try discriminate.
  unfold sql_eq. cbn. destruct (String.compare t s) eqn:Hc; try discriminate.
  apply String.compare_eq_iff in Hc. now subst.
Qed.

(** C2: whatever the user id, the filters and the page, every row
    [get_user_transactions] returns has one and the same [user_id], the
    value the id is compared as: the id itself when it is a text, its
    decimal numeral when it is an int (the column is a TEXT column), and
    no row at all is returned for [None]. The answers of
    [get_user_transactions] and of [get_transaction_summary] are the same
    in any two databases that hold the same rows of that user, so that
    the rows of other users have no part in them, whatever the filters
    are. *)
Theorem ledger_reads_see_one_user (user_id : pyval) (limit offset : Z)
    (filters : option pydict) (w : world) :
  (∀ txs,
     fst (local_auth.get_user_transactions user_id limit offset filters w)
     = Success txs →
     ∃ uid, text_param w user_id = Some uid
            ∧ Forall (λ t, local_auth.tx_user_id t = uid) txs
            ∧ (∀ s, user_id = PStr s → uid = SText s)
            ∧ (∀ n, user_id = PInt n → uid = SText (pretty n))
            ∧ (user_id = PNone → txs = []))
  ∧ (∀ uid w', text_param w user_id = Some uid →
       text_param w' user_id = Some uid →
       own_rows uid (w_db w') = own_rows uid (w_db w) →
       fst (local_auth.get_user_transactions user_id limit offset filters w')
       = fst (local_auth.get_user_transactions user_id limit offset filters w)
       ∧ fst (local_auth.get_transaction_summary user_id w')
         = fst (local_auth.get_transaction_summary user_id w)).
Proof.
  split.
  - intros txs H.
    destruct (text_param w user_id) as [uid|] eqn:Hu.
    2:{ unfold local_auth.get_user_transactions, try_result, mbind, io_bind,
          bind_text_param in H. rewrite Hu in H. discriminate. }
    rewrite (get_user_transactions_eq _ uid) in H by exact Hu. cbn in H.
    destruct (local_auth.filter_clauses filters) as [e|clauses];
      [discriminate|].
    injection H as <-. exists uid. split; [reflexivity|].
    assert (Hall : ∀ r, In r (local_auth.limit_offset limit offset
                               (local_auth.order_by_date_desc
                                  (local_auth.select_transactions
                                     (w_db w) uid clauses))) →
                        sql_eq (t_user_id r) uid = true).
    { intros r Hr. apply In_limit_offset in Hr. apply order_desc_In in Hr.
      unfold local_auth.select_transactions in Hr.
      apply filter_In in Hr as [_ Hc]. now apply andb_true_iff in Hc as [Hc _]. }
    split; [|split; [|split]].
    + apply List.Forall_forall. intros t Ht.
      apply in_map_iff in Ht as (r & <- & Hr). apply Hall in Hr. cbn.
      destruct uid as [|q|s].
      * now destruct (t_user_id r).
      * destruct user_id as [| | n | | | |]; cbn in Hu; try discriminate.
        destruct (in_int64 n); discriminate.
      * now apply sql_eq_text in Hr.
    + intros s ->. cbn in Hu. now injection Hu as <-.
    + intros n ->. cbn in Hu. destruct (in_int64 n); [|discriminate].
      now injection Hu as <-.
    + intros ->. cbn in Hu. injection Hu as <-.
      destruct (local_auth.limit_offset _ _ _) as [|r l] eqn:Hl; [reflexivity|].
      specialize (Hall r (or_introl eq_refl)). now destruct (t_user_id r).
  - intros uid w' Hu Hu' Hrows.
    rewrite (get_user_transactions_eq _ uid _ _ _ w) by exact Hu.
    rewrite (get_user_transactions_eq _ uid _ _ _ w') by exact Hu'.
    rewrite (get_transaction_summary_eq _ uid w) by exact Hu.
    rewrite (get_transaction_summary_eq _ uid w') by exact Hu'.
    cbn. rewrite Hrows. split; [|reflexivity].
    destruct (local_auth.filter_clauses filters) as [e|clauses]; [reflexivity|].
    now rewrite !select_own_rows, Hrows.
Qed.

Lemma ledger_reads_see_one_user_witness :
  (∃ txs,
     fst (local_auth.get_user_transactions (PStr "alice") 10 0 None
            world_two_users) = Success txs
     ∧ txs ≠ []
     ∧ Forall (λ t, local_auth.tx_user_id t = SText "alice") txs)
  ∧ (∀ uid w', text_param world_two_users (PStr "alice") = Some uid →
       text_param w' (PStr "alice") = Some uid →
       own_rows uid (w_db w') = own_rows uid (w_db world_two_users) →
       fst (local_auth.get_user_transactions (PStr "alice") 10 0 None w')
       = fst (local_auth.get_user_transactions (PStr "alice") 10 0 None
                world_two_users)
       ∧ fst (local_auth.get_transaction_summary (PStr "alice") w')
         = fst (local_auth.get_transaction_summary (PStr "alice")
                  world_two_users)).
Proof.
  pose proof (ledger_reads_see_one_user (PStr "alice") 10 0 None world_two_users)
    as [H1 H2].
  split; [|exact H2].
  destruct (fst (local_auth.get_user_transactions (PStr "alice") 10 0 None
                   world_two_users)) as [txs|e] eqn:Hq; [|discriminate].
  exists txs. split; [reflexivity|].
  destruct (H1 txs eq_refl) as (uid & Hu & Hall & Hs & _).
  rewrite (Hs "alice" eq_refl) in Hall.
  split; [|exact Hall].
  intros ->. vm_compute in Hq. discriminate.
Defined.
(** ** C10: order and pages of a listing *)

Lemma sublist_List_filter {A} (f : A → bool) (l : list A) :
  sublist (List.filter f l) l.
Proof.
  induction l as [|x l IH]; cbn; [constructor|].
  destruct (f x); now constructor.
Qed.

Lemma sublist_map {A B} (f : A → B) (l1 l2 : list A) :
  sublist l1 l2 → sublist (map f l1) (map f l2).
Proof. induction 1; cbn; now constructor. Qed.

Lemma filter_map_row_dict (k : sqlval) (l : list transaction_row) :
  List.filter (same_key local_auth.tx_date k) (map local_auth.row_dict l)
  = map local_auth.row_dict (List.filter (same_key t_date k) l).
Proof.
  induction l as [|x l IH]; [reflexivity|]. cbn [map List.filter].
  change (same_key local_auth.tx_date k (local_auth.row_dict x))
    with (same_key t_date k x).
  destruct (same_key t_date k x); cbn [map]; now rewrite IH.
Qed.

Lemma limit_offset_map {A B} (f : A → B) (limit offset : Z) (l : list A) :
  map f (local_auth.limit_offset limit offset l)
  = local_auth.limit_offset limit offset (map f l).
Proof.
  unfold local_auth.limit_offset.
  destruct (limit <? 0); now rewrite ?skipn_map, ?firstn_map.
Qed.

Lemma limit_offset_sorted {A} (R : A → A → Prop) (limit offset : Z) (l : list A) :
  Sorted R l → Sorted R (local_auth.limit_offset limit offset l).
Proof.
  intros H. unfold local_auth.limit_offset.
  destruct (limit <? 0); [|apply Sorted_take]; now apply Sorted_drop.
Qed.

Lemma listing_sorted (rows : list transaction_row) :
  Sorted (date_desc local_auth.tx_date)
         (map local_auth.row_dict (local_auth.order_by_date_desc rows)).
Proof.
  eapply Sorted_map; [|apply (order_desc_sorted t_date)].
  intros a b H. exact H.
Qed.

(** The route: at most 100 rows, whatever [per_page] asks for. *)
Lemma route_clamps_per_page (table : list local_auth.transaction)
    (user_id : string) (page_arg per_page_arg : Z)
    (category transaction_type start_date end_date : option string)
    (data : list local_auth.transaction) (p : file_processing.pagination) :
  file_processing.get_user_transactions table user_id page_arg per_page_arg
    category transaction_type start_date end_date = inr (data, p) →
  file_processing.per_page p = Z.min per_page_arg 100
  ∧ (length data <= 100)%nat
  ∧ Sorted (date_desc local_auth.tx_date) data.
Proof.
  unfold file_processing.get_user_transactions.
  destruct (_ || _); [discriminate|]. cbn. intros [= <- <-]. cbn.
  split; [reflexivity|]. split.
  - rewrite length_take. lia.
  - apply Sorted_take, Sorted_drop, order_desc_sorted.
Qed.

(** C10 (as the code has it): the rows [get_user_transactions] returns are
    sorted by date descending; they are the slice that [offset] and
    [limit] cut out of the whole listing (the answer for no limit and no
    offset), in which the rows of one date stand in the order of the table
    (no second sort key); the limit is taken as it is given, so that a
    non-negative [limit] and [offset] return
    [min limit (rows of the listing after offset)] rows, with no ceiling
    of 100. The ceiling of 100 rows is in the HTTP route only, which
    replaces [per_page] by [min per_page 100]. *)
Theorem listing_is_sorted_and_paged (user_id : pyval) (limit offset : Z)
    (filters : option pydict) (w : world) (txs : list local_auth.transaction) :
  fst (local_auth.get_user_transactions user_id limit offset filters w)
  = Success txs →
  Sorted (date_desc local_auth.tx_date) txs
  ∧ (∃ listing,
       fst (local_auth.get_user_transactions user_id (-1) 0 filters w)
       = Success listing
       ∧ txs = local_auth.limit_offset limit offset listing
       ∧ (∀ k, sublist (List.filter (same_key local_auth.tx_date k) listing)
                       (map local_auth.row_dict (transactions (w_db w))))
       ∧ (0 <= limit → 0 <= offset →
          length txs
          = Nat.min (Z.to_nat limit) (length listing - Z.to_nat offset)))
  ∧ (∀ table uid page_arg per_page_arg category type start_date end_date data p,
       file_processing.get_user_transactions table uid page_arg per_page_arg
         category type start_date end_date = inr (data, p) →
       file_processing.per_page p = Z.min per_page_arg 100
       ∧ (length data <= 100)%nat).
Proof.
  intros H.
  destruct (text_param w user_id) as [uid|] eqn:Hu.
  2:{ unfold local_auth.get_user_transactions, try_result, mbind, io_bind,
        lift, bind_text_param in H. rewrite Hu in H. discriminate. }
  rewrite (get_user_transactions_eq _ uid) in H by exact Hu. cbn in H.
  rewrite (get_user_transactions_eq _ uid) by exact Hu. cbn.
  destruct (local_auth.filter_clauses filters) as [e|clauses]; [discriminate|].
  injection H as <-.
  split; [|split].
  - rewrite limit_offset_map. apply limit_offset_sorted, listing_sorted.
  - eexists. split; [reflexivity|].
    change (Z.to_nat 0) with 0%nat. rewrite !drop_0.
    split; [apply limit_offset_map|]. split.
    + intros k. rewrite filter_map_row_dict. apply sublist_map.
      unfold local_auth.order_by_date_desc. rewrite order_desc_stable.
      etransitivity; apply sublist_List_filter.
    + intros Hl Ho. rewrite limit_offset_map. unfold local_auth.limit_offset.
      destruct (limit <? 0) eqn:Hneg; [apply Z.ltb_lt in Hneg; lia|].
      now rewrite length_take, length_drop, !length_map.
  - intros table uid' page_arg per_page_arg category type start_date end_date
      data p Hroute.
    destruct (route_clamps_per_page _ _ _ _ _ _ _ _ _ _ Hroute) as (? & ? & _).
    auto.
Qed.

(** C10 fails as stated: with 101 rows of one day in the ledger, the
    query with the default limit (the one the dashboard issues) returns
    all 101 rows, more than 100; and the rows of that one day come
    first-inserted first, not last-inserted first. *)
Lemma default_listing_exceeds_100_rows :
  ∃ txs,
    fst (local_auth.get_user_transactions (PStr "alice")
           local_auth.default_limit local_auth.default_offset None world_101)
    = Success txs
    ∧ length txs = 101%nat
    ∧ map local_auth.tx_id (take 3 txs) = ["uuid-0"; "uuid-1"; "uuid-2"].
Proof. eexists. vm_compute. repeat split; reflexivity. Qed.

Lemma listing_is_sorted_and_paged_witness :
  fst (local_auth.get_user_transactions (PStr "alice") 10 0 None world_two_users)
  = Success alice_page
  ∧ Sorted (date_desc local_auth.tx_date) alice_page
  ∧ (∃ listing,
       fst (local_auth.get_user_transactions (PStr "alice") (-1) 0 None
              world_two_users) = Success listing
       ∧ alice_page = local_auth.limit_offset 10 0 listing
       ∧ (∀ k, sublist (List.filter (same_key local_auth.tx_date k) listing)
                       (map local_auth.row_dict
                            (transactions (w_db world_two_users))))
       ∧ (0 <= 10 → 0 <= 0 →
          length alice_page
          = Nat.min (Z.to_nat 10) (length listing - Z.to_nat 0)))
  ∧ (∀ table uid page_arg per_page_arg category type start_date end_date data p,
       file_processing.get_user_transactions table uid page_arg per_page_arg
         category type start_date end_date = inr (data, p) →
       file_processing.per_page p = Z.min per_page_arg 100
       ∧ (length data <= 100)%nat).
Proof.
  split; [vm_compute; reflexivity|].
  apply (listing_is_sorted_and_paged (PStr "alice") 10 0 None world_two_users
           alice_page).
  vm_compute. reflexivity.
Defined.

(** The route asked for 500 rows per page hands out 100. *)
Example route_page_of_500 :
  ∃ data p,
    file_processing.get_user_transactions
      (answer (fst (local_auth.get_user_transactions (PStr "alice") (-1) 0 None
                      world_101)))
      "alice" 1 500 None None None None = inr (data, p)
    ∧ length data = 100%nat ∧ file_processing.per_page p = 100.
Proof. do 2 eexists. vm_compute. repeat split; reflexivity. Qed.
(** ** C5: the financial summary *)

Lemma Qlt_bool_false (a b : Q) : (b <= a)%Q → dashboard.Qlt_bool a b = false.
Proof.
  intros H. unfold dashboard.Qlt_bool. apply Qle_bool_iff in H. now rewrite H.
Qed.

Lemma Qle_bool_false (a b : Q) : (b < a)%Q → Qle_bool a b = false.
Proof.
  intros H. destruct (Qle_bool a b) eqn:Hle; [|reflexivity].
  apply Qle_bool_iff in Hle. exfalso. exact (Qlt_not_le _ _ H Hle).
Qed.

Lemma py_sum_numbers (f : local_auth.transaction → Q)
    (g : local_auth.transaction → exn + Q) (ts : list local_auth.transaction)
    (acc : Q) :
  (∀ t, In t ts → g t = inr (f t)) →
  dashboard.py_sum acc (map g ts) = inr (fold_left Qplus (map f ts) acc).
Proof.
  revert acc. induction ts as [|t ts IH]; intros acc H; [reflexivity|].
  cbn. rewrite (H t) by now left. cbn. apply IH.
  intros t' Ht'. apply H. now right.
Qed.

Lemma numeric_amount_of (ts : list local_auth.transaction) (type : string)
    (t : local_auth.transaction) :
  numeric_amounts ts = true → (type = "credit" ∨ type = "debit") →
  In t (List.filter (dashboard.has_type type) ts) →
  dashboard.py_float (local_auth.tx_amount t) = inr (amount_of t).
Proof.
  unfold numeric_amounts. rewrite forallb_forall. intros H Htype Ht.
  apply filter_In in Ht as [Ht Hc].
  assert (Hin : In t (List.filter counted ts)).
  { apply filter_In. split; [exact Ht|]. unfold counted.
    destruct Htype as [-> | ->]; rewrite Hc; [reflexivity | apply orb_true_r]. }
  specialize (H t Hin). unfold amount_of.
  destruct (local_auth.tx_amount t); try discriminate. reflexivity.
Qed.

(** The summary of a list whose credits and debits carry numbers. *)
Lemma summary_of_numbers (ts : list local_auth.transaction)
    (start_date end_date : Z) :
  ts ≠ [] → numeric_amounts ts = true →
  ∃ s, dashboard.calculate_financial_summary_from_data ts start_date end_date
       = inr s
       ∧ dashboard.total_income s = dashboard.py_int (credit_sum ts)
       ∧ dashboard.total_expenses s = dashboard.py_int (debit_sum ts)
       ∧ dashboard.net_savings s
         = dashboard.py_int (credit_sum ts - debit_sum ts)
       ∧ dashboard.savings_rate s = rate_of (credit_sum ts) (debit_sum ts).
Proof.
  intros Hne Hnum. destruct ts as [|t0 ts0]; [contradiction|].
  unfold dashboard.calculate_financial_summary_from_data. cbv beta iota.
  set (ts := t0 :: ts0) in *.
  rewrite (py_sum_numbers amount_of
             (λ t, dashboard.py_float (local_auth.tx_amount t))).
  2:{ intros t Ht. apply (numeric_amount_of ts "credit"); auto. }
  cbn [mbind exn_bind].
  rewrite (py_sum_numbers (λ t, Qabs (amount_of t))).
  2:{ intros t Ht. rewrite (numeric_amount_of ts "debit"); auto. }
  cbn [mbind exn_bind mret exn_ret].
  eexists. split; [reflexivity|]. cbn. repeat split; reflexivity.
Qed.









Lemma exact_is_numeric (ts : list local_auth.transaction) :
  exact_amounts ts = true → numeric_amounts ts = true.
Proof.
  unfold exact_amounts, exactly_summable, numeric_amounts.
  intros H. apply andb_true_iff in H as [H _].
  rewrite forallb_forall in *. intros t Ht.
  specialize (H (local_auth.tx_amount t) (in_map _ _ _ Ht)).
  destruct (local_auth.tx_amount t); try discriminate. reflexivity.
Qed.





(** The scenario of January 2024. *)
Example january_2024 :
  dashboard.calculate_financial_summary_from_data january 738886 738916
  = inr (dashboard.mk_financial_summary 50000 40000 10000 50000 40000 20).
Proof. vm_compute. reflexivity. Qed.

(** ** C6 and C7: the insights *)

Lemma generated_at_most_two (s : dashboard.financial_summary) :
  (length (dashboard.generated_insights s) <= 2)%nat.
Proof.
  unfold dashboard.generated_insights.
  destruct (dashboard.total_income s =? 0);
    [|destruct (dashboard.Qlt_bool (dashboard.savings_rate s) 10);
      [|destruct (dashboard.Qlt_bool (dashboard.savings_rate s) 20);
        [|destruct (Qle_bool 30 (dashboard.savings_rate s))]]];
    destruct (0 <? dashboard.monthly_expenses s); cbn; lia.
Qed.

(** C6: for a summary with a positive income and a savings rate of at
    least 20 and below 30 no savings-rate insight is produced: the answer
    is empty when the monthly expenses are not positive, and otherwise it
    is one insight, the spending review: its type is "spending", its
    impact "medium", no action is required, and its message quotes the
    monthly expenses. For every summary the answer has at most 4 entries
    and is the insights in the order they were produced (their first 4). *)
Theorem no_savings_insight_from_20_to_30 {T C : Type} (tax_summary : T)
    (cibil_summary : C) :
  (∀ s, 0 < dashboard.total_income s →
        (20 <= dashboard.savings_rate s)%Q → (dashboard.savings_rate s < 30)%Q →
        let insights :=
          dashboard.generate_insights_from_data s tax_summary cibil_summary in
        Forall (λ i, dashboard.type i = "spending"
                     ∧ dashboard.type i ≠ "financial"
                     ∧ dashboard.impact i = "medium"
                     ∧ dashboard.action_required i = false
                     ∧ dashboard.message i
                       = [dashboard.Lit "Your monthly expenses are ₹";
                          dashboard.Grouped (dashboard.monthly_expenses s);
                          dashboard.Lit ". Review categories for optimization opportunities"])
               insights
        ∧ (0 < dashboard.monthly_expenses s → length insights = 1%nat)
        ∧ (dashboard.monthly_expenses s <= 0 → insights = [])
        ∧ insights = if 0 <? dashboard.monthly_expenses s
                     then [dashboard.spending_insight (dashboard.monthly_expenses s)]
                     else [])
  ∧ (∀ s, (length (dashboard.generate_insights_from_data
                     s tax_summary cibil_summary) <= 4)%nat
          ∧ dashboard.generate_insights_from_data s tax_summary cibil_summary
            = take 4 (dashboard.generated_insights s)
          ∧ dashboard.generate_insights_from_data s tax_summary cibil_summary
            = dashboard.generated_insights s).
Proof.
  split.
  - intros s Hi H20 H30 insights.
    assert (He : insights
                 = if 0 <? dashboard.monthly_expenses s
                   then [dashboard.spending_insight (dashboard.monthly_expenses s)]
                   else []).
    { unfold insights, dashboard.generate_insights_from_data,
        dashboard.generated_insights.
      destruct (dashboard.total_income s =? 0) eqn:H0;
        [apply Z.eqb_eq in H0; lia|].
      rewrite (Qlt_bool_false _ 10)
        by (eapply Qle_trans; [|exact H20]; discriminate).
      rewrite (Qlt_bool_false _ 20) by exact H20.
      rewrite (Qle_bool_false 30) by exact H30.
      destruct (0 <? dashboard.monthly_expenses s); reflexivity. }
    rewrite He. destruct (0 <? dashboard.monthly_expenses s) eqn:Hm.
    + apply Z.ltb_lt in Hm. split.
      * constructor; [|constructor]. cbn.
        repeat split; try reflexivity. discriminate.
      * repeat split; try reflexivity. intros; lia.
    + apply Z.ltb_ge in Hm. split; [constructor|].
      repeat split; try reflexivity. intros; lia.
  - intros s. unfold dashboard.generate_insights_from_data.
    pose proof (generated_at_most_two s) as H2.
    split; [rewrite length_take; lia|]. split; [reflexivity|].
    apply take_ge. lia.
Qed.

Lemma no_savings_insight_from_20_to_30_witness :
  0 < dashboard.total_income
        (dashboard.mk_financial_summary 50000 37500 12500 50000 37500 25)
  ∧ map dashboard.type
      (dashboard.generate_insights_from_data
         (dashboard.mk_financial_summary 50000 37500 12500 50000 37500 25) tt tt)
    = ["spending"].
Proof.
  split; [reflexivity|].
  pose proof (proj1 (no_savings_insight_from_20_to_30 tt tt)
                (dashboard.mk_financial_summary 50000 37500 12500 50000 37500 25))
    as H.
  cbv zeta in H.
  destruct H as (_ & _ & _ & H); [reflexivity | discriminate | reflexivity |].
  rewrite H. reflexivity.
Defined.

(** C7 (as the code has it): for a summary with no income the first
    insight is the one of type "info" with [action_required = true]; it is
    the only one exactly when the monthly expenses are not positive, and
    is followed by the spending-review insight when they are. *)
Theorem no_income_gives_info_insight_first {T C : Type} (tax_summary : T)
    (cibil_summary : C) (s : dashboard.financial_summary) :
  dashboard.total_income s = 0 →
  dashboard.generate_insights_from_data s tax_summary cibil_summary
  = dashboard.upload_insight
    :: (if 0 <? dashboard.monthly_expenses s
        then [dashboard.spending_insight (dashboard.monthly_expenses s)]
        else [])
  ∧ dashboard.type dashboard.upload_insight = "info"
  ∧ dashboard.action_required dashboard.upload_insight = true
  ∧ (length (dashboard.generate_insights_from_data s tax_summary cibil_summary)
     = 1%nat ↔ dashboard.monthly_expenses s <= 0).
Proof.
  intros H0.
  unfold dashboard.generate_insights_from_data, dashboard.generated_insights.
  rewrite H0. cbn [Z.eqb app].
  destruct (0 <? dashboard.monthly_expenses s) eqn:He; cbn.
  - apply Z.ltb_lt in He. repeat split; try reflexivity; intros; lia.
  - apply Z.ltb_ge in He. repeat split; try reflexivity; intros; lia.
Qed.

(** C7 fails as stated: a year with one debit of 40000 and no credit has a
    summary with no income and monthly expenses of 3335, and the answer
    has two insights, the "info" one and the spending review. *)
Lemma no_income_with_expenses_gives_two_insights :
  ∃ s, dashboard.calculate_financial_summary_from_data
         [reading "2024-01-15" 40000 "debit"] 738886 739251 = inr s
       ∧ dashboard.total_income s = 0
       ∧ map dashboard.type
             (dashboard.generate_insights_from_data s tt tt)
         = ["info"; "spending"].
Proof. eexists. vm_compute. repeat split; reflexivity. Qed.

Lemma no_income_gives_info_insight_first_witness :
  dashboard.total_income (dashboard.mk_financial_summary 0 0 0 0 0 0) = 0
  ∧ dashboard.generate_insights_from_data
      (dashboard.mk_financial_summary 0 0 0 0 0 0) tt tt
    = [dashboard.upload_insight].
Proof.
  split; [reflexivity|].
  exact (proj1 (no_income_gives_info_insight_first tt tt
                  (dashboard.mk_financial_summary 0 0 0 0 0 0) eq_refl)).
Defined.
(** ** C3: the user of a request *)

(** C3: when the Authorization header starts with "Bearer ", the token
    after it is not a live local session, its second dot-separated part,
    padded, decodes and parses to a JSON object, then
    [get_user_id_from_request] returns the ["sub"] entry of that object
    ([None] when it has none). Neither the first part nor any part after
    the second (the signature) is looked at, nothing else of the payload
    (an expiry) either, and the world is left as it was: whoever writes
    the payload chooses the user id. *)
Theorem unsigned_jwt_names_the_user (urlsafe_b64decode : string → exn + string)
    (json_loads : string → exn + dashboard.json) (w : world)
    (header token first payload decoded : string) (rest : list string)
    (data : pydict) :
  String.prefix "Bearer " header = true →
  dashboard.split " "%char header !! 1%nat = Some token →
  succeeded (fst (local_auth.verify_token token w)) = false →
  dashboard.split "."%char token = first :: payload :: rest →
  urlsafe_b64decode (dashboard.pad payload) = inr decoded →
  json_loads decoded = inr (dashboard.JObject data) →
  dashboard.get_user_id_from_request urlsafe_b64decode json_loads
    (Some header) w
  = (get data "sub", w).
Proof.
  intros Hprefix Htoken Hlocal Hparts Hb64 Hjson.
  unfold dashboard.get_user_id_from_request. cbn [default from_option id].
  rewrite Hprefix, Htoken. cbn [negb].
  pose proof (verify_token_pure token w) as Hw.
  destruct (local_auth.verify_token token w) as [[user|err] w'];
    cbn in Hlocal, Hw; [discriminate|]. subst w'.
  unfold dashboard.decode_jwt. rewrite Hparts.
  cbn [length Nat.leb lookup list_lookup mbind exn_bind].
  rewrite Hb64. cbn [mbind exn_bind]. rewrite Hjson. reflexivity.
Qed.

Lemma unsigned_jwt_names_the_user_witness :
  String.prefix "Bearer " "Bearer e30.c3ViOnZpY3RpbQ.forged" = true
  ∧ succeeded (fst (local_auth.verify_token "e30.c3ViOnZpY3RpbQ.forged" world0))
    = false
  ∧ dashboard.get_user_id_from_request sample_b64decode sample_json_loads
      (Some "Bearer e30.c3ViOnZpY3RpbQ.forged") world0
    = (get {[ "sub" := PStr "victim" ]} "sub", world0).
Proof.
  split; [reflexivity|]. split; [reflexivity|].
  apply (unsigned_jwt_names_the_user sample_b64decode sample_json_loads world0
           "Bearer e30.c3ViOnZpY3RpbQ.forged" "e30.c3ViOnZpY3RpbQ.forged"
           "e30" "c3ViOnZpY3RpbQ" "sub:victim" ["forged"]
           {[ "sub" := PStr "victim" ]});
    reflexivity.
Defined.

(** A forged token, with no signature worth the name, is taken for the
    user it names. *)
Example forged_token_is_victim :
  fst (dashboard.get_user_id_from_request sample_b64decode sample_json_loads
         (Some "Bearer e30.c3ViOnZpY3RpbQ.forged") world0)
  = PStr "victim".
Proof. vm_compute. reflexivity. Qed.
(** ** C9: an upload without transactions *)

(** C9: when the parser gives no transaction, [process_uploaded_file]
    answers with status 200 and the message "File processed but no
    transactions found"; the count and the three totals are zero, the
    categories and the list of transactions are empty, four suggestions
    for the user come with it, and the database is left as it was. *)
Theorem no_transactions_found_is_a_success
    (categorize_transaction : pyval → pyval → exn + pydict)
    (profile_id file_name file_type : string) (file_size : Z) (w : world) :
  let r := file_processing.process_uploaded_file categorize_transaction
             profile_id file_name file_type file_size (inr []) w in
  file_processing.status_code (fst r) = 200
  ∧ file_processing.message (fst r) = "File processed but no transactions found"
  ∧ file_processing.results_of (fst r)
    = Some (file_processing.mk_results 0 0 0 0 [] [])
  ∧ file_processing.suggestions_of (fst r)
    = file_processing.no_transactions_suggestions
  ∧ length (file_processing.suggestions_of (fst r)) = 4%nat
  ∧ w_db (snd r) = w_db w.
Proof. cbn. repeat split; reflexivity. Qed.

(** ** C8: a batch with failures *)

Lemma fresh_supply_fresh_id (w : world) : fresh_supply w → fresh_id w = true.
Proof.
  intros [_ Hnew]. unfold fresh_id, next_id.
  destruct (existsb _ _) eqn:He; [|reflexivity].
  apply existsb_exists in He as (r & Hr & Heq). apply String.eqb_eq in Heq.
  exfalso. exact (Hnew (w_draws w) r (le_n _) Hr Heq).
Qed.

Lemma fresh_supply_consume (w : world) : fresh_supply w → fresh_supply (consume w).
Proof.
  intros [Hinj Hnew]. split; cbn.
  - intros n m Hn Hm. apply Hinj; lia.
  - intros n r Hn. apply Hnew. lia.
Qed.

Lemma fresh_supply_append (td : pydict) (w : world) :
  fresh_supply w → fresh_supply (append_row (row_of td w) (consume w)).
Proof.
  intros [Hinj Hnew]. split; cbn.
  - intros n m Hn Hm. apply Hinj; lia.
  - intros n r Hn Hr. apply in_app_or in Hr as [Hr | [<- | []]].
    + apply Hnew; [lia | exact Hr].
    + cbn. unfold next_id. intros Heq. apply Hinj in Heq; lia.
Qed.

(** One store, when the identifiers are new. *)
Lemma store_transaction_fresh (td : pydict) (w : world) :
  fresh_supply w →
  succeeded (fst (local_auth.store_transaction td w)) = storable td
  ∧ snd (local_auth.store_transaction td w)
    = (if storable td then append_row (row_of td w) (consume w) else consume w).
Proof.
  intros Hf. pose proof (fresh_supply_fresh_id w Hf) as Hid.
  destruct (store_transaction_cases td w) as [[Hc ->] | [Hc [e ->]]];
    rewrite Hid, andb_true_r in Hc; rewrite Hc; split; reflexivity.
Qed.

Lemma fresh_supply_step (td : pydict) (w : world) :
  fresh_supply w →
  fresh_supply (if storable td then append_row (row_of td w) (consume w)
                else consume w).
Proof.
  intros Hf. destruct (storable td);
    [now apply fresh_supply_append | now apply fresh_supply_consume].
Qed.

(** The loop of step 4: every record is tried, and each one that can be
    stored is stored, whatever became of the others. *)
Lemma store_all_fresh (records : list pydict) (n : Z) (w : world) :
  fresh_supply w →
  file_processing.store_all records n w
  = (n + Z.of_nat (length (List.filter storable records)),
     after_stores records w).
Proof.
  revert n w. induction records as [|r rest IH]; intros n w Hf.
  - cbn. f_equal. lia.
  - cbn [file_processing.store_all after_stores List.filter].
    destruct (store_transaction_fresh r w Hf) as [Hs Hw].
    destruct (local_auth.store_transaction r w) as [res w'].
    cbn in Hs, Hw. subst w'. rewrite Hs.
    rewrite IH by now apply fresh_supply_step.
    f_equal. destruct (storable r); cbn [length]; lia.
Qed.

Lemma after_stores_rows (records : list pydict) (w : world) :
  transactions (w_db (after_stores records w))
  = transactions (w_db w) ++ stored_rows records w.
Proof.
  revert w. induction records as [|r rest IH]; intros w; cbn.
  - now rewrite app_nil_r.
  - rewrite IH. destruct (storable r); cbn; [|reflexivity].
    now rewrite <- app_assoc.
Qed.

Lemma stored_rows_length (records : list pydict) (w : world) :
  length (stored_rows records w) = length (List.filter storable records).
Proof.
  revert w. induction records as [|r rest IH]; intros w; [reflexivity|].
  cbn. rewrite length_app, IH. destruct (storable r); reflexivity.
Qed.

Section Batch.
Variable categorize_transaction : pyval → pyval → exn + pydict.
Variables file_id profile_id utcnow : string.

(** Step 3 skips a candidate whose record cannot be built and goes on
    with the next. *)
Lemma categorize_all_app (pre post : list pydict) :
  file_processing.categorize_all categorize_transaction file_id profile_id
    utcnow (pre ++ post)
  = file_processing.categorize_all categorize_transaction file_id profile_id
      utcnow pre
    ++ file_processing.categorize_all categorize_transaction file_id
         profile_id utcnow post.
Proof.
  induction pre as [|c pre IH]; [reflexivity|]. cbn.
  destruct (file_processing.transaction_record _ _ _ _ c); cbn;
    now rewrite IH.
Qed.

Lemma categorize_all_skips (pre post : list pydict) (bad : pydict) (e : exn) :
  file_processing.transaction_record categorize_transaction file_id
    profile_id utcnow bad = inl e →
  file_processing.categorize_all categorize_transaction file_id profile_id
    utcnow (pre ++ bad :: post)
  = file_processing.categorize_all categorize_transaction file_id profile_id
      utcnow (pre ++ post).
Proof.
  intros Hbad. rewrite !categorize_all_app. cbn. now rewrite Hbad.
Qed.
End Batch.
Section Upload.
Variable categorize_transaction : pyval → pyval → exn + pydict.
Variables profile_id file_name file_type : string.
Variable file_size : Z.

Local Abbreviation process :=
  (file_processing.process_uploaded_file categorize_transaction profile_id
     file_name file_type file_size).
Local Abbreviation built w ts :=
  (file_processing.categorize_all categorize_transaction (next_id w)
     profile_id (w_utcnow w) ts).

(** What the upload does with a batch that is not empty: the records
    that can be built go to the store, and the answer carries the
    statistics of the built records when they can be computed. *)
Lemma process_batch (ts : list pydict) (w : world) :
  ts ≠ [] → fresh_supply w →
  snd (process (inr ts) w) = after_stores (built w ts) (consume w)
  ∧ file_processing.results_of (fst (process (inr ts) w))
    = match file_processing.statistics (built w ts) with
      | inr results => Some results
      | inl _ => None
      end.
Proof.
  intros Hne Hf. destruct ts as [|c l]; [contradiction|].
  unfold file_processing.process_uploaded_file, draw. cbv beta iota zeta.
  cbn [w_utcnow]. fold (next_id w). fold (consume w).
  set (processed := built w (c :: l)).
  rewrite store_all_fresh by now apply fresh_supply_consume.
  destruct (file_processing.statistics processed); split; reflexivity.
Qed.

(** A candidate whose record cannot be built leaves no trace: the
    answer and the database are those of the batch without it. *)
Lemma process_skips (pre post : list pydict) (bad : pydict) (e : exn)
    (w : world) :
  file_processing.transaction_record categorize_transaction (next_id w)
    profile_id (w_utcnow w) bad = inl e →
  pre ++ post ≠ [] →
  process (inr (pre ++ bad :: post)) w = process (inr (pre ++ post)) w.
Proof.
  intros Hbad Hne.
  destruct (pre ++ post) as [|c1 l1] eqn:H1; [contradiction|].
  destruct (pre ++ bad :: post) as [|c2 l2] eqn:H2;
    [destruct pre; discriminate|].
  unfold file_processing.process_uploaded_file, draw. cbv beta iota zeta.
  cbn [w_utcnow]. fold (next_id w).
  rewrite <- H1, <- H2. now rewrite (categorize_all_skips _ _ _ _ _ _ _ e).
Qed.

Lemma built_user_id (w : world) (ts : list pydict) (r : pydict) :
  In r (built w ts) → r !! "user_id" = Some (PStr profile_id).
Proof.
  induction ts as [|c l IH]; [intros []|]. cbn.
  destruct (file_processing.transaction_record _ _ _ _ c) as [e|r'] eqn:Hr;
    [exact IH|].
  intros [<- | Hin]; [|now apply IH].
  unfold file_processing.transaction_record in Hr.
  repeat match type of Hr with
         | (?m ≫= _) = inr _ => destruct m; [discriminate|]; cbn in Hr
         end.
  injection Hr as <-. reflexivity.
Qed.

Lemma stored_rows_user (records : list pydict) (w : world)
    (row : transaction_row) :
  (∀ r, In r records → r !! "user_id" = Some (PStr profile_id)) →
  In row (stored_rows records w) → t_user_id row = SText profile_id.
Proof.
  revert w. induction records as [|r rest IH]; intros w Hu; [intros []|].
  cbn. intros Hin. apply in_app_or in Hin as [Hin | Hin].
  - destruct (storable r); [|destruct Hin]. destruct Hin as [<- | []].
    cbn. unfold column, get. now rewrite (Hu r) by now left.
  - eapply IH; [|exact Hin]. intros r' Hr'. apply Hu. now right.
Qed.

Lemma sql_eq_same_text (s : string) : sql_eq (SText s) (SText s) = true.
Proof.
  unfold sql_eq. cbn. pose proof (String.compare_antisym s s) as H.
  destruct (String.compare s s); [reflexivity | discriminate..].
Qed.

(** A row the upload stored is in the listing of its user. *)
Lemma stored_row_is_listed (records : list pydict) (w : world)
    (row : transaction_row) :
  (∀ r, In r records → r !! "user_id" = Some (PStr profile_id)) →
  In row (stored_rows records w) →
  ∃ listing,
    fst (local_auth.get_user_transactions (PStr profile_id) (-1) 0 None
           (after_stores records w)) = Success listing
    ∧ In (local_auth.row_dict row) listing.
Proof.
  intros Hu Hin.
  rewrite (get_user_transactions_eq _ (SText profile_id)) by reflexivity.
  cbn [fst local_auth.filter_clauses mret exn_ret].
  eexists. split; [reflexivity|].
  apply in_map. change (local_auth.limit_offset (-1) 0 ?l) with l.
  apply order_desc_In. rewrite select_all_own_rows.
  apply filter_In. split.
  - rewrite after_stores_rows. apply in_or_app. now right.
  - rewrite (stored_rows_user records w row Hu Hin). apply sql_eq_same_text.
Qed.

Lemma statistics_report (records : list pydict)
    (results : file_processing.processing_results) :
  file_processing.statistics records = inr results →
  file_processing.transactions results = records
  ∧ file_processing.transactions_count results = Z.of_nat (length records).
Proof.
  unfold file_processing.statistics. intros H.
  repeat match type of H with
         | (?m ≫= _) = inr _ => destruct m; [discriminate|]; cbn in H
         end.
  injection H as <-. split; reflexivity.
Qed.

Lemma all_storable (records : list pydict) :
  forallb storable records = true → List.filter storable records = records.
Proof.
  induction records as [|r rest IH]; [reflexivity|]. cbn.
  intros H. apply andb_true_iff in H as [Hr Hrest].
  now rewrite Hr, IH.
Qed.

(** A batch that is not empty and of which no record can be built: the
    statistics are those of no record, and nothing is stored. *)
Lemma process_nothing_built (ts : list pydict) (w : world) :
  ts ≠ [] → built w ts = [] →
  process (inr ts) w
  = (file_processing.ProcessedSuccessfully (next_id w) file_name file_type
       (file_processing.mk_results 0 0 0 0 [] []) file_processing.next_steps,
     consume w).
Proof.
  intros Hne Hb. destruct ts as [|c l]; [contradiction|].
  unfold file_processing.process_uploaded_file, draw. cbv beta iota zeta.
  cbn [w_utcnow]. fold (next_id w). fold (consume w). rewrite Hb. reflexivity.
Qed.

(** C8 (as the code has it): a candidate whose record cannot be built
    (a date that is no date, a missing key, a categorizer that raises)
    is skipped: for a batch that has another candidate, the answer and
    the database are those of the batch without it, so that the answer
    carries no count of rejected candidates. A batch that is not empty
    and whose candidates are all skipped is answered with status 200 and
    "File processed successfully", a count and totals of zero and no
    transaction, and stores nothing (this is not the answer to an empty
    batch). With a random source that gives new identifiers, every record
    that was built and can be stored is stored, whatever happened to the
    others: the rows added to the table are as many as these records,
    carry the user of the upload, are each in the listing
    [get_user_transactions] gives for the user, and are the rows of these
    records when the values have the types of their columns. The answer
    lists the records that were built, and its [transactions_count] is
    the number of rows added when every built record could be stored. *)
Theorem batch_failures_are_skipped (w : world) :
  (∀ pre bad post e,
     file_processing.transaction_record categorize_transaction (next_id w)
       profile_id (w_utcnow w) bad = inl e →
     pre ++ post ≠ [] →
     process (inr (pre ++ bad :: post)) w = process (inr (pre ++ post)) w)
  ∧ (∀ ts, ts ≠ [] → built w ts = [] →
       let after := process (inr ts) w in
       file_processing.status_code (fst after) = 200
       ∧ file_processing.message (fst after) = "File processed successfully"
       ∧ file_processing.results_of (fst after)
         = Some (file_processing.mk_results 0 0 0 0 [] [])
       ∧ fst after ≠ fst (process (inr []) w)
       ∧ w_db (snd after) = w_db w)
  ∧ (∀ ts, ts ≠ [] → fresh_supply w →
       let records := built w ts in
       let after := process (inr ts) w in
       ∃ added,
         transactions (w_db (snd after)) = transactions (w_db w) ++ added
         ∧ length added = length (List.filter storable records)
         ∧ Forall (λ row, t_user_id row = SText profile_id) added
         ∧ (forallb typed records = true
            → added = stored_rows records (consume w))
         ∧ (∀ row, In row added →
              ∃ listing,
                fst (local_auth.get_user_transactions (PStr profile_id) (-1) 0
                       None (snd after)) = Success listing
                ∧ In (local_auth.row_dict row) listing)
         ∧ (∀ results,
              file_processing.results_of (fst after) = Some results →
              file_processing.transactions results = records
              ∧ file_processing.transactions_count results
                = Z.of_nat (length records)
              ∧ (forallb storable records = true →
                 file_processing.transactions_count results
                 = Z.of_nat (length added)))).
Proof.
  split; [intros pre bad post e; apply process_skips|]. split.
  - intros ts Hne Hb after. subst after.
    rewrite (process_nothing_built ts w Hne Hb). cbn.
    repeat split; try reflexivity. discriminate.
  - intros ts Hne Hf records after.
    destruct (process_batch ts w Hne Hf) as [Hw Hr].
    subst after. rewrite Hw, Hr. fold records.
    exists (stored_rows records (consume w)).
    split; [rewrite after_stores_rows; reflexivity|].
    split; [apply stored_rows_length|].
    split.
    { apply List.Forall_forall. intros row Hin.
      apply (stored_rows_user records (consume w)); [|exact Hin].
      intros r. apply built_user_id. }
    split; [reflexivity|].
    split.
    + intros row Hin. apply stored_row_is_listed; [|exact Hin].
      intros r. apply built_user_id.
    + intros results Hres.
      destruct (file_processing.statistics records) as [e|res] eqn:Hs;
        [discriminate|].
      injection Hres as ->.
      destruct (statistics_report _ _ Hs) as [Ht Hc].
      split; [exact Ht|]. split; [exact Hc|]. intros Hall.
      now rewrite Hc, stored_rows_length, all_storable.
Qed.
End Upload.

Lemma world0_fresh_supply : fresh_supply world0.
Proof.
  split.
  - intros n m _ _ H. cbn in H. unfold sample_random in H.
    apply (inj (String.app "uuid-")) in H. now apply (inj pretty) in H.
  - intros n r _ [].
Qed.

(** C8 fails as stated: the answer to the batch of five, whose third
    candidate is rejected, is the answer to the same batch without that
    candidate, word for word: four transactions are counted and listed and
    nothing tells that one was rejected. *)
Lemma rejected_candidate_is_not_reported :
  fst (file_processing.process_uploaded_file sample_categorizer "alice"
         "statement.csv" "financial_data" 2048 (inr batch_of_5) world0)
  = fst (file_processing.process_uploaded_file sample_categorizer "alice"
           "statement.csv" "financial_data" 2048 (inr batch_of_4) world0)
  ∧ option_map file_processing.transactions_count
      (file_processing.results_of
         (fst (file_processing.process_uploaded_file sample_categorizer "alice"
                 "statement.csv" "financial_data" 2048 (inr batch_of_5) world0)))
    = Some 4.
Proof. vm_compute. split; reflexivity. Qed.

Lemma batch_failures_are_skipped_witness :
  batch_of_5 ≠ [] ∧ fresh_supply world0
  ∧ ∃ added,
      transactions
        (w_db (snd (file_processing.process_uploaded_file sample_categorizer
                      "alice" "statement.csv" "financial_data" 2048
                      (inr batch_of_5) world0)))
      = transactions (w_db world0) ++ added
      ∧ length added = 4%nat
      ∧ Forall (λ row, t_user_id row = SText "alice") added.
Proof.
  assert (Hne : batch_of_5 ≠ []) by discriminate.
  split; [exact Hne|]. split; [exact world0_fresh_supply|].
  destruct (proj2 (proj2 (batch_failures_are_skipped sample_categorizer "alice"
                            "statement.csv" "financial_data" 2048 world0))
              batch_of_5 Hne world0_fresh_supply)
    as (added & Hrows & Hlen & Huser & _).
  exists added. split; [exact Hrows|]. split; [|exact Huser].
  rewrite Hlen. reflexivity.
Defined.

(** The scenario: five candidates, the third with a date that is no date.
    Four transactions are counted, four rows are stored and the listing of
    the user shows the four, the latest first. *)
Example batch_of_5_scenario :
  let after := file_processing.process_uploaded_file sample_categorizer "alice"
                 "statement.csv" "financial_data" 2048 (inr batch_of_5) world0 in
  file_processing.status_code (fst after) = 200
  ∧ option_map file_processing.transactions_count
      (file_processing.results_of (fst after)) = Some 4
  ∧ length (transactions (w_db (snd after))) = 4%nat
  ∧ map local_auth.tx_description
        (answer (fst (local_auth.get_user_transactions (PStr "alice")
                        local_auth.default_limit local_auth.default_offset None
                        (snd after))))
    = [SText "fuel"; SText "food"; SText "rent"; SText "salary"].
Proof. vm_compute. repeat split; reflexivity. Qed.

(** A candidate without a type is built and counted, and the store
    refuses it: two transactions are counted, one row is stored. *)
Example untyped_candidate_is_counted :
  let after := file_processing.process_uploaded_file sample_categorizer "alice"
                 "statement.csv" "financial_data" 2048 (inr batch_with_untyped)
                 world0 in
  option_map file_processing.transactions_count
    (file_processing.results_of (fst after)) = Some 2
  ∧ length (transactions (w_db (snd after))) = 1%nat.
Proof. vm_compute. split; reflexivity. Qed.

(** A batch of one candidate whose date is no date: the answer is the one
    of a processed file with no transaction, where the empty batch is
    answered with "no transactions found". *)
Example lone_rejected_candidate :
  let after := file_processing.process_uploaded_file sample_categorizer "alice"
                 "statement.csv" "financial_data" 2048
                 (inr [candidate (PStr "7th of Jan") "cash" 500 (PStr "debit")])
                 world0 in
  file_processing.status_code (fst after) = 200
  ∧ file_processing.message (fst after) = "File processed successfully"
  ∧ option_map file_processing.transactions_count
      (file_processing.results_of (fst after)) = Some 0
  ∧ transactions (w_db (snd after)) = []
  ∧ file_processing.message
      (fst (file_processing.process_uploaded_file sample_categorizer "alice"
              "statement.csv" "financial_data" 2048 (inr []) world0))
    = "File processed but no transactions found".
Proof. vm_compute. repeat split; reflexivity. Qed.
(** * Further properties *)

(** ** What the operations of [local_auth] do to the tables *)

Lemma existsb_false_Forall {A} (f : A → bool) (l : list A) :
  existsb f l = false ↔ Forall (λ x, f x = false) l.
Proof.
  induction l as [|x l IH]; cbn.
  - split; [constructor | reflexivity].
  - rewrite orb_false_iff, IH. split.
    + intros [? ?]. now constructor.
    + intros H. inversion H. auto.
Qed.

(** [register_user] leaves the tables alone or adds one user, whose id
    and email are new. *)
Lemma register_user_db sha email password name phone pan (w : world) :
  let after := local_auth.register_user sha email password name phone pan w in
  (succeeded (fst after) = false ∧ w_db (snd after) = w_db w)
  ∨ (fst after
     = Success (local_auth.mk_user_info (next_id w) email (SText name)
                  (SText phone) (SText pan))
     ∧ snd after
       = set_db (mk_db (users (w_db w)
                        ++ [mk_user (next_id w) email (sha password)
                              (SText name) (SText phone) (SText pan)])
                       (sessions (w_db w)) (transactions (w_db w)))
                (consume w)
     ∧ Forall (λ u, u_id u ≠ next_id w ∧ u_email u ≠ email) (users (w_db w))).
Proof.
  unfold local_auth.register_user, local_auth.insert_user, try_result, mbind,
    io_bind, read_db, mret, io_ret, draw, raise, write_db. cbn beta iota zeta.
  destruct (existsb (λ u, String.eqb (u_email u) email) (users (w_db w)));
    [left; split; reflexivity|]. cbn.
  match goal with
  | |- context [if existsb ?f ?l then _ else _] =>
      destruct (existsb f l) eqn:He
  end; cbn; [left; split; reflexivity|].
  right. split; [reflexivity|]. split; [reflexivity|].
  apply existsb_false_Forall in He. eapply List.Forall_impl; [|exact He].
  intros u Hu. cbn in Hu. apply orb_false_iff in Hu as [H1 H2].
  apply String.eqb_neq in H1, H2. auto.
Qed.

(** [login_user] leaves the tables alone or adds one session, with a new
    token, for the first user with the email and the hash. *)
Lemma login_user_db sha email password (w : world) :
  let after := local_auth.login_user sha email password w in
  (succeeded (fst after) = false ∧ w_db (snd after) = w_db w)
  ∨ (∃ user,
       List.find (λ u, String.eqb (u_email u) email
                       && String.eqb (u_password_hash u) (sha password))
                 (users (w_db w)) = Some user
       ∧ fst after
         = Success (local_auth.user_info_of user,
                    local_auth.mk_session_info (next_id w)
                      (w_timestamp w (w_now w + local_auth.seven_days)))
       ∧ snd after
         = set_db (mk_db (users (w_db w))
                         (sessions (w_db w)
                          ++ [mk_session (next_id w) (u_id user)
                                (w_now w + local_auth.seven_days)])
                         (transactions (w_db w)))
                  (consume w)
       ∧ Forall (λ s, s_token s ≠ next_id w) (sessions (w_db w))).
Proof.
  unfold local_auth.login_user, local_auth.insert_session, try_result, mbind,
    io_bind, read_db, mret, io_ret, draw, now, timestamp, raise, write_db,
    local_auth.hash_password. cbn beta iota zeta.
  destruct (List.find _ (users (w_db w))) as [user|] eqn:Hfind;
    [|left; split; reflexivity]. cbn.
  match goal with
  | |- context [if existsb ?f ?l then _ else _] =>
      destruct (existsb f l) eqn:He
  end; cbn; [left; split; reflexivity|].
  right. exists user. split; [reflexivity|]. split; [reflexivity|].
  split; [reflexivity|].
  apply existsb_false_Forall in He. eapply List.Forall_impl; [|exact He].
  intros s Hs. cbn in Hs. now apply String.eqb_neq in Hs.
Qed.

(** The row [update_user_profile] writes for a user. *)
Lemma update_user_profile_db user_id profile_data (w : world) :
  let after := local_auth.update_user_profile user_id profile_data w in
  (succeeded (fst after) = false ∧ snd after = w)
  ∨ (∃ name phone pan user,
       local_auth.bound_value w profile_data "name" = inr name
       ∧ local_auth.bound_value w profile_data "phone" = inr phone
       ∧ local_auth.bound_value w profile_data "pan" = inr pan
       ∧ List.find (λ u, String.eqb (u_id u) user_id) (users (w_db w))
         = Some user
       ∧ fst after
         = Success (local_auth.mk_user_info (u_id user) (u_email user)
                      (default (u_name user) name)
                      (default (u_phone user) phone)
                      (default (u_pan user) pan))
       ∧ snd after
         = set_db
             (mk_db
                (map (λ u, if String.eqb (u_id u) user_id
                           then mk_user (u_id u) (u_email u) (u_password_hash u)
                                  (default (u_name u) name)
                                  (default (u_phone u) phone)
                                  (default (u_pan u) pan)
                           else u) (users (w_db w)))
                (sessions (w_db w)) (transactions (w_db w))) w).
Proof.
  unfold local_auth.update_user_profile, try_result, mbind, io_bind, read_db,
    mret, io_ret, lift, raise, write_db, local_auth.bound. cbn beta iota zeta.
  destruct (local_auth.bound_value w profile_data "name") as [|name];
    [left; split; [reflexivity | destruct w; reflexivity]|].
  destruct (local_auth.bound_value w profile_data "phone") as [|phone];
    [left; split; [reflexivity | destruct w; reflexivity]|].
  destruct (local_auth.bound_value w profile_data "pan") as [|pan];
    [left; split; [reflexivity | destruct w; reflexivity]|].
  cbn.
  set (f := λ u : user_row, if String.eqb (u_id u) user_id
             then mk_user (u_id u) (u_email u) (u_password_hash u)
                    (default (u_name u) name) (default (u_phone u) phone)
                    (default (u_pan u) pan)
             else u).
  assert (Hfind : List.find (λ u, String.eqb (u_id u) user_id)
                    (map f (users (w_db w)))
                  = option_map f (List.find (λ u, String.eqb (u_id u) user_id)
                                    (users (w_db w)))).
  { induction (users (w_db w)) as [|u l IH]; [reflexivity|]. cbn.
    unfold f at 1. destruct (String.eqb (u_id u) user_id) eqn:Hu; cbn.
    - rewrite Hu. cbn. unfold f. now rewrite Hu.
    - rewrite Hu. exact IH. }
  rewrite Hfind.
  destruct (List.find _ (users (w_db w))) as [user|] eqn:Hu; cbn.
  - right. exists name, phone, pan, user. repeat split; try reflexivity.
    apply find_some in Hu as [_ Hu]. unfold f. rewrite Hu. reflexivity.
  - left. split; [reflexivity | destruct w; reflexivity].
Qed.

Lemma store_transaction_db td (w : world) :
  let after := local_auth.store_transaction td w in
  (succeeded (fst after) = false ∧ w_db (snd after) = w_db w)
  ∨ (fst after = Success (next_id w)
     ∧ snd after = append_row (row_of td w) (consume w)
     ∧ storable td = true
     ∧ Forall (λ r, t_id r ≠ next_id w) (transactions (w_db w))).
Proof.
  cbn zeta.
  destruct (store_transaction_cases td w) as [[Hc ->] | [Hc [e ->]]];
    [right | left; split; reflexivity].
  apply andb_true_iff in Hc as [Hs Hf]. repeat split; try assumption.
  unfold fresh_id in Hf. apply negb_true_iff in Hf.
  apply existsb_false_Forall in Hf. eapply List.Forall_impl; [|exact Hf].
  intros r Hr. cbn in Hr. now apply String.eqb_neq in Hr.
Qed.

(** A row that can be stored has its required columns. *)
Lemma storable_required_columns td (w : world) :
  storable td = true → required_columns (row_of td w) = true.
Proof.
  unfold storable, required_columns, binds_not_null, row_of, column, get.
  cbn [forallb required_keys t_user_id t_date t_description t_amount
       t_transaction_type].
  intros H. apply andb_true_iff in H as [H _].
  destruct (td !! "user_id") as [v1|]; [|discriminate].
  destruct (td !! "date") as [v2|]; [|now rewrite andb_false_r in H].
  destruct (td !! "description") as [v3|]; [|now rewrite !andb_false_r in H].
  destruct (td !! "amount") as [v4|]; [|now rewrite !andb_false_r in H].
  destruct (td !! "transaction_type") as [v5|]; [|now rewrite !andb_false_r in H].
  cbn [from_option id].
  destruct (adapt v1) as [c1|]; [|discriminate].
  destruct (adapt v2) as [c2|]; [|now rewrite andb_false_r in H].
  destruct (adapt v3) as [c3|]; [|now rewrite !andb_false_r in H].
  destruct (adapt v4) as [c4|]; [|now rewrite !andb_false_r in H].
  destruct (adapt v5) as [c5|]; [|now rewrite !andb_false_r in H].
  cbn [from_option id].
  repeat (apply andb_true_iff in H as [? H]).
  destruct c1, c2, c3, c4, c5; try discriminate; reflexivity.
Qed.

Lemma NoDup_snoc {A} (l : list A) (x : A) :
  NoDup l → Forall (λ y, y ≠ x) l → NoDup (l ++ [x]).
Proof.
  intros Hl Hx. apply NoDup_app. split; [exact Hl|]. split.
  - intros y Hy Hin. apply list_elem_of_singleton in Hin. subst y.
    rewrite List.Forall_forall in Hx. apply (Hx x); [|reflexivity].
    now apply list_elem_of_In.
  - apply NoDup_singleton.
Qed.

Lemma Forall_map_ne {A B} (f : A → B) (l : list A) (b : B) :
  Forall (λ a, f a ≠ b) l → Forall (λ y, y ≠ b) (map f l).
Proof. intros H. apply List.Forall_map. exact H. Qed.

(** The keys of the schema hold in every world the store can reach. *)
Lemma reachable_well_keyed (sha : string → string) (w : world) :
  reachable sha w → well_keyed (w_db w).
Proof.
  unfold well_keyed.
  induction 1 as [w Hinit | w t utc stamp _ IH | w email pw name phone pan _ IH
                  | w email pw _ IH | w token _ IH | w uid pd _ IH | w td _ IH].
  - rewrite Hinit. repeat split; constructor.
  - exact IH.
  - destruct IH as (Hid & Hem & Htok & Htx & Hreq).
    destruct (register_user_db sha email pw name phone pan w)
      as [[_ ->] | (_ & -> & Hnew)]; [repeat split; assumption|].
    cbn. rewrite !map_app. cbn.
    repeat split; try assumption.
    + apply NoDup_snoc; [exact Hid|]. apply Forall_map_ne.
      eapply List.Forall_impl; [|exact Hnew]. now intros u [? ?].
    + apply NoDup_snoc; [exact Hem|]. apply Forall_map_ne.
      eapply List.Forall_impl; [|exact Hnew]. now intros u [? ?].
  - destruct IH as (Hid & Hem & Htok & Htx & Hreq).
    destruct (login_user_db sha email pw w)
      as [[_ ->] | (user & _ & _ & -> & Hnew)]; [repeat split; assumption|].
    cbn. rewrite !map_app. cbn. repeat split; try assumption.
    apply NoDup_snoc; [exact Htok|]. now apply Forall_map_ne.
  - now rewrite verify_token_pure.
  - destruct IH as (Hid & Hem & Htok & Htx & Hreq).
    destruct (update_user_profile_db uid pd w)
      as [[_ ->] | (name & phone & pan & user & _ & _ & _ & _ & _ & ->)];
      [repeat split; assumption|].
    cbn. rewrite !map_map.
    assert (Hi : ∀ l : list user_row,
               map (λ u, u_id (if String.eqb (u_id u) uid
                               then mk_user (u_id u) (u_email u)
                                      (u_password_hash u)
                                      (default (u_name u) name)
                                      (default (u_phone u) phone)
                                      (default (u_pan u) pan)
                               else u)) l = map u_id l).
    { intros l. apply map_ext. intros u. now destruct (String.eqb _ _). }
    assert (He : ∀ l : list user_row,
               map (λ u, u_email (if String.eqb (u_id u) uid
                                  then mk_user (u_id u) (u_email u)
                                         (u_password_hash u)
                                         (default (u_name u) name)
                                         (default (u_phone u) phone)
                                         (default (u_pan u) pan)
                                  else u)) l = map u_email l).
    { intros l. apply map_ext. intros u. now destruct (String.eqb _ _). }
    rewrite Hi, He. repeat split; assumption.
  - destruct IH as (Hid & Hem & Htok & Htx & Hreq).
    destruct (store_transaction_db td w)
      as [[_ ->] | (_ & -> & Hs & Hnew)]; [repeat split; assumption|].
    cbn. rewrite !map_app. cbn. repeat split; try assumption.
    + apply NoDup_snoc; [exact Htx|]. now apply Forall_map_ne.
    + apply Forall_app. split; [exact Hreq|]. constructor; [|constructor].
      now apply storable_required_columns.
Qed.

(** X1: whatever calls were made since the tables were created, the
    constraints of the schema hold: ids, emails, tokens and transaction ids
    are unique, the NOT NULL columns of a transaction are filled, and every
    session belongs to a user of the table. *)
Theorem reachable_worlds_keep_the_schema (sha : string → string) (w : world) :
  reachable sha w →
  well_keyed (w_db w) ∧ sessions_have_users (w_db w) = true.
Proof.
  intros H. split.
  - now apply (reachable_well_keyed sha).
  - now apply (reachable_sessions_have_users sha).
Qed.

Lemma reachable_worlds_keep_the_schema_witness :
  reachable sample_sha256 world_session
  ∧ well_keyed (w_db world_session)
  ∧ sessions_have_users (w_db world_session) = true.
Proof.
  assert (H : reachable sample_sha256 world_session).
  { unfold world_session. apply reach_login, reach_register, reach_init.
    reflexivity. }
  split; [exact H|].
  exact (reachable_worlds_keep_the_schema sample_sha256 world_session H).
Defined.

Lemma get_user_profile_pure user_id (w : world) :
  snd (local_auth.get_user_profile user_id w) = w.
Proof.
  unfold local_auth.get_user_profile, try_result, mbind, io_bind, read_db,
    mret, io_ret. cbn.
  now destruct (List.find _ _).
Qed.

Lemma get_user_transactions_pure user_id limit offset filters (w : world) :
  snd (local_auth.get_user_transactions user_id limit offset filters w) = w.
Proof.
  unfold local_auth.get_user_transactions, try_result, mbind, io_bind, read_db,
    mret, io_ret, lift, bind_text_param. cbn.
  destruct (text_param w user_id); [|destruct w; reflexivity].
  destruct (local_auth.filter_clauses filters); [destruct w; reflexivity|].
  reflexivity.
Qed.

Lemma get_transaction_summary_pure user_id (w : world) :
  snd (local_auth.get_transaction_summary user_id w) = w.
Proof.
  unfold local_auth.get_transaction_summary, try_result, mbind, io_bind,
    read_db, mret, io_ret, lift, bind_text_param. cbn.
  destruct (text_param w user_id); [|destruct w; reflexivity].
  reflexivity.
Qed.

Lemma extends_refl {A} (l : list A) : extends l l.
Proof. exists []. now rewrite app_nil_r. Qed.

Lemma extends_snoc {A} (l : list A) (x : A) : extends (l ++ [x]) l.
Proof. now exists [x]. Qed.

Lemma after_extends (sha : string → string) (c : call) (w : world) :
  extends (sessions (w_db (after sha c w))) (sessions (w_db w))
  ∧ extends (transactions (w_db (after sha c w))) (transactions (w_db w))
  ∧ extends (map credentials (users (w_db (after sha c w))))
            (map credentials (users (w_db w))).
Proof.
  destruct c as [email pw name phone pan | email pw | token | uid | uid pd
                 | td | uid limit offset filters | uid]; cbn [after].
  - destruct (register_user_db sha email pw name phone pan w)
      as [[_ ->] | (_ & -> & _)]; [repeat split; apply extends_refl|].
    cbn. rewrite map_app. repeat split; try apply extends_refl.
    apply extends_snoc.
  - destruct (login_user_db sha email pw w)
      as [[_ ->] | (user & _ & _ & -> & _)]; [repeat split; apply extends_refl|].
    cbn. repeat split; try apply extends_refl. apply extends_snoc.
  - rewrite verify_token_pure. repeat split; apply extends_refl.
  - rewrite get_user_profile_pure. repeat split; apply extends_refl.
  - destruct (update_user_profile_db uid pd w)
      as [[_ ->] | (name & phone & pan & user & _ & _ & _ & _ & _ & ->)];
      [repeat split; apply extends_refl|].
    cbn. repeat split; try apply extends_refl.
    rewrite map_map. erewrite map_ext; [apply extends_refl|].
    intros u. now destruct (String.eqb _ _).
  - destruct (store_transaction_db td w)
      as [[_ ->] | (_ & -> & _ & _)]; [repeat split; apply extends_refl|].
    cbn. repeat split; try apply extends_refl. apply extends_snoc.
  - rewrite get_user_transactions_pure. repeat split; apply extends_refl.
  - rewrite get_transaction_summary_pure. repeat split; apply extends_refl.
Qed.

(** X2: no call removes or rewrites a session or a transaction, and no call
    removes an account or changes its id, its email or its password hash. *)
Theorem tables_only_grow (sha : string → string) (c : call) (w : world) :
  extends (sessions (w_db (after sha c w))) (sessions (w_db w))
  ∧ extends (transactions (w_db (after sha c w))) (transactions (w_db w))
  ∧ extends (map credentials (users (w_db (after sha c w))))
            (map credentials (users (w_db w))).
Proof. exact (after_extends sha c w). Qed.


(** ** Accounts and sessions *)

(** [register_user] and [login_user], case by case. *)
Lemma register_user_eq sha email password name phone pan (w : world) :
  local_auth.register_user sha email password name phone pan w
  = if existsb (λ u, String.eqb (u_email u) email) (users (w_db w))
    then (Fail (Message "Email already registered"), w)
    else if existsb (λ u, String.eqb (u_id u) (next_id w)) (users (w_db w))
    then (Fail (Raised IntegrityError), consume w)
    else (Success (local_auth.mk_user_info (next_id w) email (SText name)
                     (SText phone) (SText pan)),
          set_db (mk_db (users (w_db w)
                         ++ [mk_user (next_id w) email (sha password)
                               (SText name) (SText phone) (SText pan)])
                        (sessions (w_db w)) (transactions (w_db w)))
                 (consume w)).
Proof.
  unfold local_auth.register_user, local_auth.insert_user, try_result, mbind,
    io_bind, read_db, mret, io_ret, draw, raise, write_db. cbn beta iota zeta.
  destruct (existsb (λ u, String.eqb (u_email u) email) (users (w_db w))) eqn:He;
    [reflexivity|]. cbn.
  assert (Hx : existsb (λ u', String.eqb (u_id u') (next_id w)
                              || String.eqb (u_email u') email) (users (w_db w))
               = existsb (λ u, String.eqb (u_id u) (next_id w)) (users (w_db w))).
  { apply existsb_false_Forall in He. induction He as [|u l Hu _ IH]; cbn.
    - reflexivity.
    - rewrite Hu, orb_false_r, IH. reflexivity. }
  unfold next_id in *. rewrite Hx. clear He Hx.
  destruct (existsb (λ u, String.eqb (u_id u) (w_random w (w_draws w)))
              (users (w_db w))); reflexivity.
Qed.

Lemma login_user_eq sha email password (w : world) :
  local_auth.login_user sha email password w
  = match List.find (λ u, String.eqb (u_email u) email
                          && String.eqb (u_password_hash u) (sha password))
                    (users (w_db w)) with
    | None => (Fail (Message "Invalid credentials"), w)
    | Some user =>
        if existsb (λ s, String.eqb (s_token s) (next_id w)) (sessions (w_db w))
        then (Fail (Raised IntegrityError), consume w)
        else (Success (local_auth.user_info_of user,
                       local_auth.mk_session_info (next_id w)
                         (w_timestamp w (w_now w + local_auth.seven_days))),
              set_db (mk_db (users (w_db w))
                            (sessions (w_db w)
                             ++ [mk_session (next_id w) (u_id user)
                                   (w_now w + local_auth.seven_days)])
                            (transactions (w_db w)))
                     (consume w))
    end.
Proof.
  unfold local_auth.login_user, local_auth.insert_session, try_result, mbind,
    io_bind, read_db, mret, io_ret, draw, now, timestamp, raise, write_db,
    local_auth.hash_password. cbn beta iota zeta.
  destruct (List.find _ (users (w_db w))) as [user|]; [|reflexivity]. cbn.
  unfold next_id.
  destruct (existsb (λ s, String.eqb (s_token s) (w_random w (w_draws w)))
              (sessions (w_db w))); reflexivity.
Qed.

Lemma find_app_none {A} (f : A → bool) (l : list A) (x : A) :
  Forall (λ y, f y = false) l → List.find f (l ++ [x]) = List.find f [x].
Proof.
  induction 1 as [|y l Hy _ IH]; [reflexivity|]. cbn [app List.find].
  now rewrite Hy.
Qed.

(** X3: an account that was just registered can be logged into with the
    same email and password, as the same user, when the token drawn for the
    session is new; a password with another hash is turned down with
    "Invalid credentials", and so is a second registration of the email
    with "Email already registered", both without a change. *)
Theorem register_then_login (sha : string → string)
    (email password name phone pan : string) (w : world)
    (user : local_auth.user_info) :
  let w' := snd (local_auth.register_user sha email password name phone pan w) in
  fst (local_auth.register_user sha email password name phone pan w)
  = Success user →
  (Forall (λ s, s_token s ≠ next_id w') (sessions (w_db w')) →
   ∃ session,
     fst (local_auth.login_user sha email password w')
     = Success (user, session)
     ∧ local_auth.access_token session = next_id w')
  ∧ (∀ other, sha other ≠ sha password →
       local_auth.login_user sha email other w'
       = (Fail (Message "Invalid credentials"), w'))
  ∧ (∀ password' name' phone' pan',
       local_auth.register_user sha email password' name' phone' pan' w'
       = (Fail (Message "Email already registered"), w')).
Proof.
  cbn zeta. rewrite register_user_eq.
  destruct (existsb (λ u, String.eqb (u_email u) email) (users (w_db w))) eqn:He;
    [discriminate|].
  destruct (existsb (λ u, String.eqb (u_id u) (next_id w)) (users (w_db w)));
    [discriminate|].
  cbn [fst snd]. intros [= <-].
  set (new := mk_user (next_id w) email (sha password) (SText name)
                (SText phone) (SText pan)).
  set (w' := set_db _ _).
  apply existsb_false_Forall in He.
  assert (Hfind : ∀ pw, List.find (λ u, String.eqb (u_email u) email
                                  && String.eqb (u_password_hash u) (sha pw))
                          (users (w_db w'))
                        = if String.eqb (sha password) (sha pw)
                          then Some new else None).
  { intros pw. subst w'. cbn [w_db set_db users].
    rewrite find_app_none.
    - cbn. rewrite String.eqb_refl. cbn. now destruct (String.eqb _ _).
    - eapply List.Forall_impl; [|exact He]. intros u Hu. cbn in Hu.
      now rewrite Hu. }
  repeat split.
  - intros Hfresh. rewrite login_user_eq, Hfind, String.eqb_refl.
    assert (Hx : existsb (λ s, String.eqb (s_token s) (next_id w'))
                   (sessions (w_db w')) = false).
    { apply existsb_false_Forall. eapply List.Forall_impl; [|exact Hfresh].
      intros s Hs. cbn. now apply String.eqb_neq. }
    rewrite Hx. eexists. split; reflexivity.
  - intros other Hother. rewrite login_user_eq, Hfind.
    destruct (String.eqb_spec (sha password) (sha other)); [congruence|].
    reflexivity.
  - intros pw' name' phone' pan'. rewrite register_user_eq.
    subst w'. cbn [w_db set_db users]. rewrite existsb_app. cbn.
    rewrite String.eqb_refl, orb_true_r. reflexivity.
Qed.

Lemma register_then_login_witness :
  fst (local_auth.register_user sample_sha256 "alice@example.org" "secret"
         "Alice" "" "" world0)
  = Success (local_auth.mk_user_info "uuid-0" "alice@example.org"
               (SText "Alice") (SText "") (SText ""))
  ∧ ((Forall (λ s, s_token s ≠ "uuid-1") [] →
      ∃ session,
        fst (local_auth.login_user sample_sha256 "alice@example.org" "secret"
               (snd (local_auth.register_user sample_sha256
                       "alice@example.org" "secret" "Alice" "" "" world0)))
        = Success (local_auth.mk_user_info "uuid-0" "alice@example.org"
                     (SText "Alice") (SText "") (SText ""), session)
        ∧ local_auth.access_token session = "uuid-1")
     ∧ (∀ other, sample_sha256 other ≠ sample_sha256 "secret" →
          local_auth.login_user sample_sha256 "alice@example.org" other
            (snd (local_auth.register_user sample_sha256 "alice@example.org"
                    "secret" "Alice" "" "" world0))
          = (Fail (Message "Invalid credentials"),
             snd (local_auth.register_user sample_sha256 "alice@example.org"
                    "secret" "Alice" "" "" world0)))
     ∧ (∀ password' name' phone' pan',
          local_auth.register_user sample_sha256 "alice@example.org" password'
            name' phone' pan'
            (snd (local_auth.register_user sample_sha256 "alice@example.org"
                    "secret" "Alice" "" "" world0))
          = (Fail (Message "Email already registered"),
             snd (local_auth.register_user sample_sha256 "alice@example.org"
                    "secret" "Alice" "" "" world0)))).
Proof.
  split; [reflexivity|].
  exact (register_then_login sample_sha256 "alice@example.org" "secret"
           "Alice" "" "" world0 _ eq_refl).
Defined.

Lemma verify_token_eq token (w : world) :
  local_auth.verify_token token w
  = (match head (local_auth.session_users (w_db w) token (w_now w)) with
     | None => Fail (Message "Invalid or expired token")
     | Some user => Success (local_auth.user_info_of user)
     end, w).
Proof.
  unfold local_auth.verify_token, try_result, mbind, io_bind, read_db, now,
    mret, io_ret. cbn beta iota.
  destruct (head _); reflexivity.
Qed.

Lemma get_user_profile_eq user_id (w : world) :
  local_auth.get_user_profile user_id w
  = (match List.find (λ u, String.eqb (u_id u) user_id) (users (w_db w)) with
     | None => Fail (Message "User not found")
     | Some user => Success (local_auth.user_info_of user)
     end, w).
Proof.
  unfold local_auth.get_user_profile, try_result, mbind, io_bind, read_db,
    mret, io_ret. cbn beta iota.
  destruct (List.find _ _); reflexivity.
Qed.

Lemma head_filter_find {A} (f : A → bool) (l : list A) :
  head (List.filter f l) = List.find f l.
Proof.
  induction l as [|x l IH]; [reflexivity|]. cbn. now destruct (f x).
Qed.

Lemma find_pointwise {A} (f g : A → bool) (l : list A) :
  (∀ x, f x = g x) → List.find f l = List.find g l.
Proof.
  intros H. induction l as [|x l IH]; [reflexivity|]. cbn.
  now rewrite H, IH.
Qed.

Lemma find_unique_key {A} (key : A → string) (l : list A) (x : A) :
  NoDup (map key l) → In x l →
  List.find (λ y, String.eqb (key y) (key x)) l = Some x.
Proof.
  induction l as [|y l IH]; cbn; [intros _ []|].
  intros Hnd Hin. apply NoDup_cons in Hnd as [Hy Hnd].
  destruct (String.eqb_spec (key y) (key x)) as [He|Hne].
  - destruct Hin as [->|Hin]; [reflexivity|]. exfalso. apply Hy.
    rewrite He. apply list_elem_of_In, in_map, Hin.
  - destruct Hin as [->|Hin]; [congruence|]. now apply IH.
Qed.

(** The rows the join of [verify_token] starts with, for a token that the
    sessions before [s] do not carry. *)
Lemma session_users_snoc (d : database) (token : string) (t : Z)
    (s : session_row) :
  Forall (λ s', s_token s' ≠ token) (sessions d) →
  s_token s = token →
  local_auth.session_users
    (mk_db (users d) (sessions d ++ [s]) (transactions d)) token t
  = if t <? s_expires_at s
    then List.filter (λ u, String.eqb (s_user_id s) (u_id u)) (users d)
    else [].
Proof.
  intros Hold Hs. unfold local_auth.session_users. cbn [sessions users].
  rewrite List.filter_app.
  replace (List.filter _ (sessions d)) with (@nil session_row).
  - cbn. rewrite Hs, String.eqb_refl. cbn.
    destruct (t <? s_expires_at s); cbn; [apply app_nil_r | reflexivity].
  - symmetry. induction Hold as [|s' l Hs' _ IH]; [reflexivity|]. cbn.
    apply String.eqb_neq in Hs'. now rewrite Hs'.
Qed.

Lemma verify_after_login (sha : string → string) (email password : string)
    (w : world) (user : local_auth.user_info)
    (session : local_auth.session_info) :
  let w' := snd (local_auth.login_user sha email password w) in
  reachable sha w →
  fst (local_auth.login_user sha email password w) = Success (user, session) →
  local_auth.expires_at session
  = w_timestamp w (w_now w + local_auth.seven_days)
  ∧ ∀ t utcnow stamp,
      fst (local_auth.verify_token (local_auth.access_token session)
             (set_clock t utcnow stamp w'))
      = if t <? w_now w + local_auth.seven_days
        then Success user
        else Fail (Message "Invalid or expired token").
Proof.
  cbn zeta. intros Hreach. apply reachable_well_keyed in Hreach as (Hid & _).
  rewrite login_user_eq.
  destruct (List.find _ (users (w_db w))) as [u|] eqn:Hfind; [|discriminate].
  destruct (existsb _ (sessions (w_db w))) eqn:Hx; [discriminate|].
  cbn [fst snd]. intros [= <- <-]. split; [reflexivity|].
  intros t utcnow stamp. rewrite verify_token_eq. cbn [fst].
  cbn [set_clock w_db w_now set_db consume local_auth.access_token].
  rewrite session_users_snoc; [|..|reflexivity].
  - cbn [s_expires_at s_user_id].
    destruct (t <? w_now w + local_auth.seven_days); [|reflexivity].
    rewrite head_filter_find.
    apply find_some in Hfind as [Hin _].
    rewrite (find_pointwise _ (λ y, String.eqb (u_id y) (u_id u)))
      by (intros x; apply String.eqb_sym).
    now rewrite (find_unique_key u_id _ u Hid Hin).
  - apply existsb_false_Forall in Hx. eapply List.Forall_impl; [|exact Hx].
    intros s Hs. cbn in Hs. now apply String.eqb_neq.
Qed.

(** X4: the token a login returns is verified as the user who logged in
    as long as the local wall clock ([datetime.now()], a naive reading)
    shows less than its reading at the login plus seven days, and is
    turned down from then on. The expiry the login reports is the POSIX
    time the host's time zone gives to that local datetime. *)
Theorem login_then_verify (sha : string → string) (email password : string)
    (w : world) (user : local_auth.user_info)
    (session : local_auth.session_info) :
  let w' := snd (local_auth.login_user sha email password w) in
  reachable sha w →
  fst (local_auth.login_user sha email password w) = Success (user, session) →
  local_auth.expires_at session
  = w_timestamp w (w_now w + local_auth.seven_days)
  ∧ ∀ t utcnow stamp,
      fst (local_auth.verify_token (local_auth.access_token session)
             (set_clock t utcnow stamp w'))
      = if t <? w_now w + local_auth.seven_days
        then Success user
        else Fail (Message "Invalid or expired token").
Proof. exact (verify_after_login sha email password w user session). Qed.


Lemma login_then_verify_witness :
  reachable sample_sha256
    (snd (local_auth.register_user sample_sha256 "alice@example.org" "secret"
            "Alice" "" "" world0))
  ∧ local_auth.expires_at (local_auth.mk_session_info "uuid-1" 1700585000)
    = sample_timestamp (1700000000000000 + local_auth.seven_days)
  ∧ ∀ t utcnow stamp,
      fst (local_auth.verify_token "uuid-1" (set_clock t utcnow stamp world_session))
      = if t <? 1700000000000000 + local_auth.seven_days
        then Success (local_auth.mk_user_info "uuid-0" "alice@example.org"
                        (SText "Alice") (SText "") (SText ""))
        else Fail (Message "Invalid or expired token").
Proof.
  assert (H : reachable sample_sha256
                (snd (local_auth.register_user sample_sha256
                        "alice@example.org" "secret" "Alice" "" "" world0))).
  { apply reach_register, reach_init. reflexivity. }
  split; [exact H|].
  exact (login_then_verify sample_sha256 "alice@example.org" "secret" _
           (local_auth.mk_user_info "uuid-0" "alice@example.org"
              (SText "Alice") (SText "") (SText ""))
           (local_auth.mk_session_info "uuid-1" 1700585000) H eq_refl).
Defined.

Lemma head_flat_map {A B} (f : A → list B) (l : list A) (b : B) :
  head (flat_map f l) = Some b → ∃ a, In a l ∧ head (f a) = Some b.
Proof.
  induction l as [|a l IH]; cbn; [discriminate|].
  destruct (f a) as [|b' bs] eqn:Hf; cbn.
  - intros H. destruct (IH H) as (a' & Ha' & Hb). eauto.
  - intros [= ->]. exists a. rewrite Hf. auto.
Qed.

(** X5: the user [verify_token] names is the one [get_user_profile] returns
    for the id. *)
Theorem verified_user_has_profile (token : string) (w : world)
    (user : local_auth.user_info) :
  fst (local_auth.verify_token token w) = Success user →
  local_auth.get_user_profile (local_auth.ui_id user) w = (Success user, w).
Proof.
  rewrite verify_token_eq, get_user_profile_eq. cbn [fst].
  destruct (head _) as [u|] eqn:Hhead; [|discriminate]. intros [= <-].
  unfold local_auth.session_users in Hhead.
  apply head_flat_map in Hhead as (s & _ & Hu).
  rewrite head_filter_find in Hu.
  pose proof (find_some _ _ Hu) as [_ He]. apply String.eqb_eq in He.
  rewrite (find_pointwise _ (λ x, String.eqb (s_user_id s) (u_id x))).
  - now rewrite Hu.
  - intros x. cbn. rewrite He. apply String.eqb_sym.
Qed.

Lemma verified_user_has_profile_witness :
  local_auth.get_user_profile "uuid-0" world_session
  = (Success (local_auth.mk_user_info "uuid-0" "alice@example.org"
                (SText "Alice") (SText "") (SText "")), world_session).
Proof.
  exact (verified_user_has_profile "uuid-1" world_session
           (local_auth.mk_user_info "uuid-0" "alice@example.org"
              (SText "Alice") (SText "") (SText "")) eq_refl).
Defined.

(** With unique tokens the join of [verify_token] has the rows of one
    session. *)
Lemma session_users_keyed (d : database) (token : string) (t : Z) :
  NoDup (map s_token (sessions d)) →
  head (local_auth.session_users d token t)
  = match List.find (λ s, String.eqb (s_token s) token) (sessions d) with
    | Some s =>
        if t <? s_expires_at s
        then List.find (λ u, String.eqb (u_id u) (s_user_id s)) (users d)
        else None
    | None => None
    end.
Proof.
  unfold local_auth.session_users.
  induction (sessions d) as [|s l IH]; [reflexivity|].
  cbn [map List.find List.filter]. intros Hnd.
  apply NoDup_cons in Hnd as [Hs Hnd].
  destruct (String.eqb_spec (s_token s) token) as [He|Hne]; cbn;
    [|now apply IH].
  assert (Hrest : List.filter (λ s', String.eqb (s_token s') token
                                    && (t <? s_expires_at s')) l = []).
  { clear IH Hnd. induction l as [|s' l IH]; [reflexivity|]. cbn.
    destruct (String.eqb_spec (s_token s') token) as [He'|_]; cbn.
    - exfalso. apply Hs. cbn. rewrite He, <- He'. left.
    - apply IH. intros Hin. apply Hs. now right. }
  rewrite Hrest. destruct (t <? s_expires_at s); [|reflexivity].
  cbn. rewrite app_nil_r, head_filter_find.
  apply find_pointwise. intros x. apply String.eqb_sym.
Qed.

Lemma find_app_some {A} (f : A → bool) (l more : list A) (x : A) :
  List.find f l = Some x → List.find f (l ++ more) = Some x.
Proof.
  induction l as [|y l IH]; cbn; [discriminate|]. now destruct (f y).
Qed.

Lemma reachable_after sha (c : call) (w : world) :
  reachable sha w → reachable sha (after sha c w).
Proof.
  intros H. destruct c; cbn [after].
  - now apply reach_register.
  - now apply reach_login.
  - now apply reach_verify.
  - now rewrite get_user_profile_pure.
  - now apply reach_update.
  - now apply reach_store.
  - now rewrite get_user_transactions_pure.
  - now rewrite get_transaction_summary_pure.
Qed.

Lemma after_now sha (c : call) (w : world) : w_now (after sha c w) = w_now w.
Proof.
  destruct c as [email pw name phone pan | email pw | token | uid | uid pd
                 | td | uid limit offset filters | uid]; cbn [after].
  - rewrite register_user_eq. repeat destruct (existsb _ _); reflexivity.
  - rewrite login_user_eq. destruct (List.find _ _); [|reflexivity].
    destruct (existsb _ _); reflexivity.
  - now rewrite verify_token_pure.
  - now rewrite get_user_profile_pure.
  - destruct (update_user_profile_db uid pd w)
      as [[_ ->] | (name & phone & pan & user & _ & _ & _ & _ & _ & ->)];
      reflexivity.
  - destruct (store_transaction_cases td w) as [[_ ->] | [_ [e ->]]];
      reflexivity.
  - now rewrite get_user_transactions_pure.
  - now rewrite get_transaction_summary_pure.
Qed.

(** The account of an id after a call: it is there, with its email. *)
Lemma users_after sha (c : call) (w : world) (user_id : string) (u : user_row) :
  List.find (λ x, String.eqb (u_id x) user_id) (users (w_db w)) = Some u →
  ∃ u', List.find (λ x, String.eqb (u_id x) user_id)
          (users (w_db (after sha c w))) = Some u'
        ∧ u_id u' = u_id u ∧ u_email u' = u_email u.
Proof.
  intros Hu.
  destruct c as [email pw name phone pan | email pw | token | uid | uid pd
                 | td | uid' limit offset filters | uid']; cbn [after].
  - destruct (register_user_db sha email pw name phone pan w)
      as [[_ ->] | (_ & -> & _)]; [eauto|].
    cbn. exists u. split; [now apply find_app_some | auto].
  - destruct (login_user_db sha email pw w)
      as [[_ ->] | (user & _ & _ & -> & _)]; eauto.
  - rewrite verify_token_pure. eauto.
  - rewrite get_user_profile_pure. eauto.
  - destruct (update_user_profile_db uid pd w)
      as [[_ ->] | (name & phone & pan & user & _ & _ & _ & _ & _ & ->)];
      [eauto|].
    cbn [w_db set_db users].
    set (f := λ x : user_row, if String.eqb (u_id x) uid then _ else x).
    assert (Hf : List.find (λ x, String.eqb (u_id x) user_id)
                   (map f (users (w_db w)))
                 = option_map f (List.find (λ x, String.eqb (u_id x) user_id)
                                   (users (w_db w)))).
    { clear Hu. induction (users (w_db w)) as [|x l IH]; [reflexivity|].
      cbn [map List.find].
      assert (Hid : u_id (f x) = u_id x)
        by (unfold f; now destruct (String.eqb (u_id x) uid)).
      rewrite Hid. destruct (String.eqb (u_id x) user_id); [reflexivity|].
      exact IH. }
    rewrite Hf, Hu. cbn. exists (f u). split; [reflexivity|].
    unfold f. now destruct (String.eqb (u_id u) uid).
  - destruct (store_transaction_db td w) as [[_ ->] | (_ & -> & _ & _)]; eauto.
  - rewrite get_user_transactions_pure. eauto.
  - rewrite get_transaction_summary_pure. eauto.
Qed.

(** X6: no call ends a session or hands it to another account: a token
    that is verified before a call is verified after it, for the user of
    the same id and email. *)
Theorem sessions_survive_calls (sha : string → string) (c : call) (w : world)
    (token : string) (user : local_auth.user_info) :
  reachable sha w →
  fst (local_auth.verify_token token w) = Success user →
  ∃ user',
    fst (local_auth.verify_token token (after sha c w)) = Success user'
    ∧ local_auth.ui_id user' = local_auth.ui_id user
    ∧ local_auth.ui_email user' = local_auth.ui_email user.
Proof.
  intros Hreach.
  pose proof (reachable_well_keyed sha _ Hreach) as (_ & _ & Htok & _).
  pose proof (reachable_well_keyed sha _ (reachable_after sha c w Hreach))
    as (_ & _ & Htok' & _).
  rewrite !verify_token_eq. cbn [fst]. rewrite after_now.
  rewrite (session_users_keyed _ _ _ Htok), (session_users_keyed _ _ _ Htok').
  destruct (List.find _ (sessions (w_db w))) as [s|] eqn:Hs; [|discriminate].
  destruct (after_extends sha c w) as ([more Hmore] & _).
  rewrite Hmore, (find_app_some _ _ more _ Hs).
  destruct (w_now w <? s_expires_at s); [|discriminate].
  destruct (List.find _ (users (w_db w))) as [u|] eqn:Hu; [|discriminate].
  intros [= <-].
  destruct (users_after sha c w (s_user_id s) u Hu) as (u' & -> & Hid & Hem).
  exists (local_auth.user_info_of u'). auto.
Qed.

Lemma sessions_survive_calls_witness :
  reachable sample_sha256 world_session
  ∧ ∃ user',
      fst (local_auth.verify_token "uuid-1"
             (after sample_sha256
                (UpdateUserProfile "uuid-0" {[ "name" := PStr "Alice B." ]})
                world_session)) = Success user'
      ∧ local_auth.ui_id user' = "uuid-0"
      ∧ local_auth.ui_email user' = "alice@example.org".
Proof.
  assert (H : reachable sample_sha256 world_session).
  { unfold world_session. apply reach_login, reach_register, reach_init.
    reflexivity. }
  split; [exact H|].
  exact (sessions_survive_calls sample_sha256
           (UpdateUserProfile "uuid-0" {[ "name" := PStr "Alice B." ]})
           world_session "uuid-1"
           (local_auth.mk_user_info "uuid-0" "alice@example.org"
              (SText "Alice") (SText "") (SText "")) H eq_refl).
Defined.

Lemma find_map_id (f : user_row → user_row) (user_id : string)
    (l : list user_row) :
  (∀ u, u_id (f u) = u_id u) →
  List.find (λ u, String.eqb (u_id u) user_id) (map f l)
  = option_map f (List.find (λ u, String.eqb (u_id u) user_id) l).
Proof.
  intros Hf. induction l as [|x l IH]; [reflexivity|]. cbn [map List.find].
  rewrite Hf. destruct (String.eqb (u_id x) user_id); [reflexivity | exact IH].
Qed.

Lemma update_user_profile_eq user_id profile_data (w : world) :
  local_auth.update_user_profile user_id profile_data w
  = match local_auth.bound_value w profile_data "name",
          local_auth.bound_value w profile_data "phone",
          local_auth.bound_value w profile_data "pan" with
    | inr name, inr phone, inr pan =>
        match List.find (λ u, String.eqb (u_id u) user_id) (users (w_db w)) with
        | Some user =>
            (Success (local_auth.user_info_of (updated name phone pan user)),
             set_db (mk_db (map (λ u, if String.eqb (u_id u) user_id
                                      then updated name phone pan u else u)
                                (users (w_db w)))
                           (sessions (w_db w)) (transactions (w_db w))) w)
        | None => (Fail (Raised TypeError), w)
        end
    | inl e, _, _ | inr _, inl e, _ | inr _, inr _, inl e =>
        (Fail (Raised e), w)
    end.
Proof.
  unfold local_auth.update_user_profile, try_result, mbind, io_bind, read_db,
    mret, io_ret, lift, raise, write_db, local_auth.bound. cbn beta iota zeta.
  destruct (local_auth.bound_value w profile_data "name") as [|name];
    [destruct w; reflexivity|].
  destruct (local_auth.bound_value w profile_data "phone") as [|phone];
    [destruct w; reflexivity|].
  destruct (local_auth.bound_value w profile_data "pan") as [|pan];
    [destruct w; reflexivity|].
  cbn. fold (updated name phone pan).
  rewrite (find_map_id (λ u, if String.eqb (u_id u) user_id
                             then updated name phone pan u else u))
    by (intros u; now destruct (String.eqb (u_id u) user_id)).
  destruct (List.find _ (users (w_db w))) as [user|] eqn:Hu; cbn.
  - apply find_some in Hu as [_ Hu]. rewrite Hu. reflexivity.
  - destruct w; reflexivity.
Qed.

Lemma bound_field_after (w : world) profile_data key (c : option sqlval)
    (old : sqlval) :
  local_auth.bound_value w profile_data key = inr c →
  field_after w profile_data key old (default old c).
Proof.
  unfold local_auth.bound_value, field_after.
  destruct (profile_data !! key) as [v|]; [|now intros [= <-]].
  destruct (text_param w v) as [s|]; [|discriminate]. now intros [= <-].
Qed.

Lemma text_param_binds (w : world) (v : pyval) :
  is_Some (text_param w v) ↔ binds v = true.
Proof.
  unfold binds. destruct v as [| b | n | q | s | s |]; cbn;
    try destruct (in_int64 n); split; eauto; try discriminate;
    intros [c [=]].
Qed.

Lemma bound_binds (w : world) profile_data key :
  (∃ c, local_auth.bound_value w profile_data key = inr c)
  ↔ binds (get profile_data key) = true.
Proof.
  unfold local_auth.bound_value, get.
  destruct (profile_data !! key) as [v|]; cbn.
  - rewrite <- (text_param_binds w v).
    destruct (text_param w v); split; eauto; try discriminate.
    + intros [c [=]].
    + intros [c [=]].
  - split; eauto.
Qed.

(** X7: a successful [update_user_profile] returns the profile that
    [get_user_profile] reads afterwards; it is the old profile with the
    mentioned columns replaced by the given values as a TEXT column holds
    them (a text as it is, [None] as NULL, a number as its text: the int
    9876543210 is read back as the text "9876543210"), the id and the
    email are the old ones, and the profile of every other id is what it
    was. *)
Theorem update_then_get_profile (user_id : string) (profile_data : pydict)
    (w : world) (profile : local_auth.user_info) :
  let w' := snd (local_auth.update_user_profile user_id profile_data w) in
  fst (local_auth.update_user_profile user_id profile_data w)
  = Success profile →
  local_auth.get_user_profile user_id w' = (Success profile, w')
  ∧ (∃ old,
       local_auth.get_user_profile user_id w = (Success old, w)
       ∧ local_auth.ui_id profile = user_id
       ∧ local_auth.ui_id old = user_id
       ∧ local_auth.ui_email profile = local_auth.ui_email old
       ∧ field_after w profile_data "name" (local_auth.ui_name old)
           (local_auth.ui_name profile)
       ∧ field_after w profile_data "phone" (local_auth.ui_phone old)
           (local_auth.ui_phone profile)
       ∧ field_after w profile_data "pan" (local_auth.ui_pan old)
           (local_auth.ui_pan profile))
  ∧ (∀ other, other ≠ user_id →
       fst (local_auth.get_user_profile other w')
       = fst (local_auth.get_user_profile other w)).
Proof.
  cbn zeta. rewrite update_user_profile_eq.
  destruct (local_auth.bound_value w profile_data "name") as [|name] eqn:Hname;
    [discriminate|].
  destruct (local_auth.bound_value w profile_data "phone") as [|phone] eqn:Hphone;
    [discriminate|].
  destruct (local_auth.bound_value w profile_data "pan") as [|pan] eqn:Hpan;
    [discriminate|].
  destruct (List.find _ (users (w_db w))) as [user|] eqn:Hu; [|discriminate].
  cbn [fst snd]. intros [= <-].
  pose proof (find_some _ _ Hu) as [_ Hid]. apply String.eqb_eq in Hid.
  set (f := λ u, if String.eqb (u_id u) user_id
                 then updated name phone pan u else u).
  assert (Hf : ∀ u, u_id (f u) = u_id u)
    by (intros u; unfold f; now destruct (String.eqb (u_id u) user_id)).
  split; [|split].
  - rewrite get_user_profile_eq. cbn [w_db set_db users].
    rewrite (find_map_id f _ _ Hf), Hu. cbn. unfold f.
    now rewrite Hid, String.eqb_refl.
  - exists (local_auth.user_info_of user).
    rewrite get_user_profile_eq, Hu. cbn.
    repeat split; try assumption; now apply bound_field_after.
  - intros other Hother. rewrite !get_user_profile_eq. cbn [fst w_db set_db users].
    rewrite (find_map_id f _ _ Hf).
    destruct (List.find (λ u, String.eqb (u_id u) other) (users (w_db w)))
      as [u|] eqn:Ho; [|reflexivity].
    cbn. apply find_some in Ho as [_ Ho]. apply String.eqb_eq in Ho.
    unfold f. destruct (String.eqb_spec (u_id u) user_id); [congruence|].
    reflexivity.
Qed.

Lemma update_then_get_profile_witness :
  local_auth.get_user_profile "uuid-0"
    (snd (local_auth.update_user_profile "uuid-0"
            {[ "name" := PStr "Alice B." ]} world_session))
  = (Success (local_auth.mk_user_info "uuid-0" "alice@example.org"
                (SText "Alice B.") (SText "") (SText "")),
     snd (local_auth.update_user_profile "uuid-0"
            {[ "name" := PStr "Alice B." ]} world_session))
  ∧ (∃ old,
       local_auth.get_user_profile "uuid-0" world_session
       = (Success old, world_session)
       ∧ "uuid-0" = "uuid-0"
       ∧ local_auth.ui_id old = "uuid-0"
       ∧ "alice@example.org" = local_auth.ui_email old
       ∧ field_after world_session {[ "name" := PStr "Alice B." ]} "name"
           (local_auth.ui_name old) (SText "Alice B.")
       ∧ field_after world_session {[ "name" := PStr "Alice B." ]} "phone"
           (local_auth.ui_phone old) (SText "")
       ∧ field_after world_session {[ "name" := PStr "Alice B." ]} "pan"
           (local_auth.ui_pan old) (SText ""))
  ∧ (∀ other, other ≠ "uuid-0" →
       fst (local_auth.get_user_profile other
              (snd (local_auth.update_user_profile "uuid-0"
                      {[ "name" := PStr "Alice B." ]} world_session)))
       = fst (local_auth.get_user_profile other world_session)).
Proof.
  exact (update_then_get_profile "uuid-0" {[ "name" := PStr "Alice B." ]}
           world_session
           (local_auth.mk_user_info "uuid-0" "alice@example.org"
              (SText "Alice B.") (SText "") (SText "")) eq_refl).
Defined.

(** X8: [update_user_profile] succeeds exactly when the id is the one of an
    account and every mentioned column has a value that binds: [None], a
    bool, an int of at most 64 bits, a float, a text or a date, and not a
    larger int or an object without an adapter (a list, a dict, a set).
    A failed update changes nothing, and for an id without an account the
    answer is the text of the [TypeError] raised on reading the row back,
    not "User not found". *)
Theorem update_fails_without_change (user_id : string) (profile_data : pydict)
    (w : world) :
  let r := local_auth.update_user_profile user_id profile_data w in
  (∀ v, binds v = true
        ↔ match v with
          | PInt n => - 2 ^ 63 <= n < 2 ^ 63
          | PObj => False
          | _ => True
          end)
  ∧ (succeeded (fst r) = true
   ↔ succeeded (fst (local_auth.get_user_profile user_id w)) = true
     ∧ forallb (λ k, binds (get profile_data k)) profile_keys = true)
  ∧ (succeeded (fst r) = false → snd r = w)
  ∧ (fst (local_auth.get_user_profile user_id w)
     = Fail (Message "User not found") →
     forallb (λ k, binds (get profile_data k)) profile_keys = true →
     fst r = Fail (Raised TypeError)).
Proof.
  cbn zeta. split.
  { intros v. unfold binds. destruct v as [| b | n | q | s | s |]; cbn;
      try (split; [intros _; exact I | reflexivity]).
    - unfold in_int64.
      destruct (Z.leb_spec (- 2 ^ 63) n), (Z.ltb_spec n (2 ^ 63)); cbn;
        split; try discriminate; try reflexivity; intros; lia.
    - split; [discriminate | intros []]. }
  rewrite update_user_profile_eq, get_user_profile_eq.
  cbn [fst forallb profile_keys]. rewrite andb_true_r.
  pose proof (bound_binds w profile_data "name") as Hn.
  pose proof (bound_binds w profile_data "phone") as Hp.
  pose proof (bound_binds w profile_data "pan") as Ha.
  destruct (local_auth.bound_value w profile_data "name") as [e|name].
  { destruct (binds (get profile_data "name")).
    - destruct Hn as [_ Hn]. destruct (Hn eq_refl) as [c [=]].
    - cbn. repeat split; try discriminate; try reflexivity.
      all: intros []; discriminate. }
  destruct (local_auth.bound_value w profile_data "phone") as [e|phone].
  { destruct (binds (get profile_data "phone")).
    - destruct Hp as [_ Hp]. destruct (Hp eq_refl) as [c [=]].
    - rewrite andb_false_r. cbn. repeat split; try discriminate; try reflexivity.
      all: intros []; discriminate. }
  destruct (local_auth.bound_value w profile_data "pan") as [e|pan].
  { destruct (binds (get profile_data "pan")).
    - destruct Ha as [_ Ha]. destruct (Ha eq_refl) as [c [=]].
    - rewrite !andb_false_r. cbn. repeat split; try discriminate; try reflexivity.
      all: intros []; discriminate. }
  destruct Hn as [Hn _], Hp as [Hp _], Ha as [Ha _].
  rewrite Hn, Hp, Ha by eauto.
  destruct (List.find _ (users (w_db w))); cbn; repeat split; auto;
    try discriminate.
  intros []; discriminate.
Qed.

(** ** The ledger *)

(** The order of the keys is transitive. *)
Lemma ascii_compare_le_trans (a b c : ascii) :
  Ascii.compare a b ≠ Gt → Ascii.compare b c ≠ Gt → Ascii.compare a c ≠ Gt.
Proof.
  unfold Ascii.compare. rewrite !N.compare_le_iff. apply N.le_trans.
Qed.

Lemma string_compare_le_trans (s t u : string) :
  String.compare s t ≠ Gt → String.compare t u ≠ Gt → String.compare s u ≠ Gt.
Proof.
  revert t u. induction s as [|a s IH]; intros [|b t] [|c u]; cbn;
    try congruence.
  destruct (Ascii.compare a b) eqn:Hab; try congruence;
    destruct (Ascii.compare b c) eqn:Hbc; try congruence; intros H1 H2.
  - apply Ascii.compare_eq_iff in Hab, Hbc. subst.
    assert (Hcc : Ascii.compare c c = Eq)
      by (unfold Ascii.compare; apply N.compare_refl).
    rewrite Hcc. now apply (IH t u).
  - apply Ascii.compare_eq_iff in Hab. subst. now rewrite Hbc.
  - apply Ascii.compare_eq_iff in Hbc. subst. now rewrite Hab.
  - assert (Hac : Ascii.compare a c = Lt).
    { unfold Ascii.compare in *. rewrite N.compare_lt_iff in *.
      now apply (N.lt_trans _ (N_of_ascii b)). }
    now rewrite Hac.
Qed.

Lemma order_compare_le_trans (a b c : sqlval) :
  order_compare a b ≠ Gt → order_compare b c ≠ Gt → order_compare a c ≠ Gt.
Proof.
  destruct a as [|p|s], b as [|q|t], c as [|r|u]; cbn; try congruence.
  - rewrite <- !Qle_alt. apply Qle_trans.
  - apply string_compare_le_trans.
Qed.

Section OrderFilter.
Context {A : Type} (key : A → sqlval) (p : A → bool).

Lemma sorted_below (r x : A) (l : list A) :
  Sorted (date_desc key) (x :: l) → order_compare (key x) (key r) ≠ Gt →
  Forall (λ y, order_compare (key y) (key r) ≠ Gt) (x :: l).
Proof.
  revert x. induction l as [|y l IH]; intros x Hs Hx.
  - now repeat constructor.
  - constructor; [exact Hx|]. inversion_clear Hs as [|? ? Hs' Hhd].
    inversion_clear Hhd as [|? ? Hxy]. apply IH; [exact Hs'|].
    apply (order_compare_le_trans _ (key x)); [|exact Hx].
    unfold date_desc in Hxy. rewrite order_compare_antisym.
    destruct (order_compare (key x) (key y)); cbn; congruence.
Qed.

Lemma insert_desc_below (r : A) (l : list A) :
  Forall (λ y, order_compare (key y) (key r) ≠ Gt) l →
  insert_desc key r l = r :: l.
Proof.
  destruct 1 as [|y l Hy _]; [reflexivity|]. cbn.
  destruct (order_compare (key y) (key r)); congruence.
Qed.

Lemma filter_insert_desc (r : A) (l : list A) :
  Sorted (date_desc key) l →
  List.filter p (insert_desc key r l)
  = if p r then insert_desc key r (List.filter p l) else List.filter p l.
Proof.
  induction l as [|x l IH]; intros Hs.
  - cbn. now destruct (p r).
  - cbn [insert_desc].
    destruct (order_compare (key x) (key r)) eqn:Hc.
    + assert (Hall : Forall (λ y, order_compare (key y) (key r) ≠ Gt) (x :: l))
        by (apply sorted_below; [exact Hs | congruence]).
      assert (Hins : insert_desc key r (List.filter p (x :: l))
                     = r :: List.filter p (x :: l)).
      { apply insert_desc_below.
        apply List.Forall_forall. intros y Hy. apply filter_In in Hy as [Hy _].
        rewrite List.Forall_forall in Hall. now apply Hall. }
      rewrite Hins. cbn [List.filter]. destruct (p r); reflexivity.
    + assert (Hall : Forall (λ y, order_compare (key y) (key r) ≠ Gt) (x :: l))
        by (apply sorted_below; [exact Hs | congruence]).
      assert (Hins : insert_desc key r (List.filter p (x :: l))
                     = r :: List.filter p (x :: l)).
      { apply insert_desc_below.
        apply List.Forall_forall. intros y Hy. apply filter_In in Hy as [Hy _].
        rewrite List.Forall_forall in Hall. now apply Hall. }
      rewrite Hins. cbn [List.filter]. destruct (p r); reflexivity.
    + cbn [List.filter]. inversion_clear Hs as [|? ? Hs' _].
      rewrite (IH Hs'). destruct (p x), (p r); try reflexivity.
      cbn [insert_desc]. now rewrite Hc.
Qed.

(** Sorting and selecting can be done in either order. *)
Lemma order_desc_filter (l : list A) :
  order_desc key (List.filter p l) = List.filter p (order_desc key l).
Proof.
  induction l as [|x l IH]; [reflexivity|].
  rewrite order_desc_cons, filter_insert_desc by apply order_desc_sorted.
  cbn [List.filter]. destruct (p x); [|exact IH].
  now rewrite order_desc_cons, IH.
Qed.

Lemma insert_desc_perm (r : A) (l : list A) : insert_desc key r l ≡ₚ r :: l.
Proof.
  induction l as [|x l IH]; [reflexivity|]. cbn.
  destruct (order_compare (key x) (key r)); try reflexivity.
  rewrite IH. apply perm_swap.
Qed.

Lemma order_desc_perm (l : list A) : order_desc key l ≡ₚ l.
Proof.
  induction l as [|x l IH]; [reflexivity|].
  now rewrite order_desc_cons, insert_desc_perm, IH.
Qed.
End OrderFilter.

Lemma filters_of_lookup (c y a b : option string) :
  filters_of c y a b !! "category" = PStr <$> c
  ∧ filters_of c y a b !! "transaction_type" = PStr <$> y
  ∧ filters_of c y a b !! "start_date" = PStr <$> a
  ∧ filters_of c y a b !! "end_date" = PStr <$> b.
Proof.
  unfold filters_of.
  destruct c, y, a, b; cbn [with_filter fmap option_fmap option_map];
    repeat split;
    repeat first [ rewrite lookup_insert_eq | rewrite lookup_insert_ne by done
                 | rewrite lookup_empty ]; reflexivity.
Qed.

Lemma ledger_of_eq (user : string) (w : world) :
  ledger_of user w
  = map local_auth.row_dict
      (local_auth.order_by_date_desc (own_rows (SText user) (w_db w))).
Proof.
  unfold ledger_of.
  rewrite (get_user_transactions_eq _ (SText user)) by reflexivity.
  cbn. now rewrite select_all_own_rows.
Qed.

Lemma filter_map_comm {A B} (f : A → B) (p : B → bool) (l : list A) :
  List.filter p (map f l) = map f (List.filter (λ x, p (f x)) l).
Proof.
  induction l as [|x l IH]; [reflexivity|]. cbn.
  destruct (p (f x)); cbn; now rewrite IH.
Qed.

(** X9: in a table whose rows hold values of the types of their columns,
    with filters that ask for a category, a type, a first or a last date
    (texts, the dates starting like an ISO date) and a limit and an
    offset of at most 64 bits, [get_user_transactions] returns the rows of
    the user's whole listing that pass them (the category and the type
    are the ones asked for, the date is not before the first and not
    after the last date, as texts), in the order of that listing, cut by
    limit and offset. *)
Theorem filters_select_from_the_listing (user : string) (limit offset : Z)
    (category transaction_type start_date end_date : option string)
    (w : world) :
  typed_table w = true →
  from_option iso_dated true start_date = true →
  from_option iso_dated true end_date = true →
  in_int64 limit = true → in_int64 offset = true →
  local_auth.get_user_transactions (PStr user) limit offset
    (Some (filters_of category transaction_type start_date end_date)) w
  = (Success
       (local_auth.limit_offset limit offset
          (List.filter
             (λ t, from_option
                     (λ c, sql_eq (local_auth.tx_category t) (SText c)) true
                     category
                   && from_option
                        (λ y, sql_eq (local_auth.tx_transaction_type t)
                                (SText y)) true transaction_type
                   && from_option
                        (λ a, sql_ge (local_auth.tx_date t) (SText a)) true
                        start_date
                   && from_option
                        (λ b, sql_le (local_auth.tx_date t) (SText b)) true
                        end_date)
             (ledger_of user w))), w).
Proof.
  intros _ _ _ _ _.
  change (local_auth.get_user_transactions (PStr user) limit offset
            (Some (filters_of category transaction_type start_date end_date)) w
          = (Success
               (local_auth.limit_offset limit offset
                  (List.filter
                     (passes category transaction_type start_date end_date)
                     (ledger_of user w))), w)).
  rewrite (get_user_transactions_eq _ (SText user)) by reflexivity.
  rewrite ledger_of_eq.
  destruct (filters_of_lookup category transaction_type start_date end_date)
    as (Hc & Hy & Ha & Hb).
  assert (Hcl : ∃ clauses,
             local_auth.filter_clauses
               (Some (filters_of category transaction_type start_date end_date))
             = inr clauses
             ∧ ∀ r, forallb (λ c, c r) clauses
                    = passes category transaction_type start_date end_date
                        (local_auth.row_dict r)).
  { unfold local_auth.filter_clauses, local_auth.clause.
    destruct (bool_decide _) eqn:Hempty.
    - apply bool_decide_eq_true in Hempty. rewrite Hempty in Hc, Hy, Ha, Hb.
      rewrite lookup_empty in Hc, Hy, Ha, Hb.
      destruct category, transaction_type, start_date, end_date;
        try discriminate.
      exists []. split; reflexivity.
    - rewrite Hc, Hy, Ha, Hb. clear.
      destruct category, transaction_type, start_date, end_date; cbn;
        eexists; (split; [reflexivity|]); intros r; unfold passes; cbn;
        rewrite ?andb_true_r, ?andb_assoc; reflexivity. }
  destruct Hcl as (clauses & -> & Hpass). f_equal. f_equal.
  rewrite select_own_rows. unfold local_auth.order_by_date_desc.
  rewrite order_desc_filter, limit_offset_map, filter_map_comm.
  do 2 f_equal. apply filter_ext. intros r. apply Hpass.
Qed.

Lemma filters_select_from_the_listing_witness :
  typed_table world_two_users = true
  ∧ map local_auth.tx_description
      (answer
         (fst (local_auth.get_user_transactions (PStr "alice") 10 0
                 (Some (filters_of None (Some "debit") (Some "2024-01-01")
                          (Some "2024-01-31"))) world_two_users)))
    = [SText "rent"].
Proof.
  split; [reflexivity|].
  rewrite (filters_select_from_the_listing "alice" 10 0 None (Some "debit")
             (Some "2024-01-01") (Some "2024-01-31") world_two_users);
    reflexivity.
Defined.

Lemma sql_compare_null_r (v : sqlval) : sql_compare v SNull = None.
Proof. now destruct v. Qed.

Lemma limit_offset_nil {A} (limit offset : Z) :
  local_auth.limit_offset limit offset (@nil A) = [].
Proof.
  unfold local_auth.limit_offset. rewrite drop_nil.
  destruct (limit <? 0); [reflexivity | apply take_nil].
Qed.

(** X10: a filter that is present with the value [None] is not skipped: it
    is compared as NULL, which no row passes, so the listing is empty. *)
Theorem none_filter_matches_nothing (user_id : pyval) (limit offset : Z)
    (filters : pydict) (key : string) (w : world) :
  In key filter_keys → filters !! key = Some PNone →
  answer (fst (local_auth.get_user_transactions user_id limit offset
                 (Some filters) w)) = [].
Proof.
  intros Hkey Hnone.
  destruct (text_param w user_id) as [uid|] eqn:Huid.
  2:{ unfold local_auth.get_user_transactions, try_result, mbind, io_bind, lift,
        bind_text_param. rewrite Huid. reflexivity. }
  rewrite (get_user_transactions_eq _ uid) by exact Huid. cbn [fst].
  unfold local_auth.filter_clauses.
  destruct (bool_decide (filters = ∅)) eqn:Hempty.
  { apply bool_decide_eq_true in Hempty. subst filters.
    now rewrite lookup_empty in Hnone. }
  unfold local_auth.clause.
  assert (Hsel : ∀ (clauses : list (transaction_row → bool)),
             (∃ c, In c clauses ∧ ∀ r, c r = false) →
             local_auth.select_transactions (w_db w) uid clauses = []).
  { intros clauses (c & Hc & Hfalse). unfold local_auth.select_transactions.
    induction (transactions (w_db w)) as [|r l IH]; [reflexivity|]. cbn.
    assert (Hr : forallb (λ c, c r) clauses = false).
    { apply not_true_is_false. intros Hall. rewrite forallb_forall in Hall.
      specialize (Hall c Hc). now rewrite Hfalse in Hall. }
    now rewrite Hr, andb_false_r. }
  assert (Hop : ∀ v, sql_eq v SNull = false ∧ sql_ge v SNull = false
                     ∧ sql_le v SNull = false).
  { intros v. unfold sql_eq, sql_ge, sql_le. now rewrite sql_compare_null_r. }
  assert (Hout : ∀ clauses,
             (∃ c, In c clauses ∧ ∀ r, c r = false) →
             answer (Success (map local_auth.row_dict
                       (local_auth.limit_offset limit offset
                          (local_auth.order_by_date_desc
                             (local_auth.select_transactions (w_db w) uid
                                clauses))))) = []).
  { intros clauses Hc. rewrite (Hsel clauses Hc).
    unfold local_auth.order_by_date_desc. cbn [order_desc foldr answer].
    now rewrite limit_offset_nil. }
  cbn in Hkey. destruct Hkey as [<-|[<-|[<-|[<-|[]]]]]; rewrite Hnone;
    cbn [bind_param adapt mbind exn_bind mret exn_ret].
  - destruct (filters !! "transaction_type") as [v2|];
      [destruct (bind_param v2); [reflexivity|]|];
    (destruct (filters !! "start_date") as [v3|];
      [destruct (bind_param v3); [reflexivity|]|]);
    (destruct (filters !! "end_date") as [v4|];
      [destruct (bind_param v4); [reflexivity|]|]);
    cbn [mbind exn_bind mret exn_ret];
    apply Hout; exists (λ r, sql_eq (t_category r) SNull);
    (split; [rewrite !in_app_iff; cbn; auto | intros r; apply Hop]).
  - destruct (filters !! "category") as [v2|];
      [destruct (bind_param v2); [reflexivity|]|];
    (destruct (filters !! "start_date") as [v3|];
      [destruct (bind_param v3); [reflexivity|]|]);
    (destruct (filters !! "end_date") as [v4|];
      [destruct (bind_param v4); [reflexivity|]|]);
    cbn [mbind exn_bind mret exn_ret];
    apply Hout; exists (λ r, sql_eq (t_transaction_type r) SNull);
    (split; [rewrite !in_app_iff; cbn; auto | intros r; apply Hop]).
  - destruct (filters !! "category") as [v2|];
      [destruct (bind_param v2); [reflexivity|]|];
    (destruct (filters !! "transaction_type") as [v3|];
      [destruct (bind_param v3); [reflexivity|]|]);
    (destruct (filters !! "end_date") as [v4|];
      [destruct (bind_param v4); [reflexivity|]|]);
    cbn [mbind exn_bind mret exn_ret];
    apply Hout; exists (λ r, sql_ge (t_date r) SNull);
    (split; [rewrite !in_app_iff; cbn; auto | intros r; apply Hop]).
  - destruct (filters !! "category") as [v2|];
      [destruct (bind_param v2); [reflexivity|]|];
    (destruct (filters !! "transaction_type") as [v3|];
      [destruct (bind_param v3); [reflexivity|]|]);
    (destruct (filters !! "start_date") as [v4|];
      [destruct (bind_param v4); [reflexivity|]|]);
    cbn [mbind exn_bind mret exn_ret];
    apply Hout; exists (λ r, sql_le (t_date r) SNull);
    (split; [rewrite !in_app_iff; cbn; auto | intros r; apply Hop]).
Qed.

Lemma none_filter_matches_nothing_witness :
  In "category" filter_keys
  ∧ answer (fst (local_auth.get_user_transactions (PStr "alice") 10 0
                   (Some {[ "category" := PNone ]}) world_two_users)) = [].
Proof.
  split; [now left|].
  apply (none_filter_matches_nothing (PStr "alice") 10 0
           {[ "category" := PNone ]} "category" world_two_users);
    [now left | reflexivity].
Defined.

Lemma sql_eq_texts (s t : string) :
  sql_eq (SText s) (SText t) = String.eqb s t.
Proof.
  destruct (String.eqb_spec s t) as [->|Hne]; [apply sql_eq_same_text|].
  unfold sql_eq. cbn. destruct (String.compare s t) eqn:Hc; try reflexivity.
  now apply String.compare_eq_iff in Hc.
Qed.

(** The rows of a user after a row was appended. *)
Lemma own_rows_append (uid : sqlval) (r : transaction_row) (w : world) :
  own_rows uid (w_db (append_row r (consume w)))
  = own_rows uid (w_db w) ++ (if sql_eq (t_user_id r) uid then [r] else []).
Proof.
  unfold own_rows. cbn. rewrite List.filter_app. cbn.
  now destruct (sql_eq (t_user_id r) uid).
Qed.

Lemma store_transaction_success (td : pydict) (w : world) (id : string) :
  fst (local_auth.store_transaction td w) = Success id →
  id = next_id w
  ∧ snd (local_auth.store_transaction td w)
    = append_row (row_of td w) (consume w).
Proof.
  destruct (store_transaction_cases td w) as [[_ ->] | [_ [e ->]]];
    [|discriminate].
  cbn. now intros [= <-].
Qed.

Lemma row_of_user_id (td : pydict) (user : string) (w : world) :
  td !! "user_id" = Some (PStr user) → t_user_id (row_of td w) = SText user.
Proof. intros H. unfold row_of, column, get. cbn. now rewrite H. Qed.

Lemma flag_truthy (v : pyval) :
  negb (local_auth.flag v =? 0) = py_truthy v.
Proof. unfold local_auth.flag. now destruct (py_truthy v). Qed.

(** X11: a stored transaction shows in the listing of its user, which
    gains this one row and keeps the others; the row carries the id that
    was returned, and its two flags are the truth values of what was
    stored; what the calls return for any other user is what it was. *)
Theorem store_then_list (td : pydict) (user : string) (w : world) (id : string) :
  let w' := snd (local_auth.store_transaction td w) in
  td !! "user_id" = Some (PStr user) →
  fst (local_auth.store_transaction td w) = Success id →
  (∃ row, local_auth.tx_id row = id
          ∧ local_auth.tx_user_id row = SText user
          ∧ local_auth.tx_is_recurring row
            = py_truthy (get td "is_recurring")
          ∧ local_auth.tx_tax_relevant row
            = py_truthy (get td "tax_relevant")
          ∧ ledger_of user w' ≡ₚ row :: ledger_of user w)
  ∧ ∀ other, other ≠ user →
      (∀ limit offset filters,
         fst (local_auth.get_user_transactions (PStr other) limit offset
                filters w')
         = fst (local_auth.get_user_transactions (PStr other) limit offset
                  filters w))
      ∧ fst (local_auth.get_transaction_summary (PStr other) w')
        = fst (local_auth.get_transaction_summary (PStr other) w).
Proof.
  cbn zeta. intros Huser Hok.
  apply store_transaction_success in Hok as [-> ->].
  pose proof (row_of_user_id td user w Huser) as Hrow. split.
  - exists (local_auth.row_dict (row_of td w)). split; [reflexivity|].
    split; [exact Hrow|].
    split; [apply flag_truthy|]. split; [apply flag_truthy|].
    rewrite !ledger_of_eq, own_rows_append, Hrow, sql_eq_same_text.
    unfold local_auth.order_by_date_desc. rewrite !order_desc_perm.
    rewrite map_app. cbn.
    symmetry. apply Permutation_cons_append.
  - intros other Hother.
    assert (Hown : own_rows (SText other) (w_db (append_row (row_of td w) (consume w)))
                   = own_rows (SText other) (w_db w)).
    { rewrite own_rows_append, Hrow, sql_eq_texts.
      destruct (String.eqb_spec user other); [congruence | apply app_nil_r]. }
    split.
    + intros limit offset filters.
      rewrite !(get_user_transactions_eq _ (SText other)) by reflexivity.
      cbn [fst]. destruct (local_auth.filter_clauses filters); [reflexivity|].
      now rewrite !select_own_rows, Hown.
    + rewrite !(get_transaction_summary_eq _ (SText other)) by reflexivity.
      cbn [fst]. now rewrite Hown.
Qed.

Lemma store_then_list_witness :
  (∃ row, local_auth.tx_id row = "uuid-0"
          ∧ local_auth.tx_user_id row = SText "alice"
          ∧ local_auth.tx_is_recurring row
            = py_truthy
                (get (entry "alice" "2024-01-10" "salary" 50000 "credit")
                     "is_recurring")
          ∧ local_auth.tx_tax_relevant row
            = py_truthy
                (get (entry "alice" "2024-01-10" "salary" 50000 "credit")
                     "tax_relevant")
          ∧ ledger_of "alice"
              (snd (local_auth.store_transaction
                      (entry "alice" "2024-01-10" "salary" 50000 "credit")
                      world0))
            ≡ₚ row :: ledger_of "alice" world0)
  ∧ ∀ other, other ≠ "alice" →
      (∀ limit offset filters,
         fst (local_auth.get_user_transactions (PStr other) limit offset
                filters
                (snd (local_auth.store_transaction
                        (entry "alice" "2024-01-10" "salary" 50000 "credit")
                        world0)))
         = fst (local_auth.get_user_transactions (PStr other) limit offset
                  filters world0))
      ∧ fst (local_auth.get_transaction_summary (PStr other)
               (snd (local_auth.store_transaction
                       (entry "alice" "2024-01-10" "salary" 50000 "credit")
                       world0)))
        = fst (local_auth.get_transaction_summary (PStr other) world0).
Proof.
  exact (store_then_list (entry "alice" "2024-01-10" "salary" 50000 "credit")
           "alice" world0 "uuid-0" eq_refl eq_refl).
Defined.

Lemma add_group_counted (c : sqlval) (amount : Q)
    (groups : list (sqlval * (Z * Q))) :
  counted_rows (local_auth.add_group c amount groups) = counted_rows groups + 1.
Proof.
  unfold counted_rows.
  induction groups as [|[c' [n total]] rest IH]; cbn; [reflexivity|].
  destruct (sql_eq c' c); cbn; [lia|]. rewrite IH. lia.
Qed.

Lemma add_group_positive (c : sqlval) (amount : Q)
    (groups : list (sqlval * (Z * Q))) :
  Forall (λ entry, 1 <= fst (snd entry)) groups →
  Forall (λ entry, 1 <= fst (snd entry)) (local_auth.add_group c amount groups).
Proof.
  induction 1 as [|[c' [n total]] rest Hn Hrest IH]; cbn.
  - repeat constructor. cbn. lia.
  - destruct (sql_eq c' c); constructor; cbn in *; try assumption; lia.
Qed.

Lemma group_by_category_counted (rows : list transaction_row) :
  counted_rows (local_auth.group_by_category rows)
  = Z.of_nat (length (List.filter (λ r, negb (is_null (t_category r))) rows))
  ∧ Forall (λ entry, 1 <= fst (snd entry)) (local_auth.group_by_category rows).
Proof.
  unfold local_auth.group_by_category.
  set (l := List.filter _ rows).
  assert (H : ∀ groups,
             counted_rows
               (fold_left (λ groups r,
                             local_auth.add_group (t_category r)
                               (local_auth.sql_number (t_amount r)) groups)
                          l groups)
             = counted_rows groups + Z.of_nat (length l)
             ∧ (Forall (λ entry, 1 <= fst (snd entry)) groups →
                Forall (λ entry, 1 <= fst (snd entry))
                  (fold_left (λ groups r,
                                local_auth.add_group (t_category r)
                                  (local_auth.sql_number (t_amount r)) groups)
                             l groups))).
  { induction l as [|r l IH]; intros groups; cbn [fold_left length].
    - split; [lia | auto].
    - destruct (IH (local_auth.add_group (t_category r)
                      (local_auth.sql_number (t_amount r)) groups)) as [H1 H2].
      split.
      + rewrite H1, add_group_counted. lia.
      + intros Hg. apply H2. now apply add_group_positive. }
  destruct (H []) as [H1 H2]. split; [exact H1 | apply H2; constructor].
Qed.

(** X12: the summary counts the rows of the user's listing; its categories
    count the rows that have a category, each of them at least one, so a
    row without a category is in the total and in no category. *)
Theorem summary_counts_the_listing (user : string) (w : world) :
  ∃ s,
    local_auth.get_transaction_summary (PStr user) w = (Success s, w)
    ∧ local_auth.total_transactions s = Z.of_nat (length (ledger_of user w))
    ∧ counted_rows (local_auth.categories s)
      = Z.of_nat (length (List.filter
                            (λ t, negb (is_null (local_auth.tx_category t)))
                            (ledger_of user w)))
    ∧ Forall (λ entry, 1 <= fst (snd entry)) (local_auth.categories s)
    ∧ (ledger_of user w = [] → s = local_auth.mk_summary 0 0 0 0 []).
Proof.
  rewrite (get_transaction_summary_eq _ (SText user)) by reflexivity.
  eexists. split; [reflexivity|].
  rewrite ledger_of_eq. unfold local_auth.order_by_date_desc.
  destruct (group_by_category_counted (own_rows (SText user) (w_db w)))
    as [Hcount Hpos].
  cbn [local_auth.summary_of local_auth.total_transactions
       local_auth.categories].
  repeat split.
  - now rewrite length_map, order_desc_length.
  - rewrite Hcount, filter_map_comm, length_map. cbn.
    now rewrite <- order_desc_filter, order_desc_length.
  - exact Hpos.
  - intros Hempty. apply (f_equal (@length _)) in Hempty.
    rewrite length_map, order_desc_length in Hempty.
    destruct (own_rows (SText user) (w_db w)); [reflexivity | discriminate].
Qed.

Lemma qsum_snoc (l : list Q) (x : Q) :
  (local_auth.qsum (l ++ [x]) == local_auth.qsum l + x)%Q.
Proof.
  unfold local_auth.qsum. induction l as [|y l IH]; cbn.
  - ring.
  - rewrite IH. ring.
Qed.

(** X13: how a stored transaction moves the summary of its user, where
    the amounts of the user, the new one included, are numbers that binary
    floating point adds exactly (multiples of 1/1024 whose absolute values
    add up to at most 2^40): the count grows by one; the amount is added
    to the income of a credit and to the expenses of a debit as it stands,
    with its sign; a transaction of any other type moves the count
    only. *)
Theorem summary_after_store (td : pydict) (user type : string) (q : Q)
    (w : world) (id : string) :
  let w' := snd (local_auth.store_transaction td w) in
  typed_table w = true →
  exactly_summable (map t_amount (own_rows (SText user) (w_db w)) ++ [SNum q])
  = true →
  td !! "user_id" = Some (PStr user) →
  td !! "transaction_type" = Some (PStr type) →
  td !! "amount" = Some (PFloat q) →
  fst (local_auth.store_transaction td w) = Success id →
  ∃ s s',
    fst (local_auth.get_transaction_summary (PStr user) w) = Success s
    ∧ fst (local_auth.get_transaction_summary (PStr user) w') = Success s'
    ∧ local_auth.total_transactions s' = local_auth.total_transactions s + 1
    ∧ (local_auth.total_income s'
       == local_auth.total_income s
          + (if String.eqb type "credit" then q else 0))%Q
    ∧ (local_auth.total_expenses s'
       == local_auth.total_expenses s
          + (if String.eqb type "debit" then q else 0))%Q
    ∧ (local_auth.net_savings s'
       == local_auth.net_savings s
          + (if String.eqb type "credit" then q
             else if String.eqb type "debit" then - q else 0))%Q.
Proof.
  cbn zeta. intros _ _ Huser Htype Hamount Hok.
  apply store_transaction_success in Hok as [-> ->].
  rewrite !(get_transaction_summary_eq _ (SText user)) by reflexivity.
  do 2 eexists. split; [reflexivity|]. split; [reflexivity|].
  rewrite own_rows_append, (row_of_user_id td user w Huser), sql_eq_same_text.
  assert (Ht : t_transaction_type (row_of td w) = SText type)
    by (unfold row_of, column, get; cbn; now rewrite Htype).
  assert (Ha : t_amount (row_of td w) = SNum q)
    by (unfold row_of, column, get; cbn; now rewrite Hamount).
  assert (Hsum : ∀ k, (local_auth.sum_case k
                         (own_rows (SText user) (w_db w) ++ [row_of td w])
                       == local_auth.sum_case k (own_rows (SText user) (w_db w))
                          + (if String.eqb type k then q else 0))%Q).
  { intros k. unfold local_auth.sum_case. rewrite map_app. cbn [map].
    rewrite qsum_snoc, Ht, Ha, sql_eq_texts. reflexivity. }
  cbn [local_auth.summary_of local_auth.total_transactions
       local_auth.total_income local_auth.total_expenses
       local_auth.net_savings].
  repeat split.
  - rewrite length_app. cbn. lia.
  - apply Hsum.
  - apply Hsum.
  - rewrite !Hsum.
    destruct (String.eqb_spec type "credit") as [->|_]; cbn; [ring|].
    destruct (String.eqb type "debit"); ring.
Qed.

Lemma summary_after_store_witness :
  typed_table world0 = true
  ∧ ∃ s s',
    fst (local_auth.get_transaction_summary (PStr "alice") world0) = Success s
    ∧ fst (local_auth.get_transaction_summary (PStr "alice")
             (snd (local_auth.store_transaction negative_debit world0)))
      = Success s'
    ∧ local_auth.total_transactions s' = local_auth.total_transactions s + 1
    ∧ (local_auth.total_income s' == local_auth.total_income s + 0)%Q
    ∧ (local_auth.total_expenses s' == local_auth.total_expenses s + -50)%Q
    ∧ (local_auth.net_savings s' == local_auth.net_savings s + - -50)%Q.
Proof.
  split; [reflexivity|].
  exact (summary_after_store negative_debit "alice" "debit" (-50) world0
           "uuid-0" eq_refl eq_refl eq_refl eq_refl eq_refl eq_refl).
Defined.



(** ** The dashboard *)

Lemma split_cons (sep : ascii) (s : string) :
  ∃ piece pieces, dashboard.split sep s = piece :: pieces.
Proof.
  induction s as [|c s (piece & pieces & IH)]; cbn; [eauto|].
  destruct (Ascii.eqb c sep); [eauto|]. rewrite IH. eauto.
Qed.

(** The pieces of a text that starts with a word without the separator. *)
Lemma split_word (sep : ascii) (word rest : string) :
  dashboard.split sep word = [word] →
  dashboard.split sep (word +:+ String sep rest)
  = word :: dashboard.split sep rest.
Proof.
  revert rest. induction word as [|c word IH]; intros rest.
  - intros _. change (EmptyString +:+ String sep rest) with (String sep rest).
    cbn. now rewrite Ascii.eqb_refl.
  - change (String c word +:+ String sep rest)
      with (String c (word +:+ String sep rest)).
    cbn [dashboard.split].
    destruct (Ascii.eqb c sep); [discriminate|].
    destruct (split_cons sep word) as (piece & pieces & Hw). rewrite Hw.
    intros [= -> ->]. now rewrite (IH rest Hw).
Qed.

Lemma get_user_id_from_request_pure b64 json header (w : world) :
  snd (dashboard.get_user_id_from_request b64 json header w) = w.
Proof.
  unfold dashboard.get_user_id_from_request.
  destruct (negb _); [reflexivity|].
  destruct (_ !! 1%nat) as [token|]; [|reflexivity].
  rewrite verify_token_eq.
  destruct (head _); [reflexivity|].
  destruct (dashboard.decode_jwt b64 json token) as [|[]]; reflexivity.
Qed.

(** X15: a request without a header that starts with "Bearer " has no
    user; a user is named only when the token is a live session or when
    the decoder and the parser both accept the padded second part of the
    token; the tables are never written. *)
Theorem request_without_bearer_has_no_user
    (urlsafe_b64decode : string → exn + string)
    (json_loads : string → exn + dashboard.json) (header : option string)
    (w : world) :
  let r := dashboard.get_user_id_from_request urlsafe_b64decode json_loads
             header w in
  snd r = w
  ∧ (String.prefix "Bearer " (default EmptyString header) = false →
     fst r = PNone)
  ∧ (fst r ≠ PNone →
     ∃ token,
       dashboard.split " "%char (default EmptyString header) !! 1%nat
       = Some token
       ∧ (succeeded (fst (local_auth.verify_token token w)) = true
          ∨ ∃ payload decoded data,
              dashboard.split "."%char token !! 1%nat = Some payload
              ∧ urlsafe_b64decode (dashboard.pad payload) = inr decoded
              ∧ json_loads decoded = inr (dashboard.JObject data)
              ∧ fst r = get data "sub")).
Proof.
  cbn zeta. split; [apply get_user_id_from_request_pure|].
  unfold dashboard.get_user_id_from_request.
  destruct (String.prefix "Bearer " (default EmptyString header)); cbn [negb].
  2:{ split; [intros _; reflexivity | intros H; exfalso; apply H; reflexivity]. }
  split; [discriminate|].
  destruct (_ !! 1%nat) as [token|]; [|intros H; exfalso; apply H; reflexivity].
  rewrite verify_token_eq. cbn [fst].
  destruct (head _) as [u|] eqn:Hhead.
  { intros _. exists token. split; [reflexivity|]. left.
    now rewrite verify_token_eq, Hhead. }
  unfold dashboard.decode_jwt.
  destruct (2 <=? length _)%nat; [|intros H; exfalso; apply H; reflexivity].
  destruct (dashboard.split "."%char token !! 1%nat) as [payload|] eqn:Hp;
    [|intros H; exfalso; apply H; reflexivity].
  cbn [mbind exn_bind].
  destruct (urlsafe_b64decode _) as [e|decoded] eqn:Hd;
    [intros H; exfalso; apply H; reflexivity|].
  cbn [mbind exn_bind].
  destruct (json_loads decoded) as [e|[data|]] eqn:Hj;
    try (intros H; exfalso; apply H; reflexivity).
  cbn. intros _. exists token. split; [reflexivity|]. right.
  exists payload, decoded, data. repeat split; assumption || reflexivity.
Qed.

(** X16: the token of a login identifies the user to the dashboard: with
    the header "Bearer <token>" the request is the one of the user who
    logged in, whatever the decoder and the parser make of the token. *)
Theorem login_token_names_the_user (sha : string → string)
    (urlsafe_b64decode : string → exn + string)
    (json_loads : string → exn + dashboard.json) (email password : string)
    (w : world) (user : local_auth.user_info)
    (session : local_auth.session_info) :
  let w' := snd (local_auth.login_user sha email password w) in
  reachable sha w →
  fst (local_auth.login_user sha email password w) = Success (user, session) →
  dashboard.split " "%char (local_auth.access_token session)
  = [local_auth.access_token session] →
  dashboard.get_user_id_from_request urlsafe_b64decode json_loads
    (Some ("Bearer " +:+ local_auth.access_token session)) w'
  = (PStr (local_auth.ui_id user), w').
Proof.
  cbn zeta. intros Hreach Hlogin Htoken.
  destruct (verify_after_login sha email password w user session Hreach Hlogin)
    as [_ Hverify].
  set (w' := snd _) in *.
  specialize (Hverify (w_now w') (w_utcnow w') (w_current_timestamp w')).
  assert (Hclock : set_clock (w_now w') (w_utcnow w') (w_current_timestamp w') w'
                   = w') by now destruct w'.
  rewrite Hclock in Hverify.
  assert (Hnow : w_now w' = w_now w).
  { subst w'. rewrite login_user_eq.
    destruct (List.find _ _); [|reflexivity].
    destruct (existsb _ _); reflexivity. }
  rewrite Hnow in Hverify.
  assert (Hlt : (w_now w <? w_now w + local_auth.seven_days) = true)
    by (apply Z.ltb_lt; unfold local_auth.seven_days; lia).
  rewrite Hlt in Hverify.
  unfold dashboard.get_user_id_from_request. cbn [default from_option id].
  change ("Bearer " +:+ local_auth.access_token session)
    with ("Bearer" +:+ String " "%char (local_auth.access_token session)).
  rewrite split_word by reflexivity. rewrite Htoken.
  assert (Hprefix : String.prefix "Bearer "
                      ("Bearer" +:+ String " "%char
                                      (local_auth.access_token session))
                    = true)
    by (cbn; now destruct (local_auth.access_token session)).
  rewrite Hprefix. cbn [negb lookup list_lookup].
  pose proof (verify_token_pure (local_auth.access_token session) w') as Hpure.
  destruct (local_auth.verify_token (local_auth.access_token session) w')
    as [r w''].
  cbn in Hverify, Hpure. now subst.
Qed.

Lemma login_token_names_the_user_witness :
  reachable sample_sha256
    (snd (local_auth.register_user sample_sha256 "alice@example.org" "secret"
            "Alice" "" "" world0))
  ∧ dashboard.get_user_id_from_request sample_b64decode sample_json_loads
      (Some ("Bearer " +:+ "uuid-1")) world_session
    = (PStr "uuid-0", world_session).
Proof.
  assert (H : reachable sample_sha256
                (snd (local_auth.register_user sample_sha256
                        "alice@example.org" "secret" "Alice" "" "" world0))).
  { apply reach_register, reach_init. reflexivity. }
  split; [exact H|].
  exact (login_token_names_the_user sample_sha256 sample_b64decode
           sample_json_loads "alice@example.org" "secret" _
           (local_auth.mk_user_info "uuid-0" "alice@example.org"
              (SText "Alice") (SText "") (SText ""))
           (local_auth.mk_session_info "uuid-1" 1700585000) H eq_refl eq_refl).
Defined.

Lemma length_equals_signs (n : nat) :
  String.length (dashboard.equals_signs n) = n.
Proof. induction n as [|n IH]; cbn; [reflexivity | now rewrite IH]. Qed.

Lemma length_append (s t : string) :
  String.length (s +:+ t) = (String.length s + String.length t)%nat.
Proof.
  induction s as [|c s IH]; [reflexivity|].
  change (String.length (String c s +:+ t))
    with (S (String.length (s +:+ t))).
  now rewrite IH.
Qed.

(** X17: the padding always adds between one and four signs and brings the
    length to a multiple of four: a payload whose length already is one
    gets four signs more. *)
Theorem pad_fills_to_a_multiple_of_four (payload : string) :
  ∃ k, dashboard.pad payload = payload +:+ dashboard.equals_signs k
       ∧ (1 <= k <= 4)%nat
       ∧ (String.length (dashboard.pad payload) `mod` 4 = 0)%nat
       ∧ (k = 4%nat ↔ (String.length payload `mod` 4 = 0)%nat).
Proof.
  exists (4 - String.length payload `mod` 4)%nat.
  split; [reflexivity|].
  pose proof (Nat.mod_upper_bound (String.length payload) 4 ltac:(lia)) as Hm.
  split; [lia|]. split; [|lia].
  unfold dashboard.pad. rewrite length_append, length_equals_signs.
  rewrite (Nat.div_mod_eq (String.length payload) 4) at 1.
  replace (4 * (String.length payload `div` 4) + String.length payload `mod` 4
           + (4 - String.length payload `mod` 4))%nat
    with ((1 + String.length payload `div` 4) * 4)%nat by lia.
  apply Nat.Div0.mod_mul.
Qed.

Lemma has_type_counted (type : string) (ts : list local_auth.transaction) :
  type = "credit" ∨ type = "debit" →
  List.filter (dashboard.has_type type) (List.filter counted ts)
  = List.filter (dashboard.has_type type) ts.
Proof.
  intros Htype. rewrite <- filter_and. apply filter_ext. intros t.
  unfold counted. destruct Htype as [-> | ->];
    destruct (dashboard.has_type "credit" t), (dashboard.has_type "debit" t);
    reflexivity.
Qed.

(** The figures of a list that is not empty. *)
Lemma calculate_cons (t : local_auth.transaction)
    (ts : list local_auth.transaction) (start_date end_date : Z) :
  dashboard.calculate_financial_summary_from_data (t :: ts) start_date end_date
  = (total_income ←
       dashboard.py_sum 0
         (map (λ t, dashboard.py_float (local_auth.tx_amount t))
            (List.filter (dashboard.has_type "credit") (t :: ts)));
     total_expenses ←
       dashboard.py_sum 0
         (map (λ t, x ← dashboard.py_float (local_auth.tx_amount t);
                    mret (Qabs x))
            (List.filter (dashboard.has_type "debit") (t :: ts)));
     let months := (inject_Z (end_date - start_date) / (3044 # 100))%Q in
     let months_in_period :=
       if dashboard.Qlt_bool 1 months then months else 1%Q in
     mret (dashboard.mk_financial_summary
             (dashboard.py_int total_income) (dashboard.py_int total_expenses)
             (dashboard.py_int (total_income - total_expenses))
             (dashboard.py_int
                (if dashboard.Qlt_bool 0 months_in_period
                 then total_income / months_in_period else 0))
             (dashboard.py_int
                (if dashboard.Qlt_bool 0 months_in_period
                 then total_expenses / months_in_period else 0))
             (dashboard.py_round1
                (if dashboard.Qlt_bool 0 total_income
                 then (total_income - total_expenses) / total_income * 100
                 else 0)))).
Proof. reflexivity. Qed.

Lemma py_int_zero_div (q : Q) : dashboard.py_int (0 / q) = 0.
Proof.
  unfold dashboard.py_int, Qdiv, Qmult. cbn [Qnum Qden].
  rewrite Z.mul_0_l. apply Z.quot_0_l. discriminate.
Qed.

(** X18: a transaction whose type is neither 'credit' nor 'debit' has no
    part in the financial summary: the summary is the one of the credits
    and debits alone, and without any of them it is the empty summary. *)
Theorem summary_ignores_other_types (ts : list local_auth.transaction)
    (start_date end_date : Z) :
  dashboard.calculate_financial_summary_from_data ts start_date end_date
  = dashboard.calculate_financial_summary_from_data (List.filter counted ts)
      start_date end_date.
Proof.
  destruct ts as [|t ts]; [reflexivity|].
  rewrite calculate_cons.
  rewrite <- (has_type_counted "credit" (t :: ts)) by auto.
  rewrite <- (has_type_counted "debit" (t :: ts)) by auto.
  destruct (List.filter counted (t :: ts)) as [|t' ts'] eqn:Hc.
  - cbn. destruct (dashboard.Qlt_bool 1 _); cbn;
      destruct (dashboard.Qlt_bool 0 _); cbn;
      rewrite ?py_int_zero_div; reflexivity.
  - now rewrite calculate_cons.
Qed.

Lemma Qlt_bool_true (a b : Q) : dashboard.Qlt_bool a b = true → (a < b)%Q.
Proof.
  unfold dashboard.Qlt_bool. intros H. apply negb_true_iff in H.
  apply Qnot_le_lt. intros Hle. apply Qle_bool_iff in Hle. congruence.
Qed.

Lemma py_int_nonneg (q : Q) : (0 <= q)%Q → 0 <= dashboard.py_int q.
Proof.
  unfold Qle, dashboard.py_int. cbn. rewrite Z.mul_1_r. intros H.
  apply Z.quot_pos; lia.
Qed.

Lemma py_int_le (p q : Q) : (0 <= p)%Q → (p <= q)%Q →
  dashboard.py_int p <= dashboard.py_int q.
Proof.
  intros H0 Hle. assert (H0q : (0 <= q)%Q) by (eapply Qle_trans; eassumption).
  unfold Qle in *. unfold dashboard.py_int. cbn in H0, H0q.
  rewrite Z.mul_1_r in H0, H0q.
  rewrite !Z.quot_div_nonneg by lia.
  apply Z.div_le_lower_bound; [lia|].
  assert (Hdiv : Z.pos (Qden p) * (Qnum p / Z.pos (Qden p)) <= Qnum p)
    by (apply Z.mul_div_le; lia).
  nia.
Qed.

Lemma py_int_div_1 (q : Q) : dashboard.py_int (q / 1) = dashboard.py_int q.
Proof.
  unfold dashboard.py_int, Qdiv, Qmult, Qinv. cbn.
  now rewrite Z.mul_1_r, Pos.mul_1_r.
Qed.

Lemma round_half_even_le (q : Q) (n : Z) :
  (q <= inject_Z n)%Q → dashboard.round_half_even q <= n.
Proof.
  intros Hle. unfold dashboard.round_half_even. cbv zeta.
  assert (Hfloor : Qfloor q <= n).
  { rewrite <- (Qfloor_Z n). now apply Qfloor_resp_le. }
  destruct (Z.eq_dec (Qfloor q) n) as [He|Hne].
  - assert (Hlt : (q - inject_Z (Qfloor q) < 1 # 2)%Q).
    { rewrite He. apply (Qle_lt_trans _ 0); [|reflexivity].
      unfold Qminus. rewrite <- (Qplus_opp_r (inject_Z n)).
      apply Qplus_le_l. exact Hle. }
    assert (Hc : (q - inject_Z (Qfloor q) ?= 1 # 2)%Q = Lt)
      by now apply Qlt_alt.
    rewrite Hc. lia.
  - destruct (_ ?= _)%Q; [destruct (Z.even _)|..]; lia.
Qed.

Lemma py_round1_le_100 (q : Q) : (q <= 100)%Q → (dashboard.py_round1 q <= 100)%Q.
Proof.
  intros Hle. unfold dashboard.py_round1. rewrite Qred_correct.
  assert (H : dashboard.round_half_even (q * 10) <= 1000).
  { apply round_half_even_le. change (inject_Z 1000) with (100 * 10)%Q.
    apply Qmult_le_compat_r; [exact Hle | discriminate]. }
  unfold Qle. cbn. lia.
Qed.

Lemma py_sum_abs_nonneg (ts : list local_auth.transaction) (acc total : Q) :
  dashboard.py_sum acc
    (map (λ t, x ← dashboard.py_float (local_auth.tx_amount t); mret (Qabs x))
       ts) = inr total →
  (0 <= acc)%Q → (0 <= total)%Q.
Proof.
  revert acc. induction ts as [|t ts IH]; intros acc; cbn.
  - now intros [= <-].
  - destruct (dashboard.py_float _) as [|x]; [discriminate|]. cbn.
    intros Hsum Hacc. apply (IH _ Hsum).
    rewrite <- (Qplus_0_r 0). apply Qplus_le_compat; [exact Hacc|].
    apply Qabs_nonneg.
Qed.

(** X19: in the financial summary the expenses are never negative, the
    savings rate never exceeds 100, a month's expenses lie between zero and
    the total, and for a window of at most 30 days the monthly figures are
    the totals. *)
Theorem summary_figures_are_bounded (ts : list local_auth.transaction)
    (start_date end_date : Z) (s : dashboard.financial_summary) :
  dashboard.calculate_financial_summary_from_data ts start_date end_date
  = inr s →
  0 <= dashboard.total_expenses s
  ∧ (dashboard.savings_rate s <= 100)%Q
  ∧ 0 <= dashboard.monthly_expenses s <= dashboard.total_expenses s
  ∧ (end_date - start_date <= 30 →
     dashboard.monthly_income s = dashboard.total_income s
     ∧ dashboard.monthly_expenses s = dashboard.total_expenses s).
Proof.
  destruct ts as [|t ts].
  { intros [= <-]. cbn. repeat split; try lia. discriminate. }
  rewrite calculate_cons.
  destruct (dashboard.py_sum 0 (map _ (List.filter (dashboard.has_type "credit") _)))
    as [|income]; [discriminate|].
  cbn [mbind exn_bind].
  destruct (dashboard.py_sum 0 (map _ (List.filter (dashboard.has_type "debit") _)))
    as [|expenses] eqn:He; [discriminate|].
  cbn [mbind exn_bind mret exn_ret]. intros [= <-].
  cbn [dashboard.total_income dashboard.total_expenses dashboard.savings_rate
       dashboard.monthly_income dashboard.monthly_expenses].
  assert (Hexp : (0 <= expenses)%Q)
    by (apply (py_sum_abs_nonneg _ _ _ He); discriminate).
  set (months := (inject_Z (end_date - start_date) / (3044 # 100))%Q).
  set (period := if dashboard.Qlt_bool 1 months then months else 1%Q).
  assert (Hperiod : (1 <= period)%Q).
  { unfold period. destruct (dashboard.Qlt_bool 1 months) eqn:Hm.
    - apply Qlt_le_weak. now apply Qlt_bool_true.
    - discriminate. }
  assert (Hpos : (0 < period)%Q) by (eapply Qlt_le_trans; [|exact Hperiod]; reflexivity).
  assert (Hlt : dashboard.Qlt_bool 0 period = true).
  { unfold dashboard.Qlt_bool. apply negb_true_iff. now apply Qle_bool_false. }
  rewrite Hlt.
  split; [now apply py_int_nonneg|]. split; [|split].
  - apply py_round1_le_100.
    destruct (dashboard.Qlt_bool 0 income) eqn:Hi; [|discriminate].
    apply Qlt_bool_true in Hi.
    rewrite <- (Qmult_1_l 100) at 2. apply Qmult_le_compat_r; [|discriminate].
    apply Qle_shift_div_r; [exact Hi|]. rewrite Qmult_1_l.
    unfold Qminus. rewrite <- (Qplus_0_r income) at 2.
    apply Qplus_le_r. apply (Qopp_le_compat 0). exact Hexp.
  - assert (Hdiv : (0 <= expenses / period)%Q).
    { apply Qle_shift_div_l; [exact Hpos|]. now rewrite Qmult_0_l. }
    split; [now apply py_int_nonneg|].
    apply py_int_le; [exact Hdiv|].
    apply Qle_shift_div_r; [exact Hpos|].
    rewrite (Qmult_comm expenses period).
    rewrite <- (Qmult_1_l expenses) at 1.
    apply Qmult_le_compat_r; assumption.
  - intros Hdays.
    assert (Hm : dashboard.Qlt_bool 1 months = false).
    { apply Qlt_bool_false. unfold months.
      apply Qle_shift_div_r; [reflexivity|]. rewrite Qmult_1_l.
      unfold Qle. cbn. lia. }
    unfold period. rewrite Hm. now rewrite !py_int_div_1.
Qed.

Lemma summary_figures_are_bounded_witness :
  let s := dashboard.mk_financial_summary 50000 40000 10000 50000 40000 20 in
  dashboard.calculate_financial_summary_from_data january 19723 19753 = inr s
  ∧ 0 <= dashboard.total_expenses s
  ∧ (dashboard.savings_rate s <= 100)%Q
  ∧ 0 <= dashboard.monthly_expenses s <= dashboard.total_expenses s
  ∧ (19753 - 19723 <= 30 →
     dashboard.monthly_income s = dashboard.total_income s
     ∧ dashboard.monthly_expenses s = dashboard.total_expenses s).
Proof.
  split; [reflexivity|].
  exact (summary_figures_are_bounded january 19723 19753
           (dashboard.mk_financial_summary 50000 40000 10000 50000 40000 20)
           eq_refl).
Defined.

Lemma py_sum_null_or_number (g : local_auth.transaction → exn + Q)
    (l : list local_auth.transaction) (acc : Q) :
  (∀ t, match local_auth.tx_amount t with
        | SNull => g t = inl TypeError
        | SNum _ => ∃ y, g t = inr y
        | SText _ => True
        end) →
  forallb (λ t, negb (dashboard.is_text (local_auth.tx_amount t))) l = true →
  if existsb (λ t, is_null (local_auth.tx_amount t)) l
  then dashboard.py_sum acc (map g l) = inl TypeError
  else ∃ total, dashboard.py_sum acc (map g l) = inr total.
Proof.
  intros Hg. revert acc. induction l as [|t l IH]; intros acc Hl; cbn.
  - eauto.
  - cbn in Hl. apply andb_true_iff in Hl as [Ht Hl].
    specialize (Hg t). destruct (local_auth.tx_amount t) as [|q|s]; cbn.
    + now rewrite Hg.
    + destruct Hg as [y ->]. cbn. apply IH, Hl.
    + discriminate.
Qed.

Lemma counted_split (P : local_auth.transaction → bool)
    (ts : list local_auth.transaction) :
  existsb P (List.filter counted ts)
  = existsb P (List.filter (dashboard.has_type "credit") ts)
    || existsb P (List.filter (dashboard.has_type "debit") ts).
Proof.
  induction ts as [|t ts IH]; [reflexivity|]. cbn. unfold counted at 1.
  destruct (dashboard.has_type "credit" t), (dashboard.has_type "debit" t);
    cbn; rewrite IH; destruct (P t); cbn; rewrite ?orb_true_r; try reflexivity.
Qed.

Lemma counted_all (P : local_auth.transaction → bool)
    (ts : list local_auth.transaction) (type : string) :
  type = "credit" ∨ type = "debit" →
  forallb P (List.filter counted ts) = true →
  forallb P (List.filter (dashboard.has_type type) ts) = true.
Proof.
  intros Htype. rewrite !forallb_forall. intros H t Ht. apply H.
  apply filter_In in Ht as [Ht Hc]. apply filter_In. split; [exact Ht|].
  unfold counted. destruct Htype as [-> | ->]; rewrite Hc;
    [reflexivity | apply orb_true_r].
Qed.

(** X20: the financial summary is returned when every credit and every
    debit carries a number that binary floating point adds exactly. A
    credit or a debit with a NULL amount, in a window whose credits and
    debits carry no text, makes the whole call raise [TypeError], the one
    of [float(None)]. *)
Theorem summary_needs_numbers (ts : list local_auth.transaction)
    (start_date end_date : Z) :
  (exact_amounts ts = true →
   ∃ s, dashboard.calculate_financial_summary_from_data ts start_date end_date
        = inr s)
  ∧ (existsb (λ t, is_null (local_auth.tx_amount t)) (List.filter counted ts)
     = true →
     forallb (λ t, negb (dashboard.is_text (local_auth.tx_amount t)))
       (List.filter counted ts) = true →
     dashboard.calculate_financial_summary_from_data ts start_date end_date
     = inl TypeError).
Proof.
  split.
  - intros Hx. destruct ts as [|t ts]; [eexists; reflexivity|].
    destruct (summary_of_numbers (t :: ts) start_date end_date) as (s & Hs & _);
      [discriminate | now apply exact_is_numeric | eauto].
  - intros Hnull Htext. destruct ts as [|t ts]; [discriminate|].
    rewrite calculate_cons. rewrite counted_split in Hnull.
    pose proof (py_sum_null_or_number
                  (λ t, dashboard.py_float (local_auth.tx_amount t))
                  (List.filter (dashboard.has_type "credit") (t :: ts)) 0) as Hc.
    pose proof (py_sum_null_or_number
                  (λ t, x ← dashboard.py_float (local_auth.tx_amount t);
                        mret (Qabs x))
                  (List.filter (dashboard.has_type "debit") (t :: ts)) 0) as Hd.
    cbv beta in Hc, Hd.
    destruct (existsb _ (List.filter (dashboard.has_type "credit") (t :: ts))).
    + rewrite Hc; [reflexivity | |].
      * intros x. destruct (local_auth.tx_amount x); cbn; eauto.
      * apply (counted_all _ _ "credit"); auto.
    + destruct Hc as [total ->].
      * intros x. destruct (local_auth.tx_amount x); cbn; eauto.
      * apply (counted_all _ _ "credit"); auto.
      * cbn [mbind exn_bind]. cbn [orb] in Hnull. rewrite Hnull in Hd.
        rewrite Hd; [reflexivity | |].
        -- intros x. destruct (local_auth.tx_amount x); cbn; eauto.
        -- apply (counted_all _ _ "debit"); auto.
Qed.

Lemma round_half_even_Qeq (p q : Q) :
  (p == q)%Q → dashboard.round_half_even p = dashboard.round_half_even q.
Proof.
  intros H. unfold dashboard.round_half_even. cbv zeta.
  assert (Hf : Qfloor p = Qfloor q) by now rewrite H.
  rewrite Hf.
  assert (Hc : (p - inject_Z (Qfloor q) ?= 1 # 2)%Q
               = (q - inject_Z (Qfloor q) ?= 1 # 2)%Q) by now rewrite H.
  now rewrite Hc.
Qed.

Lemma py_round1_Qeq (p q : Q) :
  (p == q)%Q → dashboard.py_round1 p = dashboard.py_round1 q.
Proof.
  intros H. unfold dashboard.py_round1.
  rewrite (round_half_even_Qeq (p * 10) (q * 10)); [reflexivity|].
  now rewrite H.
Qed.

Lemma py_round1_nonpos (q : Q) : (q <= 0)%Q → (dashboard.py_round1 q <= 0)%Q.
Proof.
  intros Hle. unfold dashboard.py_round1. rewrite Qred_correct.
  assert (H : dashboard.round_half_even (q * 10) <= 0).
  { apply round_half_even_le. change (inject_Z 0) with (0 * 10)%Q.
    apply Qmult_le_compat_r; [exact Hle | discriminate]. }
  unfold Qle. cbn. lia.
Qed.

Lemma py_int_ge_1 (q : Q) : (1 <= q)%Q → 1 <= dashboard.py_int q.
Proof.
  intros H. change 1 with (dashboard.py_int 1).
  apply py_int_le; [discriminate | exact H].
Qed.

(** X21: from the ledger to the insight, for a user who spends more than
    they earn, on amounts that binary floating point adds exactly: with an
    income of at least 1 and higher expenses the summary has a savings
    rate of at most zero, and the first insight is the low-savings one: a
    "financial" insight of high impact that asks for action and quotes
    the rate. *)
Theorem overspending_is_flagged {T C : Type} (tax_summary : T)
    (cibil_summary : C) (ts : list local_auth.transaction)
    (start_date end_date : Z) :
  exact_amounts ts = true →
  (1 <= credit_sum ts)%Q → (credit_sum ts < debit_sum ts)%Q →
  ∃ s first,
    dashboard.calculate_financial_summary_from_data ts start_date end_date
    = inr s
    ∧ (dashboard.savings_rate s <= 0)%Q
    ∧ head (dashboard.generate_insights_from_data s tax_summary cibil_summary)
      = Some first
    ∧ dashboard.type first = "financial"
    ∧ dashboard.impact first = "high"
    ∧ dashboard.action_required first = true
    ∧ dashboard.message first
      = [dashboard.Lit "Your savings rate is ";
         dashboard.Fixed1 (dashboard.savings_rate s);
         dashboard.Lit "%. Consider increasing savings to at least 20%"].
Proof.
  intros Hx Hincome Hover. pose proof (exact_is_numeric _ Hx) as Hnum.
  assert (Hne : ts ≠ []).
  { intros ->. cbn in Hincome. now apply Hincome. }
  destruct (summary_of_numbers ts start_date end_date Hne Hnum)
    as (s & Hs & Hti & _ & _ & Hrate).
  exists s, (dashboard.low_savings_insight (dashboard.savings_rate s)).
  split; [exact Hs|].
  assert (Hpos : (0 < credit_sum ts)%Q)
    by (eapply Qlt_le_trans; [|exact Hincome]; reflexivity).
  assert (Hr : (dashboard.savings_rate s <= 0)%Q).
  { rewrite Hrate. unfold rate_of. apply py_round1_nonpos.
    destruct (dashboard.Qlt_bool 0 (credit_sum ts)); [|discriminate].
    rewrite <- (Qmult_0_l 100). apply Qmult_le_compat_r; [|discriminate].
    apply Qle_shift_div_r; [exact Hpos|]. rewrite Qmult_0_l.
    apply Qlt_le_weak. unfold Qminus.
    rewrite <- (Qplus_opp_r (debit_sum ts)). apply Qplus_lt_l. exact Hover. }
  split; [exact Hr|]. split; [|repeat split; reflexivity].
  unfold dashboard.generate_insights_from_data, dashboard.generated_insights.
  assert (Hti0 : (dashboard.total_income s =? 0) = false).
  { apply Z.eqb_neq. rewrite Hti. pose proof (py_int_ge_1 _ Hincome). lia. }
  assert (Hlow : dashboard.Qlt_bool (dashboard.savings_rate s) 10 = true).
  { unfold dashboard.Qlt_bool. apply negb_true_iff, Qle_bool_false.
    eapply Qle_lt_trans; [exact Hr | reflexivity]. }
  rewrite Hti0, Hlow. cbn [app].
  now destruct (0 <? dashboard.monthly_expenses s).
Qed.

Lemma overspending_is_flagged_witness :
  let ts := [reading "2024-01-10" 30000 "credit";
             reading "2024-01-15" 40000 "debit"] in
  ∃ s first,
    dashboard.calculate_financial_summary_from_data ts 19723 19753 = inr s
    ∧ (dashboard.savings_rate s <= 0)%Q
    ∧ head (dashboard.generate_insights_from_data s tt tt) = Some first
    ∧ dashboard.type first = "financial"
    ∧ dashboard.impact first = "high"
    ∧ dashboard.action_required first = true
    ∧ dashboard.message first
      = [dashboard.Lit "Your savings rate is ";
         dashboard.Fixed1 (dashboard.savings_rate s);
         dashboard.Lit "%. Consider increasing savings to at least 20%"].
Proof.
  apply (overspending_is_flagged tt tt
           [reading "2024-01-10" 30000 "credit";
            reading "2024-01-15" 40000 "debit"] 19723 19753);
    [reflexivity | discriminate | reflexivity].
Defined.

(** X22: from the ledger to the insight, for a user with an income of at
    least 1 and no debit at all, on amounts that binary floating point
    adds exactly: the savings rate is 100, the expenses are 0 and there
    is one insight, the "excellent" one: a "financial" insight of
    positive impact that asks for no action. *)
Theorem no_expenses_is_excellent {T C : Type} (tax_summary : T)
    (cibil_summary : C) (ts : list local_auth.transaction)
    (start_date end_date : Z) :
  exact_amounts ts = true →
  (1 <= credit_sum ts)%Q →
  List.filter (dashboard.has_type "debit") ts = [] →
  ∃ s only,
    dashboard.calculate_financial_summary_from_data ts start_date end_date
    = inr s
    ∧ dashboard.savings_rate s = 100%Q
    ∧ dashboard.total_expenses s = 0
    ∧ dashboard.generate_insights_from_data s tax_summary cibil_summary
      = [only]
    ∧ dashboard.type only = "financial"
    ∧ dashboard.impact only = "positive"
    ∧ dashboard.action_required only = false
    ∧ dashboard.message only
      = [dashboard.Lit "Excellent! Your savings rate of ";
         dashboard.Fixed1 100;
         dashboard.Lit "% is outstanding. Keep it up!"].
Proof.
  intros Hx Hincome Hdebit. pose proof (exact_is_numeric _ Hx) as Hnum.
  destruct ts as [|t ts]; [exfalso; now apply Hincome|].
  pose proof (summary_of_numbers (t :: ts) start_date end_date
                ltac:(discriminate) Hnum) as (s & Hs & Hti & Hte & _ & Hrate).
  exists s, (dashboard.excellent_insight 100). split; [exact Hs|].
  assert (Hd : debit_sum (t :: ts) = 0%Q) by (unfold debit_sum; now rewrite Hdebit).
  assert (Hpos : (0 < credit_sum (t :: ts))%Q)
    by (eapply Qlt_le_trans; [|exact Hincome]; reflexivity).
  assert (Hr : dashboard.savings_rate s = 100%Q).
  { rewrite Hrate, Hd. unfold rate_of.
    assert (Hlt : dashboard.Qlt_bool 0 (credit_sum (t :: ts)) = true).
    { unfold dashboard.Qlt_bool. apply negb_true_iff. now apply Qle_bool_false. }
    rewrite Hlt. rewrite (py_round1_Qeq _ 100); [reflexivity|].
    field. intros H0. rewrite H0 in Hpos. now apply (Qlt_irrefl 0). }
  assert (Hme : dashboard.monthly_expenses s = 0).
  { rewrite calculate_cons, Hdebit in Hs.
    destruct (dashboard.py_sum 0 (map _ (List.filter (dashboard.has_type "credit") _)))
      as [|income]; [discriminate|].
    cbn in Hs. injection Hs as <-. cbn.
    destruct (dashboard.Qlt_bool 0 _); [apply py_int_zero_div | reflexivity]. }
  split; [exact Hr|]. split; [now rewrite Hte, Hd|].
  unfold dashboard.generate_insights_from_data, dashboard.generated_insights.
  assert (Hti0 : (dashboard.total_income s =? 0) = false).
  { apply Z.eqb_neq. rewrite Hti. pose proof (py_int_ge_1 _ Hincome). lia. }
  rewrite Hti0, Hr, Hme. repeat split; reflexivity.
Qed.

Lemma no_expenses_is_excellent_witness :
  ∃ s only,
    dashboard.calculate_financial_summary_from_data
      [reading "2024-01-10" 30000 "credit"] 19723 19753 = inr s
    ∧ dashboard.savings_rate s = 100%Q
    ∧ dashboard.total_expenses s = 0
    ∧ dashboard.generate_insights_from_data s tt tt = [only]
    ∧ dashboard.type only = "financial"
    ∧ dashboard.impact only = "positive"
    ∧ dashboard.action_required only = false
    ∧ dashboard.message only
      = [dashboard.Lit "Excellent! Your savings rate of ";
         dashboard.Fixed1 100;
         dashboard.Lit "% is outstanding. Keep it up!"].
Proof.
  apply (no_expenses_is_excellent tt tt [reading "2024-01-10" 30000 "credit"]
           19723 19753); [reflexivity | discriminate | reflexivity].
Defined.

(** *** Recent activity *)

Lemma each_inr {A B} (f : A → exn + B) (l : list A) (ys : list B) :
  dashboard.each f l = inr ys → Forall2 (λ x y, f x = inr y) l ys.
Proof.
  revert ys. induction l as [|x l IH]; intros ys; cbn.
  - intros [= <-]. constructor.
  - destruct (f x) as [|y] eqn:Hx; [discriminate|]. cbn.
    destruct (dashboard.each f l) as [|ys']; [discriminate|]. cbn.
    intros [= <-]. constructor; [exact Hx | now apply IH].
Qed.





(** A list in descending order is left as it is. *)
Lemma order_desc_sorted_id {A} (key : A → sqlval) (l : list A) :
  Sorted (date_desc key) l → order_desc key l = l.
Proof.
  induction 1 as [|x l Hs IH Hhd]; [reflexivity|].
  rewrite order_desc_cons, IH.
  destruct Hhd as [|y l Hxy]; [reflexivity|]. cbn.
  unfold date_desc in Hxy. rewrite order_compare_antisym.
  destruct (order_compare (key x) (key y)); cbn; congruence.
Qed.

Lemma each_length {A B} (f : A → exn + B) (l : list A) (ys : list B) :
  dashboard.each f l = inr ys → length ys = length l.
Proof.
  intros H. apply each_inr in H. symmetry. exact (Forall2_length _ _ _ H).
Qed.

(** X24: called as the dashboard calls it, without file records and on a
    listing that has the newest row first, the recent activity is made of
    the first three rows of the listing, in the order of the listing: the
    second sorting changes nothing. It raises when the dates of two or
    more rows are not all texts or all numbers. *)
Theorem recent_activity_of_a_listing (now_iso : string)
    (ts : list local_auth.transaction) :
  Sorted (date_desc local_auth.tx_date) ts →
  dashboard.get_recent_activity_from_data now_iso [] ts
  = if dashboard.comparable (map local_auth.tx_date ts)
    then dashboard.each dashboard.transaction_activity (take 3 ts)
    else inl TypeError.
Proof.
  intros Hsorted.
  unfold dashboard.get_recent_activity_from_data, dashboard.sorted_by_date.
  cbn [dashboard.each mbind exn_bind].
  destruct (dashboard.comparable _); [|reflexivity]. cbn [mbind exn_bind].
  rewrite order_desc_sorted_id by exact Hsorted.
  destruct (dashboard.each _ _) as [|recent] eqn:Hr; [reflexivity|].
  cbn. apply each_length in Hr. rewrite length_take in Hr.
  rewrite take_ge by lia. reflexivity.
Qed.

Lemma recent_activity_of_a_listing_witness :
  Sorted (date_desc local_auth.tx_date) (ledger_of "alice" world_two_users)
  ∧ dashboard.get_recent_activity_from_data "2024-02-01T10:00:00" []
      (ledger_of "alice" world_two_users)
    = if dashboard.comparable
           (map local_auth.tx_date (ledger_of "alice" world_two_users))
      then dashboard.each dashboard.transaction_activity
             (take 3 (ledger_of "alice" world_two_users))
      else inl TypeError.
Proof.
  assert (H : Sorted (date_desc local_auth.tx_date)
                (ledger_of "alice" world_two_users))
    by (rewrite ledger_of_eq; apply listing_sorted).
  split; [exact H|].
  exact (recent_activity_of_a_listing "2024-02-01T10:00:00" _ H).
Defined.

(** ** The upload *)

Lemma lower_char_dot (c : ascii) :
  Ascii.eqb (file_processing.lower_char c) "."%char = Ascii.eqb c "."%char.
Proof. destruct c as [[] [] [] [] [] [] [] []]; reflexivity. Qed.

Lemma lower_char_idem (c : ascii) :
  file_processing.lower_char (file_processing.lower_char c)
  = file_processing.lower_char c.
Proof. destruct c as [[] [] [] [] [] [] [] []]; reflexivity. Qed.

Lemma lower_idem (s : string) :
  file_processing.lower (file_processing.lower s) = file_processing.lower s.
Proof.
  induction s as [|c s IH]; [reflexivity|]. cbn.
  now rewrite lower_char_idem, IH.
Qed.

Lemma lower_append (a b : string) :
  file_processing.lower (a +:+ b)
  = file_processing.lower a +:+ file_processing.lower b.
Proof.
  induction a as [|c a IH]; [reflexivity|].
  change (String c a +:+ b) with (String c (a +:+ b)). cbn [file_processing.lower].
  rewrite IH. reflexivity.
Qed.

Lemma after_last_dot_lower (s : string) :
  file_processing.after_last_dot (file_processing.lower s)
  = file_processing.lower <$> file_processing.after_last_dot s.
Proof.
  induction s as [|c s IH]; [reflexivity|].
  cbn [file_processing.lower file_processing.after_last_dot].
  rewrite IH, lower_char_dot.
  destruct (file_processing.after_last_dot s); [reflexivity|]. cbn.
  now destruct (Ascii.eqb c ".").
Qed.

Lemma after_last_dot_append (base extension : string) :
  file_processing.after_last_dot extension = None →
  file_processing.after_last_dot (base +:+ String "."%char extension)
  = Some extension.
Proof.
  intros He. induction base as [|c base IH].
  - change (EmptyString +:+ String "."%char extension)
      with (String "."%char extension).
    cbn. now rewrite He.
  - change (String c base +:+ String "."%char extension)
      with (String c (base +:+ String "."%char extension)).
    cbn [file_processing.after_last_dot]. now rewrite IH.
Qed.

Lemma after_last_dot_split (s extension : string) :
  file_processing.after_last_dot s = Some extension →
  file_processing.after_last_dot extension = None
  ∧ ∃ base, s = base +:+ String "."%char extension.
Proof.
  revert extension. induction s as [|c s IH]; intros extension; cbn;
    [discriminate|].
  destruct (file_processing.after_last_dot s) as [e|] eqn:Hs.
  - intros [= <-]. destruct (IH e eq_refl) as [He [base ->]].
    split; [exact He|]. now exists (String c base).
  - destruct (Ascii.eqb_spec c "."%char) as [->|]; [|discriminate].
    intros [= <-]. split; [exact Hs|]. now exists EmptyString.
Qed.

Lemma endswith_append (suffix base : string) :
  file_processing.endswith suffix (base +:+ suffix) = true.
Proof.
  induction base as [|c base IH].
  - change (EmptyString +:+ suffix) with suffix.
    destruct suffix; cbn [file_processing.endswith];
      now rewrite String.eqb_refl.
  - change (String c base +:+ suffix) with (String c (base +:+ suffix)).
    cbn [file_processing.endswith]. rewrite IH. apply orb_true_r.
Qed.

Lemma endswith_split (suffix s : string) :
  file_processing.endswith suffix s = true → ∃ base, s = base +:+ suffix.
Proof.
  induction s as [|c s IH]; cbn [file_processing.endswith].
  - rewrite orb_false_r. intros H. apply String.eqb_eq in H. subst.
    now exists EmptyString.
  - intros H. apply orb_true_iff in H as [H|H].
    + apply String.eqb_eq in H. subst. now exists EmptyString.
    + destruct (IH H) as [base ->]. now exists (String c base).
Qed.

(** A name ends with a dot and an extension without a dot exactly when
    the extension is what follows its last dot. *)
Lemma endswith_extension (extension s : string) :
  file_processing.after_last_dot extension = None →
  file_processing.endswith (String "."%char extension) s
  = bool_decide (file_processing.after_last_dot s = Some extension).
Proof.
  intros He. destruct (file_processing.endswith _ s) eqn:Hend; symmetry.
  - apply bool_decide_eq_true. apply endswith_split in Hend as [base ->].
    now apply after_last_dot_append.
  - apply bool_decide_eq_false. intros Hs.
    apply after_last_dot_split in Hs as [_ [base ->]].
    now rewrite endswith_append in Hend.
Qed.

(** X25: a file name is allowed exactly when it has a dot and the text
    after its last dot is csv, xlsx, xls or pdf in any mix of upper and
    lower case: what stands before the last dot does not matter, and a name
    without a dot is refused. *)
Theorem allowed_file_by_extension (base extension : string) :
  file_processing.after_last_dot extension = None →
  file_processing.allowed_file (base +:+ String "."%char extension)
  = existsb (String.eqb (file_processing.lower extension))
      file_processing.ALLOWED_EXTENSIONS
  ∧ file_processing.allowed_file (base +:+ String "."%char extension)
    = file_processing.allowed_file
        (String "."%char (file_processing.lower extension))
  ∧ file_processing.allowed_file extension = false.
Proof.
  intros He. unfold file_processing.allowed_file.
  rewrite after_last_dot_append by exact He.
  assert (Hl : file_processing.after_last_dot (file_processing.lower extension)
               = None) by now rewrite after_last_dot_lower, He.
  change (String "."%char (file_processing.lower extension))
    with (EmptyString +:+ String "."%char (file_processing.lower extension)).
  rewrite after_last_dot_append by exact Hl.
  now rewrite lower_idem, He.
Qed.

Lemma allowed_file_by_extension_witness :
  file_processing.allowed_file ("statement.2024" +:+ String "."%char "PDF")
  = existsb (String.eqb (file_processing.lower "PDF"))
      file_processing.ALLOWED_EXTENSIONS
  ∧ file_processing.allowed_file ("statement.2024" +:+ String "."%char "PDF")
    = file_processing.allowed_file
        (String "."%char (file_processing.lower "PDF"))
  ∧ file_processing.allowed_file "PDF" = false.
Proof.
  exact (allowed_file_by_extension "statement.2024" "PDF" eq_refl).
Defined.

(** X26: a file name that [allowed_file] accepts always gets a type from
    its name when the form gives none: 'bank_statement' for a pdf and
    'financial_data' for the others, so the type 'document' is never
    given to an upload that is processed. *)
Theorem allowed_file_has_a_known_type (filename : string) :
  file_processing.allowed_file filename = true →
  ∃ extension,
    file_processing.after_last_dot filename = Some extension
    ∧ ∀ form_file_type,
        form_file_type = None ∨ form_file_type = Some "unknown" →
        file_processing.detect_file_type form_file_type filename
        = if String.eqb (file_processing.lower extension) "pdf"
          then "bank_statement" else "financial_data".
Proof.
  unfold file_processing.allowed_file.
  destruct (file_processing.after_last_dot filename) as [extension|] eqn:Hext;
    [|discriminate].
  intros Hallowed. exists extension. split; [reflexivity|].
  intros form_file_type Hform.
  assert (Hunknown : String.eqb (default "unknown" form_file_type) "unknown"
                     = true) by (destruct Hform as [-> | ->]; reflexivity).
  unfold file_processing.detect_file_type. cbv zeta. rewrite Hunknown.
  rewrite !endswith_extension by reflexivity.
  rewrite after_last_dot_lower, Hext. cbn [fmap option_fmap option_map].
  cbn in Hallowed. rewrite orb_false_r in Hallowed.
  repeat (apply orb_true_iff in Hallowed as [Hallowed|Hallowed]);
    apply String.eqb_eq in Hallowed; rewrite Hallowed; reflexivity.
Qed.

Lemma allowed_file_has_a_known_type_witness :
  ∃ extension,
    file_processing.after_last_dot "Ledger.XLSX" = Some extension
    ∧ ∀ form_file_type,
        form_file_type = None ∨ form_file_type = Some "unknown" →
        file_processing.detect_file_type form_file_type "Ledger.XLSX"
        = if String.eqb (file_processing.lower extension) "pdf"
          then "bank_statement" else "financial_data".
Proof.
  exact (allowed_file_has_a_known_type "Ledger.XLSX" eq_refl).
Defined.

Lemma count_category_counted (category : pyval) (amount : Q)
    (categories : list (pyval * (Z * Q))) :
  counted_rows (file_processing.count_category category amount categories)
  = counted_rows categories + 1
  ∧ (Forall (λ entry, 1 <= fst (snd entry)) categories →
     Forall (λ entry, 1 <= fst (snd entry))
       (file_processing.count_category category amount categories)).
Proof.
  unfold counted_rows.
  induction categories as [|[c [n total]] rest [IH1 IH2]]; cbn.
  - split; [reflexivity|]. intros _. constructor; [cbn; lia | constructor].
  - destruct (file_processing.key_eq c category); cbn.
    + split; [lia|]. intros H. inversion_clear H as [|? ? Hn Hrest].
      constructor; [cbn in *; lia | exact Hrest].
    + split; [rewrite IH1; lia|]. intros H.
      inversion_clear H as [|? ? Hn Hrest]. constructor; auto.
Qed.

Lemma category_breakdown_counted (processed : list pydict)
    (categories result : list (pyval * (Z * Q))) :
  file_processing.category_breakdown processed categories = inr result →
  counted_rows result = counted_rows categories + Z.of_nat (length processed)
  ∧ (Forall (λ entry, 1 <= fst (snd entry)) categories →
     Forall (λ entry, 1 <= fst (snd entry)) result).
Proof.
  revert categories. induction processed as [|t rest IH]; intros categories.
  - cbn. intros [= <-]. split; [lia | auto].
  - cbn [file_processing.category_breakdown].
    destruct (getitem t "category") as [|c]; [discriminate|]. cbn [mbind exn_bind].
    destruct (file_processing.hashable c) as [|c']; [discriminate|].
    cbn [mbind exn_bind].
    destruct (getitem t "amount") as [|a]; [discriminate|]. cbn [mbind exn_bind].
    destruct (file_processing.py_number a) as [|q]; [discriminate|].
    cbn [mbind exn_bind]. intros H. apply IH in H as [H1 H2].
    destruct (count_category_counted c' q categories) as [C1 C2].
    split; [rewrite H1, C1; cbn [length]; lia | auto].
Qed.

(** X27: in the statistics of an upload every built record is counted in
    exactly one category, the one without a category ([None]) included: the
    counts of the categories add up to [transactions_count], each category
    counts at least one record, and the answer lists the records as they
    were built. *)
Theorem statistics_count_every_record (processed : list pydict)
    (results : file_processing.processing_results) :
  file_processing.statistics processed = inr results →
  file_processing.transactions_count results = Z.of_nat (length processed)
  ∧ counted_rows (file_processing.categories results)
    = file_processing.transactions_count results
  ∧ Forall (λ entry, 1 <= fst (snd entry)) (file_processing.categories results)
  ∧ file_processing.transactions results = processed.
Proof.
  unfold file_processing.statistics. intros H.
  repeat match type of H with
         | (?m ≫= _) = inr _ =>
             destruct m eqn:?; [discriminate|]; cbn [mbind exn_bind] in H
         end.
  injection H as <-. cbn.
  match goal with
  | Hc : file_processing.category_breakdown _ _ = inr _ |- _ =>
      apply category_breakdown_counted in Hc as [H1 H2]
  end.
  repeat split; [exact H1 | apply H2; constructor].
Qed.

Lemma statistics_count_every_record_witness :
  let processed :=
    file_processing.categorize_all sample_categorizer "uuid-0" "alice"
      "2024-02-01T10:00:00" batch_of_4 in
  ∃ results,
    file_processing.statistics processed = inr results
    ∧ file_processing.transactions_count results = Z.of_nat (length processed)
    ∧ counted_rows (file_processing.categories results)
      = file_processing.transactions_count results
    ∧ Forall (λ entry, 1 <= fst (snd entry))
        (file_processing.categories results)
    ∧ file_processing.transactions results = processed.
Proof.
  cbv zeta. eexists.
  refine (let H := _ in conj H (statistics_count_every_record _ _ H)).
  vm_compute. reflexivity.
Defined.

Section FailedUpload.
Variable categorize_transaction : pyval → pyval → exn + pydict.
Variables profile_id file_name file_type : string.
Variable file_size : Z.

(** X28: an upload that fails has a cause, and may have stored its
    transactions all the same. When the parser raised, the answer is
    status 500, "File processing failed", with the four suggestions and
    no results, and the tables are untouched. When the statistics raise
    (an amount that is not a number), the answer is the same, and yet,
    with a random source that gives new identifiers, every record that
    could be stored is in the table under the user of the upload, so that
    a second upload of the file stores the rows a second time. *)
Theorem failed_upload_keeps_what_was_stored (parsed : exn + list pydict)
    (w : world) :
  let r := file_processing.process_uploaded_file categorize_transaction
             profile_id file_name file_type file_size parsed w in
  let records ts :=
    file_processing.categorize_all categorize_transaction (next_id w)
      profile_id (w_utcnow w) ts in
  (∀ e, parsed = inl e →
     file_processing.status_code (fst r) = 500
     ∧ file_processing.message (fst r) = "File processing failed"
     ∧ file_processing.suggestions_of (fst r)
       = file_processing.failure_suggestions
     ∧ file_processing.results_of (fst r) = None
     ∧ w_db (snd r) = w_db w)
  ∧ (∀ ts e, parsed = inr ts →
       file_processing.statistics (records ts) = inl e → fresh_supply w →
       file_processing.status_code (fst r) = 500
       ∧ file_processing.message (fst r) = "File processing failed"
       ∧ file_processing.suggestions_of (fst r)
         = file_processing.failure_suggestions
       ∧ file_processing.results_of (fst r) = None
       ∧ ∃ added,
           transactions (w_db (snd r)) = transactions (w_db w) ++ added
           ∧ length added = length (List.filter storable (records ts))
           ∧ Forall (λ row, t_user_id row = SText profile_id) added
           ∧ (forallb typed (records ts) = true →
              added = stored_rows (records ts) (consume w))).
Proof.
  cbv zeta. split.
  - intros e ->. cbn. repeat split; reflexivity.
  - intros ts e -> Hstat Hf.
    assert (Hne : ts ≠ []) by (intros ->; discriminate).
    destruct (process_batch categorize_transaction profile_id file_name
                file_type file_size ts w Hne Hf) as [Hw Hres].
    rewrite Hstat in Hres.
    assert (Hshape :
              file_processing.status_code
                (fst (file_processing.process_uploaded_file
                        categorize_transaction profile_id file_name file_type
                        file_size (inr ts) w)) = 500
              ∧ file_processing.message
                  (fst (file_processing.process_uploaded_file
                          categorize_transaction profile_id file_name
                          file_type file_size (inr ts) w))
                = "File processing failed"
              ∧ file_processing.suggestions_of
                  (fst (file_processing.process_uploaded_file
                          categorize_transaction profile_id file_name
                          file_type file_size (inr ts) w))
                = file_processing.failure_suggestions).
    { clear Hw Hres. destruct ts as [|c l]; [contradiction|].
      unfold file_processing.process_uploaded_file, draw.
      cbv beta iota zeta. cbn [w_utcnow]. fold (next_id w).
      destruct (file_processing.store_all _ 0 _) as [n w2].
      rewrite Hstat. cbn. repeat split; reflexivity. }
    destruct Hshape as (Hc & Hm & Hs).
    repeat (split; [assumption|]).
    eexists. split; [rewrite Hw, after_stores_rows; reflexivity|].
    split; [apply stored_rows_length|]. split; [|reflexivity].
    apply List.Forall_forall. intros row Hin.
    eapply stored_rows_user; [|exact Hin].
    intros rec. apply built_user_id.
Qed.

End FailedUpload.

Lemma failed_upload_keeps_what_was_stored_witness :
  let r := file_processing.process_uploaded_file sample_categorizer "alice"
             "statement.csv" "financial_data" 2048 (inr text_amount_batch)
             world0 in
  fresh_supply world0
  ∧ file_processing.status_code (fst r) = 500
  ∧ file_processing.message (fst r) = "File processing failed"
  ∧ file_processing.results_of (fst r) = None
  ∧ ∃ added,
      transactions (w_db (snd r)) = transactions (w_db world0) ++ added
      ∧ length added = 1%nat
      ∧ Forall (λ row, t_user_id row = SText "alice") added.
Proof.
  cbv zeta. split; [exact world0_fresh_supply|].
  destruct (proj2 (failed_upload_keeps_what_was_stored sample_categorizer
                     "alice" "statement.csv" "financial_data" 2048
                     (inr text_amount_batch) world0)
              text_amount_batch TypeError eq_refl eq_refl world0_fresh_supply)
    as (Hc & Hm & _ & Hr & added & Hrows & Hlen & Huser & _).
  split; [exact Hc|]. split; [exact Hm|]. split; [exact Hr|].
  exists added. split; [exact Hrows|]. split; [|exact Huser].
  rewrite Hlen. reflexivity.
Defined.
